(** * TradoVerse backtesting engine: a shallow embedding and its properties

    Source: [backend/app/services/backtesting.py].

    Modelling choices.
    - A Python [float] is an exact rational ([Q]); rounding error, infinities
      and overflow are not modelled.  The one NaN the module can produce
      ([np.mean] of an empty slice) is [None] in an [option].
    - Values that pass through a square root ([np.std], [np.sqrt]) live in
      [R], reached from [Q] through [Q2R].
    - A [dict] is an association list in insertion order with unique keys.
    - A Python exception is the [Raise] case of the result type [Res].
    - The network fetch of [fetch_historical_data] (with its synthetic
      fallback) is a function [provider] from a symbol to its series.
    - The date of the simulation is the proleptic Gregorian ordinal of its
      day ([toordinal()]); its time of day, that of [start_date] on every
      bar, is not modelled. *)

From Stdlib Require Import QArith Qround Qabs Reals Qreals.
From Stdlib Require Import ZArith Lia Psatz String List Bool.
Import ListNotations.

Open Scope Q_scope.

(** ** Python values and exceptions *)

Inductive Exn : Type :=
| ZeroDivisionError
| ValueError
| IndexError
| KeyError
| OverflowError.

Inductive Res (A : Type) : Type :=
| Ok (a : A)
| Raise (e : Exn).

Arguments Ok {A} a.
Arguments Raise {A} e.

Definition bind {A B : Type} (c : Res A) (k : A -> Res B) : Res B :=
  match c with
  | Ok a => k a
  | Raise e => Raise e
  end.

Notation "x <- c ;; k" := (bind c (fun x => k))
  (at level 61, c at next level, right associativity).

(** [for x in l: acc = f(acc, x)], stopping at the first exception. *)
Fixpoint foldM {A S : Type} (f : S -> A -> Res S) (l : list A) (s : S) : Res S :=
  match l with
  | [] => Ok s
  | x :: l' => s' <- f s x ;; foldM f l' s'
  end.

(** ** Comparisons and arithmetic on floats *)

Definition Qltb (a b : Q) : bool := negb (Qle_bool b a).
Definition Qleb (a b : Q) : bool := Qle_bool a b.

(** [a / b] on Python floats raises on a zero denominator. *)
Definition py_div (a b : Q) : Res Q :=
  if Qeq_bool b 0 then Raise ZeroDivisionError else Ok (a / b).

(** The builtin [sum]: starts from 0 and adds from the left. *)
Definition py_sum (l : list Q) : Q := fold_left Qplus l 0.

(** The builtin two-argument [max]: the first argument unless the second is
    strictly larger. *)
Definition py_max (a b : Q) : Q := if Qltb a b then b else a.

(** The builtin [round(x, ndigits)]: to the nearest multiple of
    [10^-ndigits], a tie going to the even one. *)
Definition round_half_even (x : Q) : Z :=
  let n := Qfloor x in
  let r := x - inject_Z n in
  if Qltb r 0.5 then n
  else if Qltb 0.5 r then (n + 1)%Z
  else if Z.even n then n else (n + 1)%Z.

Definition py_round (x : Q) (ndigits : nat) : Q :=
  let scale := inject_Z (10 ^ Z.of_nat ndigits) in
  inject_Z (round_half_even (x * scale)) / scale.

Definition round_half_even_R (x : R) : Z :=
  let n := Int_part x in
  let r := (x - IZR n)%R in
  if Rlt_dec r (1 / 2) then n
  else if Rlt_dec (1 / 2) r then (n + 1)%Z
  else if Z.even n then n else (n + 1)%Z.

Definition py_round_R (x : R) (ndigits : nat) : R :=
  let scale := IZR (10 ^ Z.of_nat ndigits) in
  (IZR (round_half_even_R (x * scale)) / scale)%R.

(** ** Lists and dicts *)

(** Normalisation of a slice bound: a negative bound counts from the end,
    and the result is clamped to [0, len]. *)
Definition slice_bound (len i : Z) : Z :=
  if (i <? 0)%Z then Z.max 0 (i + len) else Z.min i len.

(** [l[a:b]] *)
Definition py_slice {A : Type} (l : list A) (a b : Z) : list A :=
  let len := Z.of_nat (length l) in
  let lo := slice_bound len a in
  let hi := slice_bound len b in
  firstn (Z.to_nat (hi - lo)) (skipn (Z.to_nat lo) l).

(** [l[i]] *)
Definition py_index {A : Type} (l : list A) (i : Z) : Res A :=
  let j := if (i <? 0)%Z then (i + Z.of_nat (length l))%Z else i in
  if (j <? 0)%Z then Raise IndexError
  else match nth_error l (Z.to_nat j) with
       | Some x => Ok x
       | None => Raise IndexError
       end.

Definition dict (V : Type) : Type := list (string * V).

Fixpoint dict_find {V : Type} (d : dict V) (k : string) : option V :=
  match d with
  | [] => None
  | (k', v) :: d' => if String.eqb k k' then Some v else dict_find d' k
  end.

(** [k in d] *)
Definition dict_mem {V : Type} (d : dict V) (k : string) : bool :=
  match dict_find d k with Some _ => true | None => false end.

(** [d[k]] *)
Definition dict_get {V : Type} (d : dict V) (k : string) : Res V :=
  match dict_find d k with Some v => Ok v | None => Raise KeyError end.

(** [d[k] = v]: an existing key keeps its place, a new one goes last. *)
Fixpoint dict_set {V : Type} (d : dict V) (k : string) (v : V) : dict V :=
  match d with
  | [] => [(k, v)]
  | (k', v') :: d' =>
      if String.eqb k k' then (k', v) :: d' else (k', v') :: dict_set d' k v
  end.

(** [del d[k]] for a key that is present. *)
Fixpoint dict_del {V : Type} (d : dict V) (k : string) : dict V :=
  match d with
  | [] => []
  | (k', v') :: d' =>
      if String.eqb k k' then d' else (k', v') :: dict_del d' k
  end.

Definition dict_keys {V : Type} (d : dict V) : list string := map fst d.
Definition dict_values {V : Type} (d : dict V) : list V := map snd d.

(** ** Dates *)

(** [datetime.max.toordinal()]: the ordinal of 9999-12-31. *)
Definition date_max_ordinal : Z := 3652059.

(** [d + timedelta(days=1)] on the ordinal of the day of a [datetime]: it
    raises when the result is past 9999-12-31. *)
Definition add_day (d : Z) : Res Z :=
  if (d + 1 <=? date_max_ordinal)%Z then Ok (d + 1)%Z
  else Raise OverflowError.

(** ** numpy *)

Definition mean (l : list Q) : Q := py_sum l / inject_Z (Z.of_nat (length l)).

(** [np.mean]: NaN ([None]) on an empty sequence. *)
Definition np_mean (l : list Q) : option Q :=
  match l with
  | [] => None
  | _ => Some (mean l)
  end.

(** The population variance, of which [np.std] is the square root. *)
Definition variance (l : list Q) : Q :=
  let m := mean l in
  mean (map (fun x => (x - m) * (x - m)) l).

Definition std (l : list Q) : R := sqrt (Q2R (variance l)).

(** [np.std]: NaN on an empty sequence. *)
Definition np_std (l : list Q) : option R :=
  match l with
  | [] => None
  | _ => Some (std l)
  end.

(** ** Data model *)

Record Position : Type := mkPosition {
  pos_symbol : string;
  pos_quantity : Q;
  pos_entry_price : Q;
  pos_entry_date : Z;
  pos_side : string
}.

Record Trade : Type := mkTrade {
  tr_symbol : string;
  tr_side : string;
  tr_entry_price : Q;
  tr_exit_price : Q;
  tr_quantity : Q;
  tr_entry_date : Z;
  tr_exit_date : Z;
  tr_pnl : Q;
  tr_pnl_percent : Q
}.

(** An entry of [state.equity_curve]. *)
Record EquityPoint : Type := mkEquityPoint {
  ep_timestamp : Z;
  ep_equity : Q;
  ep_cash : Q;
  ep_positions_value : Q
}.

Record BacktestState : Type := mkState {
  st_date : Z;
  st_cash : Q;
  st_positions : dict Position;
  st_equity : Q;
  st_trades : list Trade;
  st_equity_curve : list EquityPoint
}.

(** What [fetch_historical_data] stores for a symbol, as far as the engine
    reads it. *)
Record MarketSeries : Type := mkSeries {
  timestamps : list Z;
  close : list Q
}.

Inductive StrategyType : Type :=
| MOMENTUM
| MEAN_REVERSION
| TREND_FOLLOWING
| ARBITRAGE
| ML_BASED
| OTHER.

Inductive Signal : Type := buy | sell | hold.

(** The strategy parameters: a missing key is [None]. *)
Record Params : Type := mkParams {
  p_short_period : option Z;
  p_long_period : option Z;
  p_period : option Z;
  p_std_dev : option Q;
  p_lookback : option Z
}.

Definition no_params : Params := mkParams None None None None None.

(** [params.get(key, default)] *)
Definition get {A : Type} (o : option A) (default : A) : A :=
  match o with Some v => v | None => default end.

(** ** Strategies *)

(** Arithmetic and comparison on a float that may be NaN: NaN propagates
    through arithmetic and every comparison with it is false. *)
Definition nan_mul (a : option Q) (b : Q) : option Q :=
  match a with Some x => Some (x * b) | None => None end.

Definition nan_lt (a b : option Q) : bool :=
  match a, b with
  | Some x, Some y => Qltb x y
  | _, _ => false
  end.

Definition nanR_lt (a b : option R) : bool :=
  match a, b with
  | Some x, Some y => if Rlt_dec x y then true else false
  | _, _ => false
  end.

Definition py_min (a b : Q) : Q := if Qltb b a then b else a.

(** The builtins [max] and [min] on a list: [ValueError] when it is empty. *)
Definition max_list (l : list Q) : Res Q :=
  match l with
  | [] => Raise ValueError
  | x :: l' => Ok (fold_left py_max l' x)
  end.

Definition min_list (l : list Q) : Res Q :=
  match l with
  | [] => Raise ValueError
  | x :: l' => Ok (fold_left py_min l' x)
  end.

(** The body of the loop of [MomentumStrategy.generate_signals]. *)
Definition momentum_signal (params : Params) (prices : list Q)
    (current_idx : Z) : Res Signal :=
  let short_period := get (p_short_period params) 10%Z in
  let long_period := get (p_long_period params) 30%Z in
  if (current_idx <? long_period)%Z then Ok hold
  else
    let short_ma := np_mean (py_slice prices (current_idx - short_period) current_idx) in
    let long_ma := np_mean (py_slice prices (current_idx - long_period) current_idx) in
    if nan_lt (nan_mul long_ma 1.02) short_ma then Ok buy
    else if nan_lt short_ma (nan_mul long_ma 0.98) then Ok sell
    else Ok hold.

(** The body of the loop of [MeanReversionStrategy.generate_signals]. *)
Definition mean_reversion_signal (params : Params) (prices : list Q)
    (current_idx : Z) : Res Signal :=
  let period := get (p_period params) 20%Z in
  let std_dev := get (p_std_dev params) 2.0 in
  if (current_idx <? period)%Z then Ok hold
  else
    let window := py_slice prices (current_idx - period) current_idx in
    let ma := np_mean window in
    let sd := np_std window in
    let upper_band :=
      match ma, sd with
      | Some m, Some s => Some (Q2R m + Q2R std_dev * s)%R
      | _, _ => None
      end in
    let lower_band :=
      match ma, sd with
      | Some m, Some s => Some (Q2R m - Q2R std_dev * s)%R
      | _, _ => None
      end in
    current_price <- py_index prices current_idx ;;
    if nanR_lt (Some (Q2R current_price)) lower_band then Ok buy
    else if nanR_lt upper_band (Some (Q2R current_price)) then Ok sell
    else Ok hold.

(** The body of the loop of [TrendFollowingStrategy.generate_signals]. *)
Definition trend_following_signal (params : Params) (prices : list Q)
    (current_idx : Z) : Res Signal :=
  let lookback := get (p_lookback params) 20%Z in
  if (current_idx <? lookback)%Z then Ok hold
  else
    let window := py_slice prices (current_idx - lookback) current_idx in
    high <- max_list window ;;
    low <- min_list window ;;
    current_price <- py_index prices current_idx ;;
    if Qltb high current_price then Ok buy
    else if Qltb current_price low then Ok sell
    else Ok hold.

Inductive StrategyClass : Type :=
| MomentumStrategy
| MeanReversionStrategy
| TrendFollowingStrategy.

(** A strategy instance: its class and [self.params]. *)
Record Strategy : Type := mkStrategy {
  strategy_class : StrategyClass;
  params : Params
}.

Definition signal_of (s : Strategy) : list Q -> Z -> Res Signal :=
  match strategy_class s with
  | MomentumStrategy => momentum_signal (params s)
  | MeanReversionStrategy => mean_reversion_signal (params s)
  | TrendFollowingStrategy => trend_following_signal (params s)
  end.

(** [generate_signals]: one entry of [signals] per item of [data]. *)
Definition generate_signals (s : Strategy) (data : dict (list Q))
    (current_idx : Z) : Res (dict Signal) :=
  foldM (fun signals item =>
           sig <- signal_of s (snd item) current_idx ;;
           Ok (dict_set signals (fst item) sig))
        data [].

(** The history a strategy needs before it leaves [hold]. *)
Definition required_window (s : Strategy) : Z :=
  match strategy_class s with
  | MomentumStrategy => get (p_long_period (params s)) 30%Z
  | MeanReversionStrategy => get (p_period (params s)) 20%Z
  | TrendFollowingStrategy => get (p_lookback (params s)) 20%Z
  end.

(** [get_strategy]: any type outside the table is a [MomentumStrategy]. *)
Definition get_strategy (strategy_type : StrategyType) (parameters : Params)
    : Strategy :=
  let strategy_class :=
    match strategy_type with
    | MOMENTUM => MomentumStrategy
    | MEAN_REVERSION => MeanReversionStrategy
    | TREND_FOLLOWING => TrendFollowingStrategy
    | _ => MomentumStrategy
    end in
  mkStrategy strategy_class parameters.

(** ** The engine *)

Record BacktestEngine : Type := mkEngine {
  initial_capital : Q;
  commission : Q;
  slippage : Q
}.

(** [BacktestEngine(initial_capital=...)] with the default costs. *)
Definition engine_with_capital (capital : Q) : BacktestEngine :=
  mkEngine capital 0.001 0.0005.

(** The module-level [backtest_engine = BacktestEngine()]. *)
Definition backtest_engine : BacktestEngine := engine_with_capital 100000.

Definition set_cash (st : BacktestState) (c : Q) : BacktestState :=
  mkState (st_date st) c (st_positions st) (st_equity st) (st_trades st)
          (st_equity_curve st).

Definition set_positions (st : BacktestState) (p : dict Position) : BacktestState :=
  mkState (st_date st) (st_cash st) p (st_equity st) (st_trades st)
          (st_equity_curve st).

Definition add_trade (st : BacktestState) (t : Trade) : BacktestState :=
  mkState (st_date st) (st_cash st) (st_positions st) (st_equity st)
          (st_trades st ++ [t]) (st_equity_curve st).

(** The [buy] branch, entered with no open position for [symbol]. *)
Definition execute_buy (e : BacktestEngine) (symbol : string)
    (current_price : Q) (st : BacktestState) : Res BacktestState :=
  let position_value := st_cash st * 0.1 in
  quantity <- py_div position_value current_price ;;
  if Qltb 0 quantity && Qleb position_value (st_cash st) then
    let actual_price := current_price * (1 + slippage e) in
    let cost := quantity * actual_price * (1 + commission e) in
    if Qleb cost (st_cash st) then
      Ok (set_positions (set_cash st (st_cash st - cost))
            (dict_set (st_positions st) symbol
               (mkPosition symbol quantity actual_price (st_date st) "long")))
    else Ok st
  else Ok st.

(** The [sell] branch, entered with [position] open for [symbol]. *)
Definition execute_sell (e : BacktestEngine) (symbol : string)
    (current_price : Q) (position : Position) (st : BacktestState)
    : BacktestState :=
  let actual_price := current_price * (1 - slippage e) in
  let proceeds := pos_quantity position * actual_price * (1 - commission e) in
  let cost_basis := pos_quantity position * pos_entry_price position in
  let pnl := proceeds - cost_basis in
  let pnl_percent := if Qltb 0 cost_basis then pnl / cost_basis else 0 in
  let st1 := add_trade st
               (mkTrade symbol "long" (pos_entry_price position) actual_price
                  (pos_quantity position) (pos_entry_date position)
                  (st_date st) pnl pnl_percent) in
  set_positions (set_cash st1 (st_cash st1 + proceeds))
                (dict_del (st_positions st1) symbol).

(** One turn of [for symbol, signal in signals.items()]. *)
Definition execute_signal (e : BacktestEngine) (price_data : dict (list Q))
    (i : nat) (st : BacktestState) (item : string * Signal)
    : Res BacktestState :=
  let (symbol, signal) := item in
  prices <- dict_get price_data symbol ;;
  current_price <- py_index prices (Z.of_nat i) ;;
  match signal, dict_find (st_positions st) symbol with
  | buy, None => execute_buy e symbol current_price st
  | sell, Some position => Ok (execute_sell e symbol current_price position st)
  | _, _ => Ok st
  end.

(** The generator summed into [positions_value]. *)
Definition position_values (price_data : dict (list Q)) (i : nat)
    (positions : dict Position) : list Q :=
  flat_map (fun pos =>
              match dict_find price_data (pos_symbol pos) with
              | Some prices =>
                  match nth_error prices i with
                  | Some price => [pos_quantity pos * price]
                  | None => []
                  end
              | None => []
              end)
           (dict_values positions).

(** The end of a bar: equity, the equity curve and the date. *)
Definition record_equity (market_data : dict MarketSeries)
    (symbols : list string) (price_data : dict (list Q)) (i : nat)
    (st : BacktestState) : Res BacktestState :=
  let positions_value := py_sum (position_values price_data i (st_positions st)) in
  let equity := st_cash st + positions_value in
  timestamp <-
    match symbols with
    | first :: _ =>
        series <- dict_get market_data first ;;
        py_index (timestamps series) (Z.of_nat i)
    | [] => Ok (Z.of_nat i)
    end ;;
  date <- add_day (st_date st) ;;
  Ok (mkState date (st_cash st) (st_positions st) equity
        (st_trades st)
        (st_equity_curve st
           ++ [mkEquityPoint timestamp equity (st_cash st) positions_value])).

(** The body of [for i in range(min_length)]. *)
Definition bar (e : BacktestEngine) (strategy : Strategy)
    (market_data : dict MarketSeries) (symbols : list string)
    (price_data : dict (list Q)) (i : nat) (st : BacktestState)
    : Res BacktestState :=
  signals <- generate_signals strategy price_data (Z.of_nat i) ;;
  st' <- foldM (execute_signal e price_data i) signals st ;;
  record_equity market_data symbols price_data i st'.

(** The bars [0 .. n-1] of the simulation loop, from [st]. *)
Fixpoint simulate (e : BacktestEngine) (strategy : Strategy)
    (market_data : dict MarketSeries) (symbols : list string)
    (price_data : dict (list Q)) (n : nat) (st : BacktestState)
    : Res BacktestState :=
  match n with
  | O => Ok st
  | S n' =>
      st' <- simulate e strategy market_data symbols price_data n' st ;;
      bar e strategy market_data symbols price_data n' st'
  end.

(** ** Metrics *)

(** An entry of [BacktestResults.trades]. *)
Record TradeReport : Type := mkTradeReport {
  rep_symbol : string;
  rep_side : string;
  rep_entry_price : Q;
  rep_exit_price : Q;
  rep_quantity : Q;
  rep_pnl : Q;
  rep_pnl_percent : Q
}.

Record BacktestResults : Type := mkResults {
  total_return : Q;
  sharpe_ratio : R;
  max_drawdown : Q;
  win_rate : Q;
  profit_factor : Q;
  total_trades : Z;
  winning_trades : Z;
  losing_trades : Z;
  avg_win : Q;
  avg_loss : Q;
  equity_curve : list (Z * Q);
  trades : list TradeReport
}.

Definition _empty_results : BacktestResults :=
  mkResults 0 0%R 0 0 0 0%Z 0%Z 0%Z 0 0 [] [].

Definition len {A : Type} (l : list A) : Z := Z.of_nat (length l).

(** [[t.pnl for t in trades if t.pnl > 0]] *)
Definition wins_of (trades : list Trade) : list Q :=
  map tr_pnl (filter (fun t => Qltb 0 (tr_pnl t)) trades).

(** [[abs(t.pnl) for t in trades if t.pnl < 0]] *)
Definition losses_of (trades : list Trade) : list Q :=
  map (fun t => Qabs (tr_pnl t)) (filter (fun t => Qltb (tr_pnl t) 0) trades).

(** The local [profit_factor]; [None] is [float('inf')]. *)
Definition profit_factor_of (trades : list Trade) : option Q :=
  let wins := wins_of trades in
  let losses := losses_of trades in
  match losses with
  | [] => None
  | _ => if Qltb 0 (py_sum losses) then Some (py_sum wins / py_sum losses)
         else None
  end.

(** The reported [profit_factor]. *)
Definition report_profit_factor (pf : option Q) : Q :=
  match pf with
  | Some x => py_round x 2
  | None => 999.99
  end.

(** The list [returns]: one entry per consecutive pair of equities whose
    first member is positive. *)
Fixpoint returns_of (equities : list Q) : list Q :=
  match equities with
  | prev_equity :: (curr_equity :: _) as rest =>
      if Qltb 0 prev_equity
      then (curr_equity - prev_equity) / prev_equity :: returns_of rest
      else returns_of rest
  | _ => []
  end.

(** The local [sharpe_ratio]. *)
Definition sharpe_of (equity_curve : list EquityPoint) : R :=
  if (1 <? length equity_curve)%nat then
    let returns := returns_of (map ep_equity equity_curve) in
    match returns with
    | [] => 0%R
    | _ =>
        let avg_return := Q2R (mean returns) in
        let std_return := std returns in
        if Rlt_dec 0 std_return
        then ((avg_return * 252) / (std_return * sqrt 252))%R
        else 0%R
    end
  else 0%R.

(** One turn of the drawdown loop on the pair [(peak, max_drawdown)]. *)
Definition drawdown_step (acc : Q * Q) (equity : Q) : Q * Q :=
  let (peak, max_drawdown) := acc in
  let peak := if Qltb peak equity then equity else peak in
  let drawdown := if Qltb 0 peak then (peak - equity) / peak else 0 in
  (peak, py_max max_drawdown drawdown).

Definition max_drawdown_of (e : BacktestEngine)
    (equity_curve : list EquityPoint) : Q :=
  snd (fold_left drawdown_step (map ep_equity equity_curve)
         (initial_capital e, 0)).

Definition report_trade (t : Trade) : TradeReport :=
  mkTradeReport (tr_symbol t) (tr_side t)
    (py_round (tr_entry_price t) 2) (py_round (tr_exit_price t) 2)
    (py_round (tr_quantity t) 4) (py_round (tr_pnl t) 2)
    (py_round (tr_pnl_percent t * 100) 2).

(** [_calculate_metrics].  The sum [total_pnl], which the function computes
    and never reads, is left out. *)
Definition _calculate_metrics (e : BacktestEngine) (state : BacktestState)
    : Res BacktestResults :=
  let trades := st_trades state in
  let equity_curve := st_equity_curve state in
  match trades with
  | [] => Ok _empty_results
  | _ =>
      let total_trades := len trades in
      let winning_trades := len (filter (fun t => Qltb 0 (tr_pnl t)) trades) in
      let losing_trades := (total_trades - winning_trades)%Z in
      let win_rate :=
        if (0 <? total_trades)%Z
        then inject_Z winning_trades / inject_Z total_trades else 0 in
      let wins := wins_of trades in
      let losses := losses_of trades in
      let avg_win := match wins with [] => 0 | _ => mean wins end in
      let avg_loss := match losses with [] => 0 | _ => mean losses end in
      let profit_factor := profit_factor_of trades in
      let final_equity := st_equity state in
      total_return <- py_div (final_equity - initial_capital e)
                             (initial_capital e) ;;
      let sharpe_ratio := sharpe_of equity_curve in
      let max_drawdown := max_drawdown_of e equity_curve in
      Ok (mkResults
            (py_round (total_return * 100) 2)
            (py_round_R sharpe_ratio 2)
            (py_round (max_drawdown * 100) 2)
            (py_round (win_rate * 100) 2)
            (report_profit_factor profit_factor)
            total_trades winning_trades losing_trades
            (py_round avg_win 2) (py_round avg_loss 2)
            (map (fun p => (ep_timestamp p, py_round (ep_equity p) 2))
                 equity_curve)
            (map report_trade trades))
  end.

(** ** A run *)

(** [fetch_historical_data]: one entry of [data] per requested symbol. *)
Definition fetch_historical_data (provider : string -> MarketSeries)
    (symbols : list string) : dict MarketSeries :=
  fold_left (fun data symbol => dict_set data symbol (provider symbol))
            symbols [].

(** [min(len(prices) for prices in price_data.values()) if price_data else 0] *)
Definition min_length_of (price_data : dict (list Q)) : nat :=
  match dict_values price_data with
  | [] => O
  | prices :: rest => fold_left Nat.min (map (@length Q) rest) (length prices)
  end.

Definition initial_state (e : BacktestEngine) (start_date : Z) : BacktestState :=
  mkState start_date (initial_capital e) [] (initial_capital e) [] [].

Definition price_data_of (market_data : dict MarketSeries) : dict (list Q) :=
  map (fun item => (fst item, close (snd item))) market_data.

(** The final state of the simulation loop after the bars [0 .. n-1]. *)
Definition simulation (e : BacktestEngine) (provider : string -> MarketSeries)
    (symbols : list string) (strategy_type : StrategyType) (start_date : Z)
    (parameters : Params) (n : nat) : Res BacktestState :=
  let market_data := fetch_historical_data provider symbols in
  simulate e (get_strategy strategy_type parameters) market_data symbols
           (price_data_of market_data) n (initial_state e start_date).

(** [BacktestEngine.run_backtest] *)
Definition run_backtest (e : BacktestEngine) (provider : string -> MarketSeries)
    (symbols : list string) (strategy_type : StrategyType) (start_date : Z)
    (parameters : Params) : Res BacktestResults :=
  let market_data := fetch_historical_data provider symbols in
  let min_length := min_length_of (price_data_of market_data) in
  match min_length with
  | O => Ok _empty_results
  | _ =>
      state <- simulation e provider symbols strategy_type start_date
                          parameters min_length ;;
      _calculate_metrics e state
  end.

(** The module-level [run_backtest], which builds its own engine. *)
Definition run_backtest_with_capital (provider : string -> MarketSeries)
    (symbols : list string) (strategy_type : StrategyType) (start_date : Z)
    (initial_capital : Q) (parameters : Params) : Res BacktestResults :=
  run_backtest (engine_with_capital initial_capital) provider symbols
               strategy_type start_date parameters.

(** ** Notions used in the statements *)

(** The quantity and the cost of a buy at [current_price]. *)
Definition buy_quantity (st : BacktestState) (current_price : Q) : Q :=
  st_cash st * 0.1 / current_price.

Definition buy_cost (e : BacktestEngine) (st : BacktestState)
    (current_price : Q) : Q :=
  buy_quantity st current_price * (current_price * (1 + slippage e))
  * (1 + commission e).

(** The state after a buy that is filled. *)
Definition filled_buy (e : BacktestEngine) (symbol : string)
    (current_price : Q) (st : BacktestState) : BacktestState :=
  mkState (st_date st) (st_cash st - buy_cost e st current_price)
    (dict_set (st_positions st) symbol
       (mkPosition symbol (buy_quantity st current_price)
          (current_price * (1 + slippage e)) (st_date st) "long"))
    (st_equity st) (st_trades st) (st_equity_curve st).

Definition all_long (st : BacktestState) : Prop :=
  Forall (fun t => tr_side t = "long"%string) (st_trades st) /\
  Forall (fun kv => pos_side (snd kv) = "long"%string) (st_positions st).

Definition nonneg_prices (price_data : dict (list Q)) : Prop :=
  Forall (fun kv => Forall (fun p => 0 <= p) (snd kv)) price_data.

(** The invariant behind the cash bound: cash is not negative, every open
    position holds a positive quantity, and no recorded point has negative
    cash. *)
Definition cash_ok (st : BacktestState) : Prop :=
  0 <= st_cash st /\
  Forall (fun kv => 0 < pos_quantity (snd kv)) (st_positions st) /\
  Forall (fun p => 0 <= ep_cash p) (st_equity_curve st).

(** The close of [symbol] on bar [i]. *)
Definition close_at (price_data : dict (list Q)) (symbol : string) (i : nat) : Q :=
  match dict_find price_data symbol with
  | Some prices => nth i prices 0
  | None => 0
  end.

(** Every open position is filed under a symbol of the price data. *)
Definition positions_known (price_data : dict (list Q)) (st : BacktestState)
    : Prop :=
  Forall (fun kv => dict_mem price_data (pos_symbol (snd kv)) = true)
         (st_positions st).

Definition equity_identity (p : EquityPoint) : Prop :=
  ep_equity p = ep_cash p + ep_positions_value p.

(** The configurations that the specification calls invalid. *)
Definition invalid_configuration (e : BacktestEngine) (symbols : list string)
    : Prop :=
  initial_capital e < 0 \/ symbols = [].

(** With negative cash no buy is filled, so the cash stays what it was and
    nothing is ever bought, sold or recorded as a trade. *)
Definition idle (capital : Q) (st : BacktestState) : Prop :=
  st_cash st = capital /\ st_positions st = [] /\ st_trades st = [].

Definition equities_of (state : BacktestState) : list Q :=
  map ep_equity (st_equity_curve state).

(** The consecutive pairs [(e[i-1], e[i])] of a list. *)
Definition consecutive (l : list Q) : list (Q * Q) := combine l (tl l).

(** The returns as the specification words them: the pairs whose previous
    equity is zero are skipped, and no other. *)
Fixpoint spec_returns (equities : list Q) : list Q :=
  match equities with
  | prev_equity :: (curr_equity :: _) as rest =>
      if Qeq_bool prev_equity 0
      then spec_returns rest
      else (curr_equity - prev_equity) / prev_equity :: spec_returns rest
  | _ => []
  end.

(** ** Example runs *)

(** A provider that serves the same closes, stamped 0, 1, 2, ..., for every
    symbol. *)
Definition series_of (closes : list Q) : MarketSeries :=
  mkSeries (map Z.of_nat (seq 0 (length closes))) closes.

Definition constant_provider (closes : list Q) : string -> MarketSeries :=
  fun _ => series_of closes.

Definition lookback_1 : Params := mkParams None None None None (Some 1%Z).

(** The final state of the run of a trend follower with a lookback of one
    bar and no costs over the closes 1, 2, 3, 2: it buys at 2 on the second
    bar and sells at 2 on the fourth. *)
Definition flat_round_trip_state : BacktestState :=
  Eval vm_compute in
    match simulation (mkEngine 100 0 0) (constant_provider [1; 2; 3; 2])
            ["AAPL"%string] TREND_FOLLOWING 0 lookback_1 4 with
    | Ok st => st
    | Raise _ => initial_state (mkEngine 100 0 0) 0
    end.

(** The state of the default engine with a capital of 100 after the first
    two of those bars, with the position bought on the second still open. *)
Definition open_position_state : BacktestState :=
  Eval vm_compute in
    match simulation (engine_with_capital 100) (constant_provider [1; 2; 3; 2])
            ["AAPL"%string] TREND_FOLLOWING 0 lookback_1 2 with
    | Ok st => st
    | Raise _ => initial_state (engine_with_capital 100) 0
    end.

(** Closes that rise from 1 to 2 and then fall to 0 on the 31st bar. *)
Definition closes_ending_at_zero : list Q := repeat 1 20 ++ repeat 2 10 ++ [0].

(** The final state of the default engine with a capital of 100 and a trend
    follower with a lookback of one bar over the closes 1, 2, -2000, 5: it
    buys at 2, sells at -2000, and its equity is negative from then on. *)
Definition negative_equity_state : BacktestState :=
  Eval vm_compute in
    match simulation (engine_with_capital 100)
            (constant_provider [1; 2; -2000; 5])
            ["AAPL"%string] TREND_FOLLOWING 0 lookback_1 4 with
    | Ok st => st
    | Raise _ => initial_state (engine_with_capital 100) 0
    end.

(** ** Notions used in the further properties *)

(** The open positions are well formed: one entry per symbol, each filed
    under its own symbol, a symbol of the price data, with a positive
    quantity. *)
Definition positions_wf (price_data : dict (list Q)) (st : BacktestState)
    : Prop :=
  NoDup (dict_keys (st_positions st)) /\
  Forall (fun kv =>
            pos_symbol (snd kv) = fst kv /\
            0 < pos_quantity (snd kv) /\
            dict_mem price_data (fst kv) = true)
         (st_positions st).

(** What a trade records, in terms of the engine's commission. *)
Definition trade_accounts (e : BacktestEngine) (t : Trade) : Prop :=
  0 < tr_quantity t /\
  tr_pnl t =
    tr_quantity t * tr_exit_price t * (1 - commission e)
    - tr_quantity t * tr_entry_price t /\
  (0 < tr_quantity t * tr_entry_price t ->
   tr_pnl_percent t * (tr_quantity t * tr_entry_price t) == tr_pnl t) /\
  (tr_quantity t * tr_entry_price t <= 0 -> tr_pnl_percent t = 0).

(** The dates of the state after [n] bars of a run started on
    [start_date]. *)
Definition dates_ok (start_date : Z) (n : nat) (st : BacktestState) : Prop :=
  st_date st = (start_date + Z.of_nat n)%Z /\
  Forall (fun kv =>
            (start_date <= pos_entry_date (snd kv) < start_date + Z.of_nat n)%Z)
         (st_positions st) /\
  Forall (fun t =>
            (start_date <= tr_entry_date t)%Z /\
            (tr_entry_date t < tr_exit_date t)%Z /\
            (tr_exit_date t < start_date + Z.of_nat n)%Z)
         (st_trades st).

(** The money tied up in a position when it was bought, commission
    included, and the part of a closed trade's result that reached the
    cash: its pnl less the commission on the entry. *)
Definition position_outlay (e : BacktestEngine) (pos : Position) : Q :=
  pos_quantity pos * pos_entry_price pos * (1 + commission e).

Definition trade_cash_effect (e : BacktestEngine) (t : Trade) : Q :=
  tr_pnl t - tr_quantity t * tr_entry_price t * commission e.

(** The dates while the signals [rest] of bar [i] are still to be executed:
    a position opened on this very bar belongs to a symbol whose signal has
    been executed already. *)
Definition dates_in_bar (start_date : Z) (i : nat) (rest : dict Signal)
    (st : BacktestState) : Prop :=
  st_date st = (start_date + Z.of_nat i)%Z /\
  Forall (fun kv =>
            (start_date <= pos_entry_date (snd kv) <= start_date + Z.of_nat i)%Z /\
            ((pos_entry_date (snd kv) < start_date + Z.of_nat i)%Z \/
             ~ In (fst kv) (dict_keys rest)))
         (st_positions st) /\
  Forall (fun t =>
            (start_date <= tr_entry_date t)%Z /\
            (tr_entry_date t < tr_exit_date t)%Z /\
            (tr_exit_date t <= start_date + Z.of_nat i)%Z)
         (st_trades st).

(** The cash is the initial capital, plus what the closed trades brought,
    less what the open positions cost. *)
Definition cash_balanced (e : BacktestEngine) (st : BacktestState) : Prop :=
  st_cash st ==
  initial_capital e + py_sum (map (trade_cash_effect e) (st_trades st))
  - py_sum (map (position_outlay e) (dict_values (st_positions st))).

(** The running peak of the drawdown loop: the larger of the initial capital
    and the equities seen so far. *)
Definition peak_of (capital : Q) (equities : list Q) : Q :=
  fold_left (fun peak equity => if Qltb peak equity then equity else peak)
            equities capital.

(** The strategies that return signals on every bar inside the data: all
    but a trend follower whose lookback is not positive. *)
Definition strategy_total (strategy : Strategy) : Prop :=
  strategy_class strategy = TrendFollowingStrategy ->
  (0 < get (p_lookback (params strategy)) 20)%Z.

(** No close of the price data is 0. *)
Definition nonzero_closes (price_data : dict (list Q)) : Prop :=
  Forall (fun kv => Forall (fun p => ~ p == 0) (snd kv)) price_data.

(** A price series that never falls. *)
Definition never_falls (prices : list Q) : Prop :=
  forall i j x y,
    (i <= j)%nat -> nth_error prices i = Some x -> nth_error prices j = Some y ->
    x <= y.

(** ** Synthetic data *)

(** A [datetime]: the ordinal of its day and the microseconds since its
    midnight.  The class admits the days 0001-01-01 to 9999-12-31 only.
    The datetimes of a call are naive, or aware with one UTC offset. *)
Definition day_microseconds : Z := 86400000000.

Definition datetime_in_range (ordinal microseconds : Z) : bool :=
  (1 <=? ordinal)%Z && (ordinal <=? date_max_ordinal)%Z
  && (0 <=? microseconds)%Z && (microseconds <? day_microseconds)%Z.

Record datetime : Type := mkDatetime {
  dt_ordinal : Z;
  dt_microseconds : Z;
  dt_in_range : datetime_in_range dt_ordinal dt_microseconds = true
}.

(** [(a - b).days]: a [timedelta] keeps its seconds and microseconds
    non-negative, so its days are the floor of the difference in days. *)
Definition timedelta_days (a b : datetime) : Z :=
  ((dt_ordinal a * day_microseconds + dt_microseconds a
    - (dt_ordinal b * day_microseconds + dt_microseconds b))
   / day_microseconds)%Z.

(** [datetime.weekday()], Monday being 0, of a day of ordinal [d]. *)
Definition weekday (d : Z) : Z := ((d + 6) mod 7)%Z.

(** The builtin [int] on a float: truncation towards zero. *)
Definition py_int (x : Q) : Z := (Qnum x ÷ Z.pos (Qden x))%Z.

(** An entry of the list [prices] of [_generate_synthetic_data]. *)
Record Bar : Type := mkBar {
  bar_open : Q;
  bar_high : Q;
  bar_low : Q;
  bar_close : Q
}.

(** The dict that [_generate_synthetic_data] returns. *)
Record SeriesData : Type := mkSeriesData {
  sd_timestamps : list Z;
  sd_open : list Q;
  sd_high : list Q;
  sd_low : list Q;
  sd_close : list Q;
  sd_volume : list Z
}.


(** The variables of the loop of [_generate_synthetic_data], with the number
    of random draws made so far.  [syn_date] is the ordinal of the day of
    [current_date], whose time of day is that of [start_date]. *)
Record Synthetic : Type := mkSynthetic {
  syn_date : Z;
  syn_price : Q;
  syn_draws : nat;
  syn_timestamps : list Z;
  syn_prices : list Bar;
  syn_volumes : list Z
}.

Section SyntheticData.

(** [int(d.timestamp())] for the datetime [d] of the given day ordinal and
    microseconds since midnight. *)
Variable timestamp_of : Z -> Z -> Z.

(** The value of [np.random.normal(loc, scale)] and of
    [np.random.uniform(low, high)] when it is the draw number [k] from the
    generator. *)
Variable normal : nat -> Q -> Q -> Q.
Variable uniform : nat -> Q -> Q -> Q.

(** The bar appended on a weekday. *)
Definition synthetic_bar (microseconds : Z) (s : Synthetic) : Synthetic :=
  let k := syn_draws s in
  let daily_return := normal k 0.0005 0.02 in
  let current_price := syn_price s * (1 + daily_return) in
  let high := current_price * (1 + Qabs (normal (k + 1) 0 0.01)) in
  let low := current_price * (1 - Qabs (normal (k + 2) 0 0.01)) in
  let open_price := current_price * (1 + normal (k + 3) 0 0.005) in
  mkSynthetic (syn_date s) current_price (k + 5)
    (syn_timestamps s ++ [timestamp_of (syn_date s) microseconds])
    (syn_prices s ++ [mkBar open_price high low current_price])
    (syn_volumes s ++ [py_int (uniform (k + 4) 1000000 10000000)]).

(** One turn of [for _ in range(days)]. *)
Definition synthetic_step (microseconds : Z) (s : Synthetic)
    : Res Synthetic :=
  let s1 := if (weekday (syn_date s) <? 5)%Z
            then synthetic_bar microseconds s else s in
  current_date <- add_day (syn_date s1) ;;
  Ok (mkSynthetic current_date (syn_price s1) (syn_draws s1)
        (syn_timestamps s1) (syn_prices s1) (syn_volumes s1)).

Fixpoint synthetic_loop (microseconds : Z) (n : nat) (s : Synthetic)
    : Res Synthetic :=
  match n with
  | O => Ok s
  | S n' =>
      s' <- synthetic_step microseconds s ;;
      synthetic_loop microseconds n' s'
  end.

(** [_generate_synthetic_data], the generator having made [draws] draws
    before the call. *)
Definition _generate_synthetic_data (draws : nat)
    (start_date end_date : datetime) (initial_price : Q) : Res SeriesData :=
  let days := timedelta_days end_date start_date in
  s <- synthetic_loop (dt_microseconds start_date) (Z.to_nat days)
         (mkSynthetic (dt_ordinal start_date) initial_price draws [] [] []) ;;
  Ok (mkSeriesData (syn_timestamps s)
        (map bar_open (syn_prices s)) (map bar_high (syn_prices s))
        (map bar_low (syn_prices s)) (map bar_close (syn_prices s))
        (syn_volumes s)).

End SyntheticData.




(** ** Subscription tiers ([backend/app/core/config.py]) *)

(** The values of a [features] dict: ints and bools.  A bool compares and
    counts as the int 1 or 0. *)
Inductive PyValue : Type :=
| VInt (z : Z)
| VBool (b : bool).

Definition int_of (v : PyValue) : Z :=
  match v with
  | VInt z => z
  | VBool true => 1%Z
  | VBool false => 0%Z
  end.

(** The truth value of [d.get(key)], [None] when the key is missing. *)
Definition truthy (v : option PyValue) : bool :=
  match v with
  | Some v => negb (int_of v =? 0)%Z
  | None => false
  end.

Record TierInfo : Type := mkTier {
  tier_id : string;
  tier_name : string;
  tier_description : string;
  tier_price : Z;
  tier_features : dict PyValue;
  tier_feature_list : list string
}.

Definition free_tier : TierInfo :=
  mkTier "free" "Free" "Perfect for learning and paper trading" 0
    [("max_bots", VInt 1); ("max_accounts", VInt 1); ("ai_agents", VInt 2);
     ("backtest_months", VInt 3); ("live_trading_enabled", VBool false);
     ("api_access_enabled", VBool false); ("priority_support", VBool false)]%string
    ["Paper trading only"; "2 AI agents"; "1 trading bot";
     "1 trading account"; "3-month backtest history"]%string.

Definition starter_tier : TierInfo :=
  mkTier "starter" "Starter" "For serious traders getting started" 29
    [("max_bots", VInt 3); ("max_accounts", VInt 2); ("ai_agents", VInt 4);
     ("backtest_months", VInt 12); ("live_trading_enabled", VBool true);
     ("api_access_enabled", VBool false); ("priority_support", VBool false)]%string
    ["Paper & live trading"; "4 AI agents"; "3 trading bots";
     "2 trading accounts"; "1-year backtest history"]%string.

Definition pro_tier : TierInfo :=
  mkTier "pro" "Pro" "Full power for active traders" 79
    [("max_bots", VInt 10); ("max_accounts", VInt 5); ("ai_agents", VInt 7);
     ("backtest_months", VInt 60); ("live_trading_enabled", VBool true);
     ("api_access_enabled", VBool true); ("priority_support", VBool false)]%string
    ["Paper & live trading"; "All 7 AI agents"; "10 trading bots";
     "5 trading accounts"; "5-year backtest history"; "API access"]%string.

Definition elite_tier : TierInfo :=
  mkTier "elite" "Elite" "Maximum power for professionals" 199
    [("max_bots", VInt (-1)); ("max_accounts", VInt (-1)); ("ai_agents", VInt 7);
     ("backtest_months", VInt (-1)); ("live_trading_enabled", VBool true);
     ("api_access_enabled", VBool true); ("priority_support", VBool true)]%string
    ["Paper & live trading"; "All 7 AI agents"; "Unlimited trading bots";
     "Unlimited accounts"; "Full backtest history (2010+)"; "API access";
     "Priority support"]%string.

Definition SUBSCRIPTION_TIERS : dict TierInfo :=
  [("free", free_tier); ("starter", starter_tier); ("pro", pro_tier);
   ("elite", elite_tier)]%string.

(** [get_tier_features]: an unknown tier has the features of ["free"]. *)
Definition get_tier_features (tier : string) : dict PyValue :=
  tier_features (get (dict_find SUBSCRIPTION_TIERS tier) free_tier).

(** [is_within_limit] *)
Definition is_within_limit (tier feature : string) (current_count : Z) : bool :=
  let features := get_tier_features tier in
  let limit := get (dict_find features feature) (VInt 0) in
  if (int_of limit =? -1)%Z then true
  else (current_count <? int_of limit)%Z.

(** ** Trading accounts ([backend/app/api/accounts.py]) *)

Inductive AccountType : Type := PAPER | LIVE.

(** The two refusals of [create_account], both with status 403. *)
Inductive AccountRefusal : Type :=
| AccountLimitReached (tier : string)
| LiveTradingUnavailable.

(** The checks of [create_account] before the account is stored: the tier of
    the user ([None] when the user has none recorded), the count of the
    accounts the user has ([None] when the query yields none) and the type
    asked for. *)
Definition create_account_checks (subscription_tier : option string)
    (counted : option Z) (account_type : AccountType)
    : option AccountRefusal :=
  let tier := get subscription_tier "free"%string in
  let current_count :=
    match counted with
    | Some c => if (c =? 0)%Z then 0%Z else c
    | None => 0%Z
    end in
  if negb (is_within_limit tier "max_accounts" current_count) then
    Some (AccountLimitReached tier)
  else
    let features := get_tier_features tier in
    match account_type with
    | LIVE =>
        if negb (truthy (dict_find features "live_trading_enabled"))
        then Some LiveTradingUnavailable else None
    | PAPER => None
    end.

(** ** Further examples *)

(** The report of the run that ends in [flat_round_trip_state]. *)
Definition flat_round_trip_report : BacktestResults :=
  match _calculate_metrics (mkEngine 100 0 0) flat_round_trip_state with
  | Ok r => r
  | Raise _ => _empty_results
  end.

(** The equity curve 100, 120, 90, 110. *)
Definition peak_and_trough_curve : list EquityPoint :=
  [mkEquityPoint 0 100 100 0; mkEquityPoint 1 120 100 20;
   mkEquityPoint 2 90 100 (-10); mkEquityPoint 3 110 100 10].

Definition lookback_0 : Params := mkParams None None None None (Some 0%Z).

(** A generator without randomness: every normal draw is 0 and every
    uniform draw is the lower bound. *)
Definition still_normal : nat -> Q -> Q -> Q := fun _ _ _ => 0.
Definition still_uniform : nat -> Q -> Q -> Q := fun _ low _ => low.

(** [int(d.timestamp())] in the time zone UTC. *)
Definition utc_timestamp : Z -> Z -> Z :=
  fun ordinal microseconds =>
    ((ordinal - 719163) * 86400 + microseconds / 1000000)%Z.

(** Monday 2024-01-01 at 12:00, Wednesday 2024-01-03 at 06:00 and Monday
    2024-01-15 at 12:00. *)
Definition monday_noon : datetime := mkDatetime 738886 43200000000 eq_refl.
Definition wednesday_morning : datetime :=
  mkDatetime 738888 21600000000 eq_refl.


(** A provider whose series for ["MSFT"] is empty. *)
Definition provider_without_msft : string -> MarketSeries :=
  fun symbol =>
    if String.eqb symbol "MSFT" then series_of [] else series_of [1; 2; 3; 2].

(** Momentum parameters with an empty short window and a long window of two
    bars. *)
Definition short_period_0 : Params :=
  mkParams (Some 0%Z) (Some 2%Z) None None None.

(** * Properties *)

(** ** Basic facts *)

Lemma Qltb_lt (a b : Q) : Qltb a b = true <-> a < b.
Proof.
  unfold Qltb. rewrite negb_true_iff. split; intro H.
  - apply Qnot_le_lt. intro Hle. apply Qle_bool_iff in Hle. congruence.
  - destruct (Qle_bool b a) eqn:E; [|reflexivity].
    apply Qle_bool_iff in E. exfalso. exact (Qlt_not_le _ _ H E).
Qed.

Lemma Qltb_ge (a b : Q) : Qltb a b = false <-> b <= a.
Proof.
  unfold Qltb. rewrite negb_false_iff. apply Qle_bool_iff.
Qed.

Lemma Qleb_le (a b : Q) : Qleb a b = true <-> a <= b.
Proof. apply Qle_bool_iff. Qed.

Lemma bind_Ok {A B : Type} (c : Res A) (k : A -> Res B) (b : B) :
  bind c k = Ok b -> exists a, c = Ok a /\ k a = Ok b.
Proof.
  destruct c as [a|x]; simpl; intro H; [eauto | discriminate].
Qed.

(** An invariant of the loop body is an invariant of the loop. *)
Lemma foldM_invariant {A S : Type} (P : S -> Prop) (f : S -> A -> Res S) :
  (forall s x s', P s -> f s x = Ok s' -> P s') ->
  forall l s s', P s -> foldM f l s = Ok s' -> P s'.
Proof.
  intros Hstep l. induction l as [|x l IH]; simpl; intros s s' Hs H.
  - injection H as <-. exact Hs.
  - apply bind_Ok in H as (s1 & H1 & H2). eauto.
Qed.

Lemma simulate_invariant (P : BacktestState -> Prop) e strategy market_data
    symbols price_data :
  (forall i st st', P st ->
     bar e strategy market_data symbols price_data i st = Ok st' -> P st') ->
  forall n st st', P st ->
    simulate e strategy market_data symbols price_data n st = Ok st' -> P st'.
Proof.
  intros Hbar n. induction n as [|n IH]; simpl; intros st st' Hst H.
  - injection H as <-. exact Hst.
  - apply bind_Ok in H as (st1 & H1 & H2). eauto.
Qed.

Lemma dict_find_set {V : Type} (d : dict V) (k k' : string) (v : V) :
  dict_find (dict_set d k v) k' =
  if String.eqb k' k then Some v else dict_find d k'.
Proof.
  induction d as [|[k0 v0] d IH]; simpl.
  - reflexivity.
  - destruct (String.eqb k k0) eqn:E; simpl.
    + apply String.eqb_eq in E. subst k0.
      destruct (String.eqb k' k); reflexivity.
    + rewrite IH. destruct (String.eqb k' k0) eqn:E0; [|reflexivity].
      apply String.eqb_eq in E0. subst k0.
      destruct (String.eqb k' k) eqn:E1; [|reflexivity].
      apply String.eqb_eq in E1. subst k'.
      rewrite String.eqb_refl in E. discriminate.
Qed.

Lemma dict_find_In {V : Type} (d : dict V) (k : string) (v : V) :
  dict_find d k = Some v -> In (k, v) d.
Proof.
  induction d as [|[k0 v0] d IH]; simpl; [discriminate|].
  destruct (String.eqb k k0) eqn:E.
  - apply String.eqb_eq in E. subst k0. intros [= <-]. now left.
  - intro H. right. auto.
Qed.

Lemma In_dict_set {V : Type} (d : dict V) (k : string) (v : V) (kv : string * V) :
  In kv (dict_set d k v) -> In kv d \/ kv = (k, v).
Proof.
  induction d as [|[k0 v0] d IH]; simpl.
  - intros [<-|[]]. now right.
  - destruct (String.eqb k k0) eqn:E; simpl.
    + apply String.eqb_eq in E. subst k0. intros [<-|H]; auto.
    + intros [<-|H]; auto. destruct (IH H); auto.
Qed.

Lemma In_dict_del {V : Type} (d : dict V) (k : string) (kv : string * V) :
  In kv (dict_del d k) -> In kv d.
Proof.
  induction d as [|[k0 v0] d IH]; simpl; [tauto|].
  destruct (String.eqb k k0); simpl; intuition.
Qed.

(** ** Strategies before their window is full *)

Lemma signal_of_hold (s : Strategy) (prices : list Q) (current_idx : Z) :
  (current_idx < required_window s)%Z ->
  signal_of s prices current_idx = Ok hold.
Proof.
  unfold required_window, signal_of. intro H.
  apply Z.ltb_lt in H.
  destruct (strategy_class s);
    unfold momentum_signal, mean_reversion_signal, trend_following_signal;
    cbv zeta; rewrite H; reflexivity.
Qed.

(** What the loop of [generate_signals] builds when every body yields
    [hold]. *)
Lemma generate_signals_hold_from (s : Strategy) (current_idx : Z) :
  (current_idx < required_window s)%Z ->
  forall (data : dict (list Q)) (acc : dict Signal),
  exists signals,
    foldM (fun signals item =>
             sig <- signal_of s (snd item) current_idx ;;
             Ok (dict_set signals (fst item) sig)) data acc = Ok signals /\
    forall symbol,
      dict_find signals symbol =
      if dict_mem data symbol then Some hold else dict_find acc symbol.
Proof.
  intros Hidx data. induction data as [|[k prices] data IH]; intro acc; simpl.
  - exists acc. split; reflexivity.
  - rewrite (signal_of_hold s prices current_idx Hidx). simpl.
    destruct (IH (dict_set acc k hold)) as (signals & Hrun & Hfind).
    exists signals. split; [exact Hrun|].
    intro symbol. rewrite Hfind, dict_find_set. unfold dict_mem. simpl.
    destruct (String.eqb symbol k); [|reflexivity].
    destruct (dict_find data symbol); reflexivity.
Qed.

Lemma required_window_defaults :
  required_window (get_strategy MOMENTUM no_params) = 30%Z /\
  required_window (get_strategy MEAN_REVERSION no_params) = 20%Z /\
  required_window (get_strategy TREND_FOLLOWING no_params) = 20%Z.
Proof. repeat split. Qed.

(** C6: with [current_idx] below the strategy's window (by
    [required_window_defaults] 30, 20 and 20 bars for momentum, mean
    reversion and trend following), [generate_signals] returns without
    raising, and the signals hold exactly the symbols of the price history,
    each with [hold]. *)
Theorem C6_hold_before_required_window :
  forall (strategy_type : StrategyType) (parameters : Params)
         (data : dict (list Q)) (current_idx : Z),
    (current_idx < required_window (get_strategy strategy_type parameters))%Z ->
    exists signals,
      generate_signals (get_strategy strategy_type parameters) data current_idx
        = Ok signals /\
      forall symbol,
        dict_find signals symbol =
        if dict_mem data symbol then Some hold else None.
Proof.
  intros strategy_type parameters data current_idx H.
  exact (generate_signals_hold_from _ _ H data []).
Qed.

Lemma C6_witness :
  exists signals,
    generate_signals (get_strategy MEAN_REVERSION no_params)
      [("AAPL"%string, [100; 101; 99]); ("MSFT"%string, [])] 19 = Ok signals /\
    forall symbol,
      dict_find signals symbol =
      if dict_mem [("AAPL"%string, [100; 101; 99]); ("MSFT"%string, [])] symbol
      then Some hold else None.
Proof.
  apply (C6_hold_before_required_window MEAN_REVERSION no_params).
  vm_compute. reflexivity.
Defined.

(** ** The execution of one signal *)

Lemma py_index_nat {A : Type} (l : list A) (i : nat) :
  py_index l (Z.of_nat i) =
  match nth_error l i with Some x => Ok x | None => Raise IndexError end.
Proof.
  unfold py_index.
  destruct (Z.of_nat i <? 0)%Z eqn:E; [apply Z.ltb_lt in E; lia|].
  rewrite E, Nat2Z.id. reflexivity.
Qed.

Lemma py_div_Ok (a b q : Q) :
  py_div a b = Ok q -> ~ b == 0 /\ q = a / b.
Proof.
  unfold py_div. destruct (Qeq_bool b 0) eqn:E; [discriminate|].
  intros [= <-]. split; [|reflexivity].
  intro H. apply Qeq_bool_iff in H. congruence.
Qed.

Lemma py_div_nonzero (a b : Q) : ~ b == 0 -> py_div a b = Ok (a / b).
Proof.
  intro H. unfold py_div. destruct (Qeq_bool b 0) eqn:E; [|reflexivity].
  apply Qeq_bool_iff in E. contradiction.
Qed.

Lemma py_div_zero (a b : Q) : b == 0 -> py_div a b = Raise ZeroDivisionError.
Proof.
  intro H. unfold py_div. apply Qeq_bool_iff in H. rewrite H. reflexivity.
Qed.

Lemma execute_buy_cases e symbol current_price st st' :
  execute_buy e symbol current_price st = Ok st' ->
  ~ current_price == 0 /\
  (st' = st \/
   (0 < buy_quantity st current_price /\
    buy_cost e st current_price <= st_cash st /\
    st' = filled_buy e symbol current_price st)).
Proof.
  unfold execute_buy. intro H.
  apply bind_Ok in H as (q & Hq & H). apply py_div_Ok in Hq as [Hp ->].
  split; [exact Hp|].
  destruct (Qltb 0 (st_cash st * 0.1 / current_price)) eqn:E1; simpl in H;
    [|left; congruence].
  destruct (Qleb (st_cash st * 0.1) (st_cash st)) eqn:E2; simpl in H;
    [|left; congruence].
  match type of H with (if ?c then _ else _) = _ => destruct c eqn:E3 end;
    [|left; congruence].
  right. apply Qltb_lt in E1. apply Qleb_le in E3.
  injection H as <-. repeat split; [exact E1 | exact E3].
Qed.

Lemma execute_signal_cases e price_data i st symbol signal st' :
  execute_signal e price_data i st (symbol, signal) = Ok st' ->
  exists prices current_price,
    dict_find price_data symbol = Some prices /\
    nth_error prices i = Some current_price /\
    (st' = st \/
     (signal = buy /\ dict_find (st_positions st) symbol = None /\
      execute_buy e symbol current_price st = Ok st') \/
     (signal = sell /\
      exists position,
        dict_find (st_positions st) symbol = Some position /\
        st' = execute_sell e symbol current_price position st)).
Proof.
  unfold execute_signal, dict_get. intro H.
  destruct (dict_find price_data symbol) as [prices|] eqn:Hp;
    simpl in H; [|discriminate].
  rewrite py_index_nat in H.
  destruct (nth_error prices i) as [p|] eqn:Hi; simpl in H; [|discriminate].
  exists prices, p. split; [reflexivity|]. split; [exact Hi|].
  destruct signal, (dict_find (st_positions st) symbol) as [pos|] eqn:Hpos;
    try (left; congruence).
  - right; left. auto.
  - right; right. split; [reflexivity|]. exists pos. split; congruence.
Qed.

Lemma record_equity_Ok market_data symbols price_data i st st' :
  record_equity market_data symbols price_data i st = Ok st' ->
  exists timestamp,
    st' = mkState (st_date st + 1) (st_cash st) (st_positions st)
            (st_cash st + py_sum (position_values price_data i (st_positions st)))
            (st_trades st)
            (st_equity_curve st
               ++ [mkEquityPoint timestamp
                     (st_cash st
                      + py_sum (position_values price_data i (st_positions st)))
                     (st_cash st)
                     (py_sum (position_values price_data i (st_positions st)))]).
Proof.
  unfold record_equity. intro H.
  apply bind_Ok in H as (ts & _ & H).
  apply bind_Ok in H as (date & Hdate & H). unfold add_day in Hdate.
  destruct (st_date st + 1 <=? date_max_ordinal)%Z; [|discriminate].
  injection Hdate as <-. exists ts. congruence.
Qed.

Lemma bar_Ok e strategy market_data symbols price_data i st st' :
  bar e strategy market_data symbols price_data i st = Ok st' ->
  exists signals st1,
    generate_signals strategy price_data (Z.of_nat i) = Ok signals /\
    foldM (execute_signal e price_data i) signals st = Ok st1 /\
    record_equity market_data symbols price_data i st1 = Ok st'.
Proof.
  unfold bar. intro H.
  apply bind_Ok in H as (signals & Hs & H).
  apply bind_Ok in H as (st1 & H1 & H2). eauto.
Qed.

(** ** Every position and every trade is long *)

Lemma execute_signal_all_long e price_data i st item st' :
  all_long st -> execute_signal e price_data i st item = Ok st' -> all_long st'.
Proof.
  intros [Ht Hp] H. destruct item as [symbol signal].
  apply execute_signal_cases in H
    as (prices & p & _ & _ & [-> | [(_ & _ & H) | (_ & pos & Hpos & ->)]]).
  - split; assumption.
  - apply execute_buy_cases in H as [_ [-> | (_ & _ & ->)]];
      [split; assumption|].
    split; [exact Ht|]. simpl. apply Forall_forall. intros kv Hin.
    apply In_dict_set in Hin as [Hin | ->]; [|reflexivity].
    rewrite Forall_forall in Hp. auto.
  - split; simpl.
    + apply Forall_app. split; [exact Ht|]. constructor; [reflexivity|constructor].
    + apply Forall_forall. intros kv Hin. apply In_dict_del in Hin.
      rewrite Forall_forall in Hp. auto.
Qed.

Lemma bar_all_long e strategy market_data symbols price_data i st st' :
  all_long st ->
  bar e strategy market_data symbols price_data i st = Ok st' -> all_long st'.
Proof.
  intros Hst H. apply bar_Ok in H as (signals & st1 & _ & Hexec & Hrec).
  apply (foldM_invariant all_long _ (execute_signal_all_long e price_data i))
    in Hexec; [|exact Hst].
  apply record_equity_Ok in Hrec as (ts & ->). exact Hexec.
Qed.

(** C9: after any number of bars of any run, every open position and every
    recorded trade has side ["long"]; the sell branch records the trade it
    closes as ["long"]. *)
Theorem C9_side_always_long :
  forall e provider symbols strategy_type start_date parameters n st,
    simulation e provider symbols strategy_type start_date parameters n = Ok st ->
    Forall (fun t => tr_side t = "long"%string) (st_trades st) /\
    Forall (fun kv => pos_side (snd kv) = "long"%string) (st_positions st).
Proof.
  unfold simulation. intros e provider symbols strategy_type start_date
    parameters n st H.
  eapply (simulate_invariant all_long) in H; [exact H| |].
  - intros i s s'. apply bar_all_long.
  - split; constructor.
Qed.


(** ** Cash *)

Lemma nonneg_price_at price_data symbol prices i p :
  nonneg_prices price_data ->
  dict_find price_data symbol = Some prices ->
  nth_error prices i = Some p -> 0 <= p.
Proof.
  intros Hnn Hfind Hnth. apply dict_find_In in Hfind.
  unfold nonneg_prices in Hnn. rewrite Forall_forall in Hnn.
  specialize (Hnn _ Hfind). simpl in Hnn. rewrite Forall_forall in Hnn.
  apply Hnn. eapply nth_error_In. exact Hnth.
Qed.

Lemma sell_proceeds_nonneg (q p s c : Q) :
  0 < q -> 0 <= p -> s <= 1 -> c <= 1 -> 0 <= q * (p * (1 - s)) * (1 - c).
Proof.
  intros Hq Hp Hs Hc.
  assert (0 <= p * (1 - s)) by nra.
  assert (0 <= q * (p * (1 - s))) by nra.
  nra.
Qed.

Lemma execute_signal_cash_ok e price_data i st item st' :
  slippage e <= 1 -> commission e <= 1 -> nonneg_prices price_data ->
  cash_ok st -> execute_signal e price_data i st item = Ok st' -> cash_ok st'.
Proof.
  intros Hs Hc Hnn (Hcash & Hpos & Hcurve) H. destruct item as [symbol signal].
  apply execute_signal_cases in H
    as (prices & p & Hfind & Hnth &
        [-> | [(_ & _ & H) | (_ & pos & Hpos' & ->)]]).
  - repeat split; assumption.
  - apply execute_buy_cases in H as [_ [-> | (Hq & Hcost & ->)]];
      [repeat split; assumption|].
    repeat split; simpl.
    + lra.
    + apply Forall_forall. intros kv Hin.
      apply In_dict_set in Hin as [Hin | ->]; [|exact Hq].
      rewrite Forall_forall in Hpos. auto.
    + exact Hcurve.
  - assert (Hq : 0 < pos_quantity pos).
    { apply dict_find_In in Hpos'. rewrite Forall_forall in Hpos.
      exact (Hpos _ Hpos'). }
    assert (Hp : 0 <= p) by (eapply nonneg_price_at; eassumption).
    pose proof (sell_proceeds_nonneg _ _ _ _ Hq Hp Hs Hc) as Hproc.
    repeat split; simpl.
    + lra.
    + apply Forall_forall. intros kv Hin. apply In_dict_del in Hin.
      rewrite Forall_forall in Hpos. auto.
    + exact Hcurve.
Qed.

Lemma bar_cash_ok e strategy market_data symbols price_data i st st' :
  slippage e <= 1 -> commission e <= 1 -> nonneg_prices price_data ->
  cash_ok st ->
  bar e strategy market_data symbols price_data i st = Ok st' -> cash_ok st'.
Proof.
  intros Hs Hc Hnn Hst H.
  apply bar_Ok in H as (signals & st1 & _ & Hexec & Hrec).
  apply (foldM_invariant cash_ok _
           (fun s x s' => execute_signal_cash_ok e price_data i s x s' Hs Hc Hnn))
    in Hexec; [|exact Hst].
  destruct Hexec as (Hcash & Hpos & Hcurve).
  apply record_equity_Ok in Hrec as (ts & ->).
  repeat split; simpl; try assumption.
  apply Forall_app. split; [exact Hcurve|].
  constructor; [exact Hcash | constructor].
Qed.

(** What [fetch_historical_data] stores under a key is the provider's
    series for that key. *)
Lemma fetch_historical_data_entries provider symbols kv :
  In kv (fetch_historical_data provider symbols) ->
  snd kv = provider (fst kv).
Proof.
  unfold fetch_historical_data.
  assert (G : forall acc,
             (forall kv, In kv acc -> snd kv = provider (fst kv)) ->
             forall kv,
               In kv (fold_left (fun data symbol =>
                                   dict_set data symbol (provider symbol))
                                symbols acc) ->
               snd kv = provider (fst kv)).
  { induction symbols as [|s symbols IH]; simpl; intros acc Hacc kv' Hin.
    - auto.
    - apply (IH (dict_set acc s (provider s))); [|exact Hin].
      intros kv0 H0. apply In_dict_set in H0 as [H0 | ->]; auto. }
  apply G. intros kv0 [].
Qed.

Lemma provider_nonneg_prices provider symbols :
  (forall symbol, Forall (fun p => 0 <= p) (close (provider symbol))) ->
  nonneg_prices (price_data_of (fetch_historical_data provider symbols)).
Proof.
  intro H. unfold nonneg_prices, price_data_of.
  apply Forall_forall. intros kv Hin. apply in_map_iff in Hin as (kv0 & <- & Hin).
  simpl. rewrite (fetch_historical_data_entries _ _ _ Hin). apply H.
Qed.

(** A buy that costs more than the cash at hand changes nothing. *)
Lemma unaffordable_buy_rejected e price_data i st symbol prices current_price :
  dict_find price_data symbol = Some prices ->
  nth_error prices i = Some current_price ->
  ~ current_price == 0 ->
  st_cash st < buy_cost e st current_price ->
  execute_signal e price_data i st (symbol, buy) = Ok st.
Proof.
  intros Hfind Hnth Hp Hcost.
  unfold execute_signal, dict_get. rewrite Hfind. simpl.
  rewrite py_index_nat, Hnth. simpl.
  destruct (dict_find (st_positions st) symbol); [reflexivity|].
  unfold execute_buy. rewrite (py_div_nonzero _ _ Hp). simpl.
  destruct (Qltb 0 (st_cash st * 0.1 / current_price)
            && Qleb (st_cash st * 0.1) (st_cash st)); [|reflexivity].
  match goal with |- (if ?c then _ else _) = _ => destruct c eqn:E end;
    [|reflexivity].
  apply Qleb_le in E. unfold buy_cost, buy_quantity in Hcost.
  exfalso. exact (Qlt_not_le _ _ Hcost E).
Qed.

(** C1, in the form that holds on the code.  In a run whose initial capital
    is not negative, whose close prices are not negative and whose slippage
    and commission are at most 1, cash is not negative after any bar nor at
    any recorded equity point.  And in every run, whatever its configuration
    and whatever its state, a buy at a close other than 0 whose cost
    [quantity * entry_price * (1 + commission)] exceeds the cash at hand
    leaves the whole state as it was: cash, positions and trades. *)
Theorem C1_cash_never_negative :
  (forall e provider symbols strategy_type start_date parameters,
     0 <= initial_capital e -> slippage e <= 1 -> commission e <= 1 ->
     (forall symbol, Forall (fun p => 0 <= p) (close (provider symbol))) ->
     forall n st,
       simulation e provider symbols strategy_type start_date parameters n
         = Ok st ->
       0 <= st_cash st /\
       Forall (fun p => 0 <= ep_cash p) (st_equity_curve st)) /\
  (forall e price_data i st symbol prices current_price,
     dict_find price_data symbol = Some prices ->
     nth_error prices i = Some current_price ->
     ~ current_price == 0 ->
     st_cash st < buy_cost e st current_price ->
     execute_signal e price_data i st (symbol, buy) = Ok st).
Proof.
  split.
  - intros e provider symbols strategy_type start_date parameters
      Hcap Hs Hc Hprices.
    unfold simulation. intros n st H.
    eapply (simulate_invariant cash_ok) in H.
    + destruct H as (H1 & _ & H3). split; assumption.
    + intros i s s'. apply bar_cash_ok; try assumption.
      apply provider_nonneg_prices. exact Hprices.
    + repeat split; simpl; [exact Hcap | constructor | constructor].
  - intros e price_data i st symbol prices current_price.
    apply unaffordable_buy_rejected.
Qed.

(** A run with the default costs, whose cash stays non-negative; and a buy
    that is rejected: at a commission of 1000% the tenth of the cash that a
    buy spends costs 110 out of a cash of 100. *)
Lemma C1_witness :
  (forall n st,
     simulation (engine_with_capital 100) (constant_provider [1; 2; 3; 2])
       ["AAPL"%string] TREND_FOLLOWING 0 lookback_1 n = Ok st ->
     0 <= st_cash st /\
     Forall (fun p => 0 <= ep_cash p) (st_equity_curve st)) /\
  (st_cash (initial_state (mkEngine 100 10 0) 0)
   < buy_cost (mkEngine 100 10 0) (initial_state (mkEngine 100 10 0) 0) 1 /\
   execute_signal (mkEngine 100 10 0) [("AAPL"%string, [1; 2])] 0
     (initial_state (mkEngine 100 10 0) 0) ("AAPL"%string, buy)
   = Ok (initial_state (mkEngine 100 10 0) 0)).
Proof.
  split.
  - apply (proj1 C1_cash_never_negative (engine_with_capital 100)
             (constant_provider [1; 2; 3; 2])).
    + simpl. lra.
    + simpl. lra.
    + simpl. lra.
    + intro symbol. simpl. repeat constructor; lra.
  - split; [vm_compute; reflexivity|].
    apply (proj2 C1_cash_never_negative (mkEngine 100 10 0)
             [("AAPL"%string, [1; 2])] 0%nat
             (initial_state (mkEngine 100 10 0) 0) "AAPL"%string [1; 2] 1).
    + reflexivity.
    + reflexivity.
    + intro H. discriminate H.
    + vm_compute. reflexivity.
Defined.

(** C1 does not hold as the specification states it: a negative initial
    capital is simulated as it is, and the first equity point already records
    negative cash. *)
Lemma C1_counterexample :
  exists st,
    simulation (engine_with_capital (-100)) (constant_provider [1; 2; 3; 2])
      ["AAPL"%string] MOMENTUM 0 no_params 1 = Ok st /\
    ~ Forall (fun p => 0 <= ep_cash p) (st_equity_curve st).
Proof.
  eexists. split.
  - vm_compute. reflexivity.
  - intro H. inversion H as [|p l Hp Hl]; subst.
    simpl in Hp. lra.
Qed.

(** ** Equity *)

Lemma execute_signal_positions_known e price_data i st item st' :
  positions_known price_data st ->
  execute_signal e price_data i st item = Ok st' ->
  positions_known price_data st'.
Proof.
  unfold positions_known. intros Hst H. destruct item as [symbol signal].
  apply execute_signal_cases in H
    as (prices & p & Hfind & _ &
        [-> | [(_ & _ & H) | (_ & pos & _ & ->)]]).
  - exact Hst.
  - apply execute_buy_cases in H as [_ [-> | (_ & _ & ->)]]; [exact Hst|].
    simpl. apply Forall_forall. intros kv Hin.
    apply In_dict_set in Hin as [Hin | ->].
    + rewrite Forall_forall in Hst. auto.
    + simpl. unfold dict_mem. rewrite Hfind. reflexivity.
  - simpl. apply Forall_forall. intros kv Hin. apply In_dict_del in Hin.
    rewrite Forall_forall in Hst. auto.
Qed.

Lemma execute_signal_curve e price_data i st item st' :
  execute_signal e price_data i st item = Ok st' ->
  st_equity_curve st' = st_equity_curve st.
Proof.
  intro H. destruct item as [symbol signal].
  apply execute_signal_cases in H
    as (prices & p & _ & _ & [-> | [(_ & _ & H) | (_ & pos & _ & ->)]]).
  - reflexivity.
  - apply execute_buy_cases in H as [_ [-> | (_ & _ & ->)]]; reflexivity.
  - reflexivity.
Qed.

Lemma execute_signals_curve e price_data i signals st st' :
  foldM (execute_signal e price_data i) signals st = Ok st' ->
  st_equity_curve st' = st_equity_curve st.
Proof.
  apply (foldM_invariant
           (fun s => st_equity_curve s = st_equity_curve st)); [|reflexivity].
  intros s x s' Hs H. apply execute_signal_curve in H. congruence.
Qed.

Lemma simulate_curve_length e strategy market_data symbols price_data n :
  forall st st',
    simulate e strategy market_data symbols price_data n st = Ok st' ->
    length (st_equity_curve st') = (length (st_equity_curve st) + n)%nat.
Proof.
  induction n as [|n IH]; simpl; intros st st' H.
  - injection H as <-. lia.
  - apply bind_Ok in H as (st0 & H0 & H). apply IH in H0.
    apply bar_Ok in H as (signals & st1 & _ & Hexec & Hrec).
    apply execute_signals_curve in Hexec.
    apply record_equity_Ok in Hrec as (ts & ->). simpl.
    rewrite length_app, Hexec, H0. simpl. lia.
Qed.

Lemma fold_min_le (l : list nat) :
  forall a, (fold_left Nat.min l a <= a)%nat /\
            Forall (fun x => (fold_left Nat.min l a <= x)%nat) l.
Proof.
  induction l as [|x l IH]; simpl; intro a.
  - split; [lia | constructor].
  - destruct (IH (Nat.min a x)) as [H1 H2]. split; [lia|].
    constructor; [lia | exact H2].
Qed.

Lemma min_length_of_le price_data symbol prices :
  dict_find price_data symbol = Some prices ->
  (min_length_of price_data <= length prices)%nat.
Proof.
  intro H. apply dict_find_In in H.
  apply (in_map snd) in H. simpl in H. fold (dict_values price_data) in H.
  unfold min_length_of.
  destruct (dict_values price_data) as [|p0 rest]; [destruct H|].
  destruct (fold_min_le (map (@length Q) rest) (length p0)) as [H1 H2].
  destruct H as [<- | H]; [exact H1|].
  rewrite Forall_forall in H2. apply H2. apply in_map. exact H.
Qed.

(** Within the simulated length, the filter of the generator that is summed
    into [positions_value] keeps every open position. *)
Lemma position_values_all price_data i positions :
  (i < min_length_of price_data)%nat ->
  Forall (fun kv => dict_mem price_data (pos_symbol (snd kv)) = true) positions ->
  position_values price_data i positions =
  map (fun pos => pos_quantity pos * close_at price_data (pos_symbol pos) i)
      (dict_values positions).
Proof.
  intros Hi Hknown. unfold position_values, dict_values.
  induction positions as [|[k pos] positions IH]; simpl; [reflexivity|].
  inversion Hknown as [|kv l Hk Hl]; subst. simpl in Hk.
  rewrite (IH Hl). unfold close_at, dict_mem in *.
  destruct (dict_find price_data (pos_symbol pos)) as [prices|] eqn:Hfind;
    [|discriminate].
  pose proof (min_length_of_le _ _ _ Hfind) as Hlen.
  destruct (nth_error prices i) as [p|] eqn:Hnth.
  - rewrite (nth_error_nth _ _ 0 Hnth). reflexivity.
  - apply nth_error_None in Hnth. lia.
Qed.

(** C2: the equity point appended for a bar records the cash after the
    bar's trades, the sum over all open positions of quantity times the
    symbol's close on that bar, and their sum as the equity; and every point
    of the curve satisfies equity = cash + positions_value. *)
Theorem C2_equity_is_cash_plus_positions :
  forall e provider symbols strategy_type start_date parameters i st,
    (i < min_length_of
           (price_data_of (fetch_historical_data provider symbols)))%nat ->
    simulation e provider symbols strategy_type start_date parameters (S i)
      = Ok st ->
    Forall (fun p => ep_equity p = ep_cash p + ep_positions_value p)
           (st_equity_curve st) /\
    exists p,
      nth_error (st_equity_curve st) i = Some p /\
      ep_cash p = st_cash st /\
      ep_positions_value p =
        py_sum (map (fun pos =>
                       pos_quantity pos
                       * close_at (price_data_of
                                     (fetch_historical_data provider symbols))
                                  (pos_symbol pos) i)
                    (dict_values (st_positions st))).
Proof.
  unfold simulation.
  intros e provider symbols strategy_type start_date parameters i st Hi H.
  set (market_data := fetch_historical_data provider symbols) in *.
  set (price_data := price_data_of market_data) in *.
  set (strategy := get_strategy strategy_type parameters) in *.
  split.
  - eapply (simulate_invariant
              (fun s => Forall equity_identity (st_equity_curve s))) in H;
      [exact H| |constructor].
    intros j s s' Hs Hbar.
    apply bar_Ok in Hbar as (signals & s1 & _ & Hexec & Hrec).
    apply execute_signals_curve in Hexec.
    apply record_equity_Ok in Hrec as (ts & ->). simpl.
    apply Forall_app. split; [congruence|].
    constructor; [reflexivity | constructor].
  - simpl in H. apply bind_Ok in H as (st0 & H0 & Hbar).
    pose proof (simulate_curve_length _ _ _ _ _ _ _ _ H0) as Hlen.
    simpl in Hlen.
    apply (simulate_invariant (positions_known price_data)) in H0;
      [| |constructor].
    2:{ intros j s s' Hs Hb.
        apply bar_Ok in Hb as (signals & s1 & _ & Hexec & Hrec).
        apply (foldM_invariant _ _
                 (execute_signal_positions_known e price_data j)) in Hexec;
          [|exact Hs].
        apply record_equity_Ok in Hrec as (ts & ->). exact Hexec. }
    apply bar_Ok in Hbar as (signals & st1 & _ & Hexec & Hrec).
    pose proof (execute_signals_curve _ _ _ _ _ _ Hexec) as Hcurve.
    apply (foldM_invariant _ _
             (execute_signal_positions_known e price_data i)) in Hexec;
      [|exact H0].
    apply record_equity_Ok in Hrec as (ts & ->). simpl.
    rewrite Hcurve.
    eexists. split; [|split].
    + rewrite nth_error_app2 by lia.
      replace (i - length (st_equity_curve st0))%nat with O by lia.
      reflexivity.
    + reflexivity.
    + simpl. rewrite (position_values_all _ _ _ Hi Hexec). reflexivity.
Qed.

(** ** A round trip at one price *)

Lemma buy_quantity_pos st p : 0 < st_cash st -> 0 < p -> 0 < buy_quantity st p.
Proof.
  intros Hcash Hp. unfold buy_quantity, Qdiv.
  apply Qmult_lt_0_compat; [lra|]. apply Qinv_lt_0_compat. exact Hp.
Qed.

Lemma buy_cost_free e st p :
  commission e == 0 -> slippage e == 0 -> ~ p == 0 ->
  buy_cost e st p == st_cash st * 0.1.
Proof.
  intros Hc Hs Hp. unfold buy_cost, buy_quantity. rewrite Hc, Hs. field. exact Hp.
Qed.

(** A buy is filled when there is cash, the price is positive and the costs
    are nil. *)
Lemma free_buy_filled e price_data symbol prices p i st :
  commission e == 0 -> slippage e == 0 -> 0 < p -> 0 < st_cash st ->
  dict_find price_data symbol = Some prices ->
  nth_error prices i = Some p ->
  dict_find (st_positions st) symbol = None ->
  execute_signal e price_data i st (symbol, buy) = Ok (filled_buy e symbol p st).
Proof.
  intros Hc Hs Hp Hcash Hfind Hnth Hnone.
  assert (Hp0 : ~ p == 0) by lra.
  unfold execute_signal, dict_get. rewrite Hfind. simpl.
  rewrite py_index_nat, Hnth. simpl. rewrite Hnone.
  unfold execute_buy. rewrite (py_div_nonzero _ _ Hp0). simpl.
  pose proof (buy_quantity_pos st p Hcash Hp) as Hq.
  pose proof (buy_cost_free e st p Hc Hs Hp0) as Hcost.
  unfold buy_quantity in Hq. unfold buy_cost, buy_quantity in Hcost.
  apply Qltb_lt in Hq. rewrite Hq.
  assert (H1 : Qleb (st_cash st * 0.1) (st_cash st) = true)
    by (apply Qleb_le; lra).
  rewrite H1. simpl.
  assert (H2 : Qleb (st_cash st * 0.1 / p * (p * (1 + slippage e))
                     * (1 + commission e)) (st_cash st) = true)
    by (apply Qleb_le; rewrite Hcost; lra).
  rewrite H2. reflexivity.
Qed.

Lemma dict_del_set_fresh {V : Type} (d : dict V) (k : string) (v : V) :
  dict_find d k = None -> dict_del (dict_set d k v) k = d.
Proof.
  induction d as [|[k0 v0] d IH]; simpl; intro H.
  - rewrite String.eqb_refl. reflexivity.
  - destruct (String.eqb k k0) eqn:E; [discriminate|].
    simpl. rewrite E, (IH H). reflexivity.
Qed.

(** C8: with zero commission and slippage and with cash at hand, a buy at a
    positive close [p] is filled: it opens a position of [0.1 * cash / p]
    units, a positive quantity, entered at [p], and takes
    [quantity * p] from the cash.  A sell of that position at the same
    close [p] closes it, returns [quantity * p] to the cash and appends a
    trade of that quantity, entered and exited at [p], whose pnl and
    pnl_percent are 0.  When the sell follows the buy at once, positions
    and cash are back to what they were before the buy. *)
Theorem C8_round_trip_pnl_zero :
  forall e price_data symbol prices p i j st,
    commission e == 0 -> slippage e == 0 -> 0 < p -> 0 < st_cash st ->
    dict_find price_data symbol = Some prices ->
    nth_error prices i = Some p ->
    nth_error prices j = Some p ->
    dict_find (st_positions st) symbol = None ->
    exists st1 position,
      execute_signal e price_data i st (symbol, buy) = Ok st1 /\
      dict_find (st_positions st1) symbol = Some position /\
      pos_symbol position = symbol /\
      pos_quantity position = st_cash st * 0.1 / p /\
      0 < pos_quantity position /\
      pos_entry_price position == p /\
      st_cash st1 == st_cash st - pos_quantity position * p /\
      st_trades st1 = st_trades st /\
      (forall st2,
         dict_find (st_positions st2) symbol = Some position ->
         exists st3 t,
           execute_signal e price_data j st2 (symbol, sell) = Ok st3 /\
           st_trades st3 = st_trades st2 ++ [t] /\
           st_positions st3 = dict_del (st_positions st2) symbol /\
           st_cash st3 == st_cash st2 + pos_quantity position * p /\
           tr_symbol t = symbol /\
           tr_quantity t = pos_quantity position /\
           tr_entry_price t == p /\
           tr_exit_price t == p /\
           tr_pnl t == 0 /\
           tr_pnl_percent t == 0) /\
      (exists st3 t,
         execute_signal e price_data j st1 (symbol, sell) = Ok st3 /\
         st_trades st3 = st_trades st ++ [t] /\
         st_positions st3 = st_positions st /\
         dict_find (st_positions st3) symbol = None /\
         st_cash st3 == st_cash st /\
         tr_pnl t == 0).
Proof.
  intros e price_data symbol prices p i j st Hc Hs Hp Hcash Hfind Hi Hj Hnone.
  assert (Hp0 : ~ p == 0) by lra.
  pose proof (buy_quantity_pos st p Hcash Hp) as Hq.
  assert (Hpnl : buy_quantity st p * (p * (1 - slippage e))
                 * (1 - commission e)
                 - buy_quantity st p * (p * (1 + slippage e)) == 0)
    by (rewrite Hc, Hs; ring).
  assert (Hsell : forall st2,
            dict_find (st_positions st2) symbol
            = Some (mkPosition symbol (buy_quantity st p)
                      (p * (1 + slippage e)) (st_date st) "long") ->
            execute_signal e price_data j st2 (symbol, sell)
            = Ok (execute_sell e symbol p
                    (mkPosition symbol (buy_quantity st p)
                       (p * (1 + slippage e)) (st_date st) "long") st2)).
  { intros st2 Hpos. unfold execute_signal, dict_get. rewrite Hfind. simpl.
    rewrite py_index_nat, Hj. simpl. rewrite Hpos. reflexivity. }
  exists (filled_buy e symbol p st). eexists.
  split; [apply (free_buy_filled e price_data symbol prices p i st);
          assumption|].
  split; [simpl; rewrite dict_find_set, String.eqb_refl; reflexivity|].
  cbn [pos_symbol pos_quantity pos_entry_price].
  split; [reflexivity|]. split; [reflexivity|]. split; [exact Hq|].
  split; [rewrite Hs; ring|].
  split.
  { unfold filled_buy. cbn [st_cash].
    rewrite (buy_cost_free e st p Hc Hs Hp0).
    unfold buy_quantity. field. exact Hp0. }
  split; [reflexivity|].
  split.
  - intros st2 Hpos. rewrite (Hsell st2 Hpos).
    eexists. eexists. split; [reflexivity|].
    split; [reflexivity|]. split; [reflexivity|].
    unfold execute_sell.
    cbn [st_cash set_cash set_positions add_trade pos_quantity
         pos_entry_price tr_symbol tr_quantity tr_entry_price tr_exit_price
         tr_pnl tr_pnl_percent].
    split; [rewrite Hc, Hs; ring|].
    split; [reflexivity|]. split; [reflexivity|].
    split; [rewrite Hs; ring|]. split; [rewrite Hs; ring|].
    split; [exact Hpnl|].
    destruct (Qltb 0 (buy_quantity st p * (p * (1 + slippage e))));
      [|reflexivity].
    rewrite Hpnl. unfold Qdiv. ring.
  - rewrite (Hsell (filled_buy e symbol p st))
      by (simpl; rewrite dict_find_set, String.eqb_refl; reflexivity).
    eexists. eexists. split; [reflexivity|].
    unfold execute_sell, filled_buy.
    cbn [st_cash st_trades st_positions set_cash set_positions add_trade
         pos_quantity pos_entry_price tr_pnl].
    split; [reflexivity|].
    rewrite (dict_del_set_fresh _ _ _ Hnone).
    split; [reflexivity|]. split; [exact Hnone|].
    split; [|exact Hpnl].
    rewrite (buy_cost_free e st p Hc Hs Hp0), Hc, Hs.
    unfold buy_quantity. field. exact Hp0.
Qed.

(** A cash of 100 at a close of 2: five units are bought for 10 and sold
    for 10. *)
Lemma C8_witness :
  exists st1 position,
    execute_signal (mkEngine 100 0 0) [("AAPL"%string, [2; 3; 2])] 0
      (initial_state (mkEngine 100 0 0) 0) ("AAPL"%string, buy) = Ok st1 /\
    dict_find (st_positions st1) "AAPL" = Some position /\
    pos_symbol position = "AAPL"%string /\
    pos_quantity position = 100 * 0.1 / 2 /\
    0 < pos_quantity position /\
    pos_entry_price position == 2 /\
    st_cash st1 == 100 - pos_quantity position * 2 /\
    st_trades st1 = [] /\
    (forall st2,
       dict_find (st_positions st2) "AAPL" = Some position ->
       exists st3 t,
         execute_signal (mkEngine 100 0 0) [("AAPL"%string, [2; 3; 2])] 2
           st2 ("AAPL"%string, sell) = Ok st3 /\
         st_trades st3 = st_trades st2 ++ [t] /\
         st_positions st3 = dict_del (st_positions st2) "AAPL" /\
         st_cash st3 == st_cash st2 + pos_quantity position * 2 /\
         tr_symbol t = "AAPL"%string /\
         tr_quantity t = pos_quantity position /\
         tr_entry_price t == 2 /\
         tr_exit_price t == 2 /\
         tr_pnl t == 0 /\
         tr_pnl_percent t == 0) /\
    (exists st3 t,
       execute_signal (mkEngine 100 0 0) [("AAPL"%string, [2; 3; 2])] 2
         st1 ("AAPL"%string, sell) = Ok st3 /\
       st_trades st3 = [] ++ [t] /\
       st_positions st3 = [] /\
       dict_find (st_positions st3) "AAPL" = None /\
       st_cash st3 == 100 /\
       tr_pnl t == 0).
Proof.
  apply (C8_round_trip_pnl_zero (mkEngine 100 0 0)
           [("AAPL"%string, [2; 3; 2])] "AAPL"%string [2; 3; 2] 2 0%nat 2%nat
           (initial_state (mkEngine 100 0 0) 0)).
  - reflexivity.
  - reflexivity.
  - reflexivity.
  - reflexivity.
  - reflexivity.
  - reflexivity.
  - reflexivity.
  - reflexivity.
Defined.

(** ** Trade counts and the profit factor *)

(** The fields of the report that depend on the trades alone, and the
    Sharpe ratio, when [_calculate_metrics] gets past its one division by
    the initial capital. *)
Lemma calculate_metrics_fields e state :
  st_trades state <> [] -> ~ initial_capital e == 0 ->
  exists r,
    _calculate_metrics e state = Ok r /\
    total_trades r = len (st_trades state) /\
    winning_trades r =
      len (filter (fun t => Qltb 0 (tr_pnl t)) (st_trades state)) /\
    losing_trades r = (total_trades r - winning_trades r)%Z /\
    profit_factor r = report_profit_factor (profit_factor_of (st_trades state)) /\
    sharpe_ratio r = py_round_R (sharpe_of (st_equity_curve state)) 2.
Proof.
  intros Htrades Hcap. unfold _calculate_metrics.
  destruct (st_trades state) as [|t trades]; [contradiction|].
  rewrite (py_div_nonzero _ _ Hcap). cbn [bind].
  eexists. split; [reflexivity|]. cbn [total_trades winning_trades
    losing_trades profit_factor sharpe_ratio]. repeat split.
Qed.

Lemma negb_Qltb (a b : Q) : negb (Qltb a b) = Qleb b a.
Proof. unfold Qltb, Qleb. apply negb_involutive. Qed.

(** C10: when [_calculate_metrics] reports on a non-empty trade list,
    [winning_trades] counts the trades with pnl > 0, [losing_trades] is the
    total minus that, the two add up to [total_trades], and
    [losing_trades] counts the trades with pnl <= 0, so a pnl of exactly 0
    counts as a loss. *)
Theorem C10_winning_plus_losing_is_total :
  forall e state,
    st_trades state <> [] -> ~ initial_capital e == 0 ->
    exists r,
      _calculate_metrics e state = Ok r /\
      total_trades r = len (st_trades state) /\
      winning_trades r =
        len (filter (fun t => Qltb 0 (tr_pnl t)) (st_trades state)) /\
      losing_trades r = (total_trades r - winning_trades r)%Z /\
      (winning_trades r + losing_trades r = total_trades r)%Z /\
      losing_trades r =
        len (filter (fun t => Qleb (tr_pnl t) 0) (st_trades state)).
Proof.
  intros e state Htrades Hcap.
  destruct (calculate_metrics_fields e state Htrades Hcap)
    as (r & Hr & Htot & Hwin & Hlose & _).
  exists r. repeat split; try assumption.
  - lia.
  - rewrite Hlose, Htot, Hwin. unfold len.
    pose proof (filter_length (fun t => Qltb 0 (tr_pnl t)) (st_trades state))
      as Hlen.
    rewrite (filter_ext (fun t => Qleb (tr_pnl t) 0)
               (fun t => negb (Qltb 0 (tr_pnl t))))
      by (intro t; symmetry; apply negb_Qltb).
    lia.
Qed.

Lemma C10_witness :
  exists r,
    _calculate_metrics (engine_with_capital 100)
      (mkState 4 100 [] 100 [mkTrade "AAPL" "long" 2 2 5 1 3 0 0] []) = Ok r /\
    total_trades r = 1%Z /\
    winning_trades r = 0%Z /\
    losing_trades r = (total_trades r - winning_trades r)%Z /\
    (winning_trades r + losing_trades r = total_trades r)%Z /\
    losing_trades r = 1%Z.
Proof.
  apply (C10_winning_plus_losing_is_total (engine_with_capital 100)
           (mkState 4 100 [] 100 [mkTrade "AAPL" "long" 2 2 5 1 3 0 0] [])).
  - simpl. discriminate.
  - simpl. lra.
Defined.

Lemma py_sum_from (l : list Q) (a : Q) : fold_left Qplus l a == a + py_sum l.
Proof.
  unfold py_sum. revert a.
  induction l as [|x l IH]; simpl; intro a.
  - ring.
  - rewrite (IH (a + x)), (IH (0 + x)). ring.
Qed.

Lemma py_sum_cons (x : Q) (l : list Q) : py_sum (x :: l) == x + py_sum l.
Proof.
  unfold py_sum at 1. simpl. rewrite py_sum_from. ring.
Qed.

Lemma py_sum_pos (l : list Q) :
  l <> [] -> Forall (fun x => 0 < x) l -> 0 < py_sum l.
Proof.
  intros Hne Hall.
  assert (G : forall l', Forall (fun x => 0 < x) l' -> 0 <= py_sum l').
  { clear. induction l' as [|x l' IH]; intro H.
    - unfold py_sum. simpl. lra.
    - inversion H; subst. rewrite py_sum_cons. specialize (IH H3). lra. }
  destruct l as [|x l]; [contradiction|].
  inversion Hall; subst. rewrite py_sum_cons. specialize (G l H2). lra.
Qed.

Lemma losses_of_pos (trades : list Trade) :
  Forall (fun x => 0 < x) (losses_of trades).
Proof.
  unfold losses_of. apply Forall_forall. intros x Hin.
  apply in_map_iff in Hin as (t & <- & Hin).
  apply filter_In in Hin as [_ Hneg]. apply Qltb_lt in Hneg.
  rewrite Qabs_neg by lra. lra.
Qed.

Lemma profit_factor_of_losses (trades : list Trade) :
  losses_of trades <> [] ->
  profit_factor_of trades =
  Some (py_sum (wins_of trades) / py_sum (losses_of trades)).
Proof.
  intro Hne. unfold profit_factor_of.
  pose proof (py_sum_pos _ Hne (losses_of_pos trades)) as Hpos.
  apply Qltb_lt in Hpos. rewrite Hpos.
  destruct (losses_of trades); [contradiction | reflexivity].
Qed.

Lemma py_round_zero (x : Q) (ndigits : nat) : x == 0 -> py_round x ndigits == 0.
Proof.
  intro Hx. unfold py_round, round_half_even.
  set (scale := inject_Z (10 ^ Z.of_nat ndigits)).
  assert (Hxs : x * scale == 0) by (rewrite Hx; ring).
  assert (Hfloor : Qfloor (x * scale) = 0%Z)
    by (rewrite (Qfloor_comp _ _ Hxs); reflexivity).
  rewrite Hfloor.
  assert (Hlt : Qltb (x * scale - inject_Z 0) 0.5 = true).
  { apply Qltb_lt. rewrite Hxs. reflexivity. }
  rewrite Hlt. unfold Qdiv. ring.
Qed.

(** C4, in the form that holds on the code: when [_calculate_metrics] reports
    on a non-empty trade list, the profit factor is the sum of the winning
    pnls over the sum of the absolute losing pnls, rounded to 2 places, when
    some trade loses (so it is 0 when some trade loses and none wins); and it
    is the sentinel 999.99 when no trade loses, whether or not any trade wins. *)
Theorem C4_profit_factor :
  forall e state,
    st_trades state <> [] -> ~ initial_capital e == 0 ->
    exists r,
      _calculate_metrics e state = Ok r /\
      (losses_of (st_trades state) <> [] ->
       profit_factor r =
         py_round (py_sum (wins_of (st_trades state))
                   / py_sum (losses_of (st_trades state))) 2) /\
      (losses_of (st_trades state) <> [] -> wins_of (st_trades state) = [] ->
       profit_factor r == 0) /\
      (losses_of (st_trades state) = [] -> profit_factor r = 999.99).
Proof.
  intros e state Htrades Hcap.
  destruct (calculate_metrics_fields e state Htrades Hcap)
    as (r & Hr & _ & _ & _ & Hpf & _).
  exists r. split; [exact Hr|]. rewrite Hpf. repeat split.
  - intro Hl. rewrite (profit_factor_of_losses _ Hl). reflexivity.
  - intros Hl Hw. rewrite (profit_factor_of_losses _ Hl), Hw. simpl.
    apply py_round_zero. unfold py_sum, Qdiv. simpl. ring.
  - intro Hl. unfold profit_factor_of. rewrite Hl. reflexivity.
Qed.

Lemma C4_witness :
  exists r,
    _calculate_metrics (engine_with_capital 100)
      (mkState 4 92 [] 92
         [mkTrade "AAPL" "long" 2 3 5 1 3 5 0.5;
          mkTrade "MSFT" "long" 4 3 2 1 3 (-2) (-0.25)] []) = Ok r /\
    (losses_of [mkTrade "AAPL" "long" 2 3 5 1 3 5 0.5;
                mkTrade "MSFT" "long" 4 3 2 1 3 (-2) (-0.25)] <> [] ->
     profit_factor r =
       py_round (py_sum (wins_of [mkTrade "AAPL" "long" 2 3 5 1 3 5 0.5;
                                  mkTrade "MSFT" "long" 4 3 2 1 3 (-2) (-0.25)])
                 / py_sum (losses_of
                             [mkTrade "AAPL" "long" 2 3 5 1 3 5 0.5;
                              mkTrade "MSFT" "long" 4 3 2 1 3 (-2) (-0.25)]))
                2) /\
    (losses_of [mkTrade "AAPL" "long" 2 3 5 1 3 5 0.5;
                mkTrade "MSFT" "long" 4 3 2 1 3 (-2) (-0.25)] <> [] ->
     wins_of [mkTrade "AAPL" "long" 2 3 5 1 3 5 0.5;
              mkTrade "MSFT" "long" 4 3 2 1 3 (-2) (-0.25)] = [] ->
     profit_factor r == 0) /\
    (losses_of [mkTrade "AAPL" "long" 2 3 5 1 3 5 0.5;
                mkTrade "MSFT" "long" 4 3 2 1 3 (-2) (-0.25)] = [] ->
     profit_factor r = 999.99).
Proof.
  apply (C4_profit_factor (engine_with_capital 100)
           (mkState 4 92 [] 92
              [mkTrade "AAPL" "long" 2 3 5 1 3 5 0.5;
               mkTrade "MSFT" "long" 4 3 2 1 3 (-2) (-0.25)] [])).
  - simpl. discriminate.
  - simpl. lra.
Defined.

(** A run over at least one bar is the simulation of all its bars followed
    by the metrics of the final state. *)
Lemma run_backtest_metrics e provider symbols strategy_type start_date
    parameters n st :
  min_length_of (price_data_of (fetch_historical_data provider symbols)) = S n ->
  simulation e provider symbols strategy_type start_date parameters (S n)
    = Ok st ->
  run_backtest e provider symbols strategy_type start_date parameters
    = _calculate_metrics e st.
Proof.
  intros Hmin Hsim. unfold run_backtest. rewrite Hmin, Hsim. reflexivity.
Qed.

Lemma flat_round_trip_simulation :
  simulation (mkEngine 100 0 0) (constant_provider [1; 2; 3; 2])
    ["AAPL"%string] TREND_FOLLOWING 0 lookback_1 4 = Ok flat_round_trip_state.
Proof. vm_compute. reflexivity. Qed.

(** C4 does not hold as the specification states it: a run whose only trade
    has a pnl of exactly 0 has no winning trade, and its profit factor is
    999.99, not 0. *)
Lemma C4_counterexample :
  exists r,
    run_backtest (mkEngine 100 0 0) (constant_provider [1; 2; 3; 2])
      ["AAPL"%string] TREND_FOLLOWING 0 lookback_1 = Ok r /\
    total_trades r = 1%Z /\
    winning_trades r = 0%Z /\
    profit_factor r == 999.99 /\
    ~ profit_factor r == 0.
Proof.
  destruct (calculate_metrics_fields (mkEngine 100 0 0) flat_round_trip_state)
    as (r & Hr & Htot & Hwin & _ & Hpf & _).
  - discriminate.
  - simpl. lra.
  - exists r. split.
    + rewrite (run_backtest_metrics _ _ _ _ _ _ 3 flat_round_trip_state);
        [exact Hr | reflexivity | exact flat_round_trip_simulation].
    + rewrite Htot, Hwin, Hpf. repeat split. intro H. discriminate H.
Qed.

Lemma C2_witness :
  Forall (fun p => ep_equity p = ep_cash p + ep_positions_value p)
         (st_equity_curve open_position_state) /\
  exists p,
    nth_error (st_equity_curve open_position_state) 1 = Some p /\
    ep_cash p = st_cash open_position_state /\
    ep_positions_value p =
      py_sum (map (fun pos =>
                     pos_quantity pos
                     * close_at (price_data_of
                                   (fetch_historical_data
                                      (constant_provider [1; 2; 3; 2])
                                      ["AAPL"%string]))
                                (pos_symbol pos) 1)
                  (dict_values (st_positions open_position_state))).
Proof.
  apply (C2_equity_is_cash_plus_positions (engine_with_capital 100)
           (constant_provider [1; 2; 3; 2]) ["AAPL"%string] TREND_FOLLOWING 0
           lookback_1 1%nat open_position_state).
  - vm_compute. lia.
  - vm_compute. reflexivity.
Defined.

Lemma C9_witness :
  Forall (fun t => tr_side t = "long"%string)
         (st_trades flat_round_trip_state) /\
  Forall (fun kv => pos_side (snd kv) = "long"%string)
         (st_positions flat_round_trip_state).
Proof.
  apply (C9_side_always_long (mkEngine 100 0 0)
           (constant_provider [1; 2; 3; 2]) ["AAPL"%string] TREND_FOLLOWING 0
           lookback_1 4%nat flat_round_trip_state).
  vm_compute. reflexivity.
Defined.

(** ** A zero close *)

(** A buy signal on a bar whose close is 0 raises when no position is open:
    the position size is divided by the close before any guard is tested. *)
Lemma zero_close_buy_raises e price_data i st symbol prices current_price :
  dict_find price_data symbol = Some prices ->
  nth_error prices i = Some current_price ->
  current_price == 0 ->
  dict_find (st_positions st) symbol = None ->
  execute_signal e price_data i st (symbol, buy) = Raise ZeroDivisionError.
Proof.
  intros Hfind Hnth Hp Hnone.
  unfold execute_signal, dict_get. rewrite Hfind. simpl.
  rewrite py_index_nat, Hnth. simpl. rewrite Hnone.
  unfold execute_buy. rewrite (py_div_zero _ _ Hp). reflexivity.
Qed.

(** The sell branch, whose division is guarded, cannot raise once the close
    has been read. *)
Lemma sell_never_raises e price_data i st symbol prices current_price :
  dict_find price_data symbol = Some prices ->
  nth_error prices i = Some current_price ->
  exists st', execute_signal e price_data i st (symbol, sell) = Ok st'.
Proof.
  intros Hfind Hnth.
  unfold execute_signal, dict_get. rewrite Hfind. simpl.
  rewrite py_index_nat, Hnth. simpl.
  destruct (dict_find (st_positions st) symbol); eauto.
Qed.

(** C3, which the code breaks: with the default engine and the default
    momentum strategy, the first 30 bars of these closes are simulated, the
    31st has a buy signal and a close of 0, and the position sizing raises
    [ZeroDivisionError] inside the loop, which ends the run. *)
Theorem C3_zero_close_raises_in_loop :
  (exists st,
     simulation backtest_engine (constant_provider closes_ending_at_zero)
       ["AAPL"%string] MOMENTUM 0 no_params 30 = Ok st /\
     generate_signals (get_strategy MOMENTUM no_params)
       [("AAPL"%string, closes_ending_at_zero)] 30
       = Ok [("AAPL"%string, buy)] /\
     execute_signal backtest_engine [("AAPL"%string, closes_ending_at_zero)]
       30 st ("AAPL"%string, buy) = Raise ZeroDivisionError) /\
  run_backtest_with_capital (constant_provider closes_ending_at_zero)
    ["AAPL"%string] MOMENTUM 0 100000 no_params = Raise ZeroDivisionError.
Proof.
  split.
  - eexists. split; [vm_compute; reflexivity|].
    split; vm_compute; reflexivity.
  - vm_compute. reflexivity.
Qed.

(** ** Configurations the engine does not check *)

Lemma execute_buy_negative_cash e symbol current_price st st' :
  st_cash st < 0 ->
  execute_buy e symbol current_price st = Ok st' -> st' = st.
Proof.
  intros Hcash H. unfold execute_buy in H.
  apply bind_Ok in H as (q & _ & H).
  assert (Hguard : Qleb (st_cash st * 0.1) (st_cash st) = false).
  { destruct (Qleb (st_cash st * 0.1) (st_cash st)) eqn:E; [|reflexivity].
    apply Qleb_le in E. lra. }
  rewrite Hguard, andb_false_r in H. congruence.
Qed.

Lemma execute_signal_idle capital e price_data i st item st' :
  capital < 0 ->
  idle capital st -> execute_signal e price_data i st item = Ok st' ->
  idle capital st'.
Proof.
  intros Hneg (Hcash & Hpos & Htrades) H. destruct item as [symbol signal].
  apply execute_signal_cases in H
    as (prices & p & _ & _ & [-> | [(_ & _ & H) | (_ & pos & Hfind & _)]]).
  - repeat split; assumption.
  - rewrite <- Hcash in Hneg.
    apply (execute_buy_negative_cash _ _ _ _ _ Hneg) in H. subst st'.
    repeat split; assumption.
  - rewrite Hpos in Hfind. discriminate.
Qed.

Lemma bar_idle capital e strategy market_data symbols price_data i st st' :
  capital < 0 ->
  idle capital st ->
  bar e strategy market_data symbols price_data i st = Ok st' ->
  idle capital st'.
Proof.
  intros Hneg Hst H. apply bar_Ok in H as (signals & st1 & _ & Hexec & Hrec).
  apply (foldM_invariant (idle capital) _
           (fun s x s' => execute_signal_idle capital e price_data i s x s' Hneg))
    in Hexec; [|exact Hst].
  apply record_equity_Ok in Hrec as (ts & ->). exact Hexec.
Qed.

(** C5, in the form that holds on the code: the engine checks neither input.
    With an empty symbol list it returns the empty result, an ordinary result,
    before any bar is simulated. With a negative initial capital it simulates
    the bars: no buy is filled, so after any number of bars the cash is the
    initial capital and there is no position and no trade, and a run that
    completes returns the empty result. *)
Theorem C5_configuration_not_checked :
  forall e provider symbols strategy_type start_date parameters,
    run_backtest e provider [] strategy_type start_date parameters
      = Ok _empty_results /\
    (initial_capital e < 0 ->
     (forall n st,
        simulation e provider symbols strategy_type start_date parameters n
          = Ok st ->
        st_cash st = initial_capital e /\
        st_positions st = [] /\ st_trades st = []) /\
     (forall r,
        run_backtest e provider symbols strategy_type start_date parameters
          = Ok r ->
        r = _empty_results)).
Proof.
  intros e provider symbols strategy_type start_date parameters.
  split; [reflexivity|]. intro Hcap.
  assert (Hidle : forall n st,
             simulation e provider symbols strategy_type start_date
               parameters n = Ok st ->
             idle (initial_capital e) st).
  { unfold simulation. intros n st Hsim.
    eapply (simulate_invariant (idle (initial_capital e))) in Hsim.
    - exact Hsim.
    - intros i s s'. apply bar_idle. exact Hcap.
    - repeat split. }
  split; [exact Hidle|].
  intro r. unfold run_backtest.
  destruct (min_length_of
              (price_data_of (fetch_historical_data provider symbols)))
    as [|n]; [congruence|].
  intro H. apply bind_Ok in H as (st & Hsim & Hmetrics).
  destruct (Hidle _ _ Hsim) as (_ & _ & Htrades).
  unfold _calculate_metrics in Hmetrics. rewrite Htrades in Hmetrics.
  congruence.
Qed.

Lemma C5_witness :
  (forall n st,
     simulation (engine_with_capital (-100)) (constant_provider [1; 2; 3; 2])
       ["AAPL"%string] MOMENTUM 0 no_params n = Ok st ->
     st_cash st = -100 /\ st_positions st = [] /\ st_trades st = []) /\
  (forall r,
     run_backtest (engine_with_capital (-100)) (constant_provider [1; 2; 3; 2])
       ["AAPL"%string] MOMENTUM 0 no_params = Ok r ->
     r = _empty_results).
Proof.
  apply (proj2 (C5_configuration_not_checked (engine_with_capital (-100))
                  (constant_provider [1; 2; 3; 2]) ["AAPL"%string] MOMENTUM
                  0%Z no_params)).
  simpl. lra.
Defined.

(** C5 does not hold as the specification states it: a negative initial
    capital and an empty symbol list are both answered with an ordinary
    result. *)
Lemma C5_counterexample :
  invalid_configuration (engine_with_capital (-100)) ["AAPL"%string] /\
  run_backtest (engine_with_capital (-100)) (constant_provider [1; 2; 3; 2])
    ["AAPL"%string] MOMENTUM 0 no_params = Ok _empty_results /\
  invalid_configuration backtest_engine [] /\
  run_backtest backtest_engine (constant_provider [1; 2; 3; 2])
    [] MOMENTUM 0 no_params = Ok _empty_results.
Proof.
  split; [left; simpl; lra|].
  split; [vm_compute; reflexivity|].
  split; [right; reflexivity | vm_compute; reflexivity].
Qed.

(** ** The Sharpe ratio *)

Lemma returns_of_consecutive (equities : list Q) :
  returns_of equities =
  map (fun pc => (snd pc - fst pc) / fst pc)
      (filter (fun pc => Qltb 0 (fst pc)) (consecutive equities)).
Proof.
  unfold consecutive.
  induction equities as [|prev rest IH]; [reflexivity|].
  destruct rest as [|curr rest']; [reflexivity|].
  change (returns_of (prev :: curr :: rest'))
    with (if Qltb 0 prev
          then (curr - prev) / prev :: returns_of (curr :: rest')
          else returns_of (curr :: rest')).
  change (combine (prev :: curr :: rest') (tl (prev :: curr :: rest')))
    with ((prev, curr) :: combine (curr :: rest') (tl (curr :: rest'))).
  cbn [filter fst snd]. rewrite IH.
  destruct (Qltb 0 prev); reflexivity.
Qed.

(** When no equity is negative, skipping the pairs whose previous equity is
    not positive is skipping those whose previous equity is zero. *)
Lemma returns_of_spec_returns (equities : list Q) :
  Forall (fun x => 0 <= x) equities ->
  returns_of equities = spec_returns equities.
Proof.
  induction equities as [|prev rest IH]; intro H; [reflexivity|].
  destruct rest as [|curr rest']; [reflexivity|].
  inversion H as [|x l Hprev Hrest]; subst.
  change (returns_of (prev :: curr :: rest'))
    with (if Qltb 0 prev
          then (curr - prev) / prev :: returns_of (curr :: rest')
          else returns_of (curr :: rest')).
  change (spec_returns (prev :: curr :: rest'))
    with (if Qeq_bool prev 0
          then spec_returns (curr :: rest')
          else (curr - prev) / prev :: spec_returns (curr :: rest')).
  rewrite (IH Hrest).
  destruct (Qltb 0 prev) eqn:E1; destruct (Qeq_bool prev 0) eqn:E2;
    try reflexivity.
  - apply Qltb_lt in E1. apply Qeq_bool_iff in E2. lra.
  - apply Qltb_ge in E1. apply Qeq_bool_neq in E2. exfalso. apply E2. lra.
Qed.

Lemma returns_of_nonempty (equities : list Q) :
  returns_of equities <> [] -> (1 < length equities)%nat.
Proof.
  destruct equities as [|a [|b l]]; simpl; intro H; try lia; contradiction.
Qed.

Lemma Q2R_zero (x : Q) : x == 0 -> Q2R x = 0%R.
Proof.
  intro H. rewrite (Qeq_eqR _ _ H). unfold Q2R. simpl. lra.
Qed.

Lemma std_singleton (x : Q) : std [x] = 0%R.
Proof.
  unfold std. rewrite Q2R_zero; [apply sqrt_0|].
  unfold variance, mean, py_sum. simpl. field.
Qed.

Lemma std_nil : std [] = 0%R.
Proof.
  unfold std. rewrite Q2R_zero; [apply sqrt_0|]. reflexivity.
Qed.

Lemma sqrt_252_pos : (0 < sqrt 252)%R.
Proof. apply sqrt_lt_R0. lra. Qed.

(** The annualisation of the source, [(mean * 252) / (std * sqrt(252))], is
    [mean / std * sqrt(252)]. *)
Lemma annualisation (avg sd : R) :
  (0 < sd)%R ->
  ((avg * 252) / (sd * sqrt 252) = avg / sd * sqrt 252)%R.
Proof.
  intro Hsd. pose proof sqrt_252_pos as Hs.
  assert (H252 : (sqrt 252 * sqrt 252 = 252)%R) by (apply sqrt_sqrt; lra).
  rewrite <- H252 at 1. field. lra.
Qed.

Lemma sharpe_of_positive_std (equity_curve : list EquityPoint) :
  (0 < std (returns_of (map ep_equity equity_curve)))%R ->
  sharpe_of equity_curve =
  ((Q2R (mean (returns_of (map ep_equity equity_curve))) * 252)
   / (std (returns_of (map ep_equity equity_curve)) * sqrt 252))%R.
Proof.
  intro Hstd. unfold sharpe_of.
  assert (Hne : returns_of (map ep_equity equity_curve) <> []).
  { intro Hnil. rewrite Hnil, std_nil in Hstd. lra. }
  pose proof (returns_of_nonempty _ Hne) as Hlen. rewrite length_map in Hlen.
  apply Nat.ltb_lt in Hlen. rewrite Hlen.
  destruct (returns_of (map ep_equity equity_curve)) as [|x l] eqn:E;
    [contradiction|].
  destruct (Rlt_dec 0 (std (x :: l))); [reflexivity | contradiction].
Qed.

Lemma sharpe_of_zero (equity_curve : list EquityPoint) :
  (length (returns_of (map ep_equity equity_curve)) < 2)%nat \/
  std (returns_of (map ep_equity equity_curve)) = 0%R ->
  sharpe_of equity_curve = 0%R.
Proof.
  intro H.
  assert (Hstd : std (returns_of (map ep_equity equity_curve)) = 0%R).
  { destruct H as [H | H]; [|exact H].
    destruct (returns_of (map ep_equity equity_curve)) as [|x [|y l]].
    - apply std_nil.
    - apply std_singleton.
    - simpl in H. lia. }
  unfold sharpe_of.
  destruct (1 <? length equity_curve)%nat; [|reflexivity].
  destruct (returns_of (map ep_equity equity_curve)) as [|x l];
    [reflexivity|].
  destruct (Rlt_dec 0 (std (x :: l))) as [Hlt|]; [|reflexivity].
  rewrite Hstd in Hlt. lra.
Qed.

(** C7, in the form that holds on the code: when [_calculate_metrics] reports
    on a non-empty trade list, the returns are [(e[i] - e[i-1]) / e[i-1]] over
    the consecutive pairs of the equity curve whose previous equity is
    positive, the pairs whose previous equity is zero or negative being
    skipped (with no negative equity these are the pairs whose previous equity
    is zero); the Sharpe ratio is [mean / std * sqrt 252], which the source's
    [(mean * 252) / (std * sqrt 252)] equals, when the standard deviation is
    positive, and 0 when there are fewer than 2 returns or the standard
    deviation is 0; the report holds it rounded to 2 places. *)
Theorem C7_sharpe_ratio :
  forall e state,
    st_trades state <> [] -> ~ initial_capital e == 0 ->
    exists r,
      _calculate_metrics e state = Ok r /\
      sharpe_ratio r = py_round_R (sharpe_of (st_equity_curve state)) 2 /\
      returns_of (equities_of state) =
        map (fun pc => (snd pc - fst pc) / fst pc)
            (filter (fun pc => Qltb 0 (fst pc))
                    (consecutive (equities_of state))) /\
      (Forall (fun x => 0 <= x) (equities_of state) ->
       returns_of (equities_of state) = spec_returns (equities_of state)) /\
      ((0 < std (returns_of (equities_of state)))%R ->
       sharpe_of (st_equity_curve state) =
         (Q2R (mean (returns_of (equities_of state)))
          / std (returns_of (equities_of state)) * sqrt 252)%R /\
       ((Q2R (mean (returns_of (equities_of state))) * 252)
        / (std (returns_of (equities_of state)) * sqrt 252)
        = Q2R (mean (returns_of (equities_of state)))
          / std (returns_of (equities_of state)) * sqrt 252)%R) /\
      ((length (returns_of (equities_of state)) < 2)%nat \/
       std (returns_of (equities_of state)) = 0%R ->
       sharpe_of (st_equity_curve state) = 0%R).
Proof.
  intros e state Htrades Hcap.
  destruct (calculate_metrics_fields e state Htrades Hcap)
    as (r & Hr & _ & _ & _ & _ & Hsharpe).
  exists r. split; [exact Hr|]. split; [exact Hsharpe|].
  split; [apply returns_of_consecutive|].
  split; [apply returns_of_spec_returns|].
  unfold equities_of. split.
  - intro Hstd. rewrite (sharpe_of_positive_std _ Hstd).
    split; apply annualisation; exact Hstd.
  - apply sharpe_of_zero.
Qed.

Lemma C7_witness :
  exists r,
    _calculate_metrics (mkEngine 100 0 0) flat_round_trip_state = Ok r /\
    sharpe_ratio r =
      py_round_R (sharpe_of (st_equity_curve flat_round_trip_state)) 2 /\
    returns_of (equities_of flat_round_trip_state) =
      map (fun pc => (snd pc - fst pc) / fst pc)
          (filter (fun pc => Qltb 0 (fst pc))
                  (consecutive (equities_of flat_round_trip_state))) /\
    (Forall (fun x => 0 <= x) (equities_of flat_round_trip_state) ->
     returns_of (equities_of flat_round_trip_state)
     = spec_returns (equities_of flat_round_trip_state)) /\
    ((0 < std (returns_of (equities_of flat_round_trip_state)))%R ->
     sharpe_of (st_equity_curve flat_round_trip_state) =
       (Q2R (mean (returns_of (equities_of flat_round_trip_state)))
        / std (returns_of (equities_of flat_round_trip_state)) * sqrt 252)%R /\
     ((Q2R (mean (returns_of (equities_of flat_round_trip_state))) * 252)
      / (std (returns_of (equities_of flat_round_trip_state)) * sqrt 252)
      = Q2R (mean (returns_of (equities_of flat_round_trip_state)))
        / std (returns_of (equities_of flat_round_trip_state)) * sqrt 252)%R) /\
    ((length (returns_of (equities_of flat_round_trip_state)) < 2)%nat \/
     std (returns_of (equities_of flat_round_trip_state)) = 0%R ->
     sharpe_of (st_equity_curve flat_round_trip_state) = 0%R).
Proof.
  apply (C7_sharpe_ratio (mkEngine 100 0 0) flat_round_trip_state).
  - discriminate.
  - simpl. lra.
Defined.

(** C7 does not hold as the specification states it: in this run, which
    completes one trade, the last two equity points are equal and negative;
    the source skips that pair, whose previous equity is not zero, so that its
    returns are one fewer than those of the specification. *)
Lemma C7_counterexample :
  simulation (engine_with_capital 100) (constant_provider [1; 2; -2000; 5])
    ["AAPL"%string] TREND_FOLLOWING 0 lookback_1 4 = Ok negative_equity_state /\
  length (st_trades negative_equity_state) = 1%nat /\
  length (spec_returns (equities_of negative_equity_state)) = 3%nat /\
  length (returns_of (equities_of negative_equity_state)) = 2%nat /\
  returns_of (equities_of negative_equity_state)
  <> spec_returns (equities_of negative_equity_state).
Proof.
  split; [vm_compute; reflexivity|].
  split; [reflexivity|]. split; [reflexivity|]. split; [reflexivity|].
  intro H. apply (f_equal (@length Q)) in H. vm_compute in H. discriminate H.
Qed.

(** ** A check of the drawdown loop *)

(** The equity curve 100, 120, 90, 110 against an initial capital of 100 has
    a maximum drawdown of a quarter, from the peak of 120 to the trough of
    90, reported as 25. *)
Example max_drawdown_peak_to_trough :
  max_drawdown_of (engine_with_capital 100)
    [mkEquityPoint 0 100 100 0; mkEquityPoint 1 120 100 20;
     mkEquityPoint 2 90 100 (-10); mkEquityPoint 3 110 100 10] == 0.25 /\
  py_round (0.25 * 100) 2 == 25.
Proof. split; vm_compute; reflexivity. Qed.

(** * Further properties of the engine *)

(** ** Loop principles *)

Lemma simulate_invariant_indexed (P : nat -> BacktestState -> Prop) e strategy
    market_data symbols price_data :
  (forall i st st', P i st ->
     bar e strategy market_data symbols price_data i st = Ok st' ->
     P (S i) st') ->
  forall n st st', P O st ->
    simulate e strategy market_data symbols price_data n st = Ok st' ->
    P n st'.
Proof.
  intros Hbar n. induction n as [|n IH]; simpl; intros st st' Hst H.
  - injection H as <-. exact Hst.
  - apply bind_Ok in H as (st1 & H1 & H2). eauto.
Qed.

(** A property kept by every execution of a signal and by the recording of
    the equity point is kept by a bar. *)
Lemma bar_invariant (P : BacktestState -> Prop) e strategy market_data
    symbols price_data i :
  (forall s x s', P s -> execute_signal e price_data i s x = Ok s' -> P s') ->
  (forall s s', P s ->
     record_equity market_data symbols price_data i s = Ok s' -> P s') ->
  forall st st',
    P st -> bar e strategy market_data symbols price_data i st = Ok st' ->
    P st'.
Proof.
  intros Hexec Hrec st st' Hst H.
  apply bar_Ok in H as (signals & st1 & _ & H1 & H2).
  apply (foldM_invariant P _ Hexec) in H1; [|exact Hst].
  exact (Hrec _ _ H1 H2).
Qed.

(** ** Dicts *)

Lemma dict_find_None_keys {V : Type} (d : dict V) (k : string) :
  dict_find d k = None <-> ~ In k (dict_keys d).
Proof.
  induction d as [|[k0 v0] d IH]; simpl.
  - tauto.
  - destruct (String.eqb k k0) eqn:E.
    + apply String.eqb_eq in E. subst k0. split; [discriminate|].
      intro H. exfalso. apply H. now left.
    + apply String.eqb_neq in E. rewrite IH. split.
      * intros H [H0 | H0]; [congruence | contradiction].
      * intros H H0. apply H. now right.
Qed.

Lemma dict_set_absent {V : Type} (d : dict V) (k : string) (v : V) :
  dict_find d k = None -> dict_set d k v = d ++ [(k, v)].
Proof.
  induction d as [|[k0 v0] d IH]; simpl; [reflexivity|].
  destruct (String.eqb k k0); [discriminate|].
  intro H. rewrite (IH H). reflexivity.
Qed.

Lemma NoDup_snoc {A : Type} (l : list A) (x : A) :
  NoDup l -> ~ In x l -> NoDup (l ++ [x]).
Proof.
  induction l as [|y l IH]; simpl; intros Hnd Hin.
  - constructor; [tauto | constructor].
  - inversion Hnd as [|y' l' Hy Hl]; subst. constructor.
    + rewrite in_app_iff. simpl. intros [H | [H | []]]; [tauto|].
      apply Hin. now left.
    + apply IH; [exact Hl|]. intro H. apply Hin. now right.
Qed.

Lemma dict_keys_set {V : Type} (d : dict V) (k : string) (v : V) :
  dict_keys (dict_set d k v) =
  if dict_mem d k then dict_keys d else dict_keys d ++ [k].
Proof.
  unfold dict_mem, dict_keys.
  induction d as [|[k0 v0] d IH]; simpl; [reflexivity|].
  destruct (String.eqb k k0) eqn:E; simpl; [reflexivity|].
  rewrite IH. destruct (dict_find d k); reflexivity.
Qed.

Lemma NoDup_dict_set {V : Type} (d : dict V) (k : string) (v : V) :
  NoDup (dict_keys d) -> NoDup (dict_keys (dict_set d k v)).
Proof.
  intro H. rewrite dict_keys_set. unfold dict_mem.
  destruct (dict_find d k) eqn:E; [exact H|].
  apply NoDup_snoc; [exact H|]. apply dict_find_None_keys. exact E.
Qed.

Lemma In_keys_dict_del {V : Type} (d : dict V) (k k' : string) :
  In k' (dict_keys (dict_del d k)) -> In k' (dict_keys d).
Proof.
  unfold dict_keys. intro H. apply in_map_iff in H as (kv & <- & H).
  apply in_map. eapply In_dict_del. exact H.
Qed.

Lemma NoDup_dict_del {V : Type} (d : dict V) (k : string) :
  NoDup (dict_keys d) -> NoDup (dict_keys (dict_del d k)).
Proof.
  induction d as [|[k0 v0] d IH]; simpl; intro H; [constructor|].
  inversion H as [|x l Hx Hl]; subst.
  destruct (String.eqb k k0); [exact Hl|].
  simpl. constructor; [|exact (IH Hl)].
  intro Hin. apply Hx. eapply In_keys_dict_del. exact Hin.
Qed.

Lemma dict_find_del {V : Type} (d : dict V) (k k' : string) :
  NoDup (dict_keys d) ->
  dict_find (dict_del d k) k' =
  if String.eqb k' k then None else dict_find d k'.
Proof.
  induction d as [|[k0 v0] d IH]; simpl; intro H.
  - destruct (String.eqb k' k); reflexivity.
  - inversion H as [|x l Hx Hl]; subst.
    destruct (String.eqb k k0) eqn:E.
    + apply String.eqb_eq in E. subst k0.
      destruct (String.eqb k' k) eqn:E'; [|reflexivity].
      apply String.eqb_eq in E'. subst k'.
      apply dict_find_None_keys. exact Hx.
    + simpl. rewrite (IH Hl).
      destruct (String.eqb k' k0) eqn:E0; [|reflexivity].
      apply String.eqb_eq in E0. subst k0.
      destruct (String.eqb k' k) eqn:E1; [|reflexivity].
      apply String.eqb_eq in E1. subst k'.
      rewrite String.eqb_refl in E. discriminate.
Qed.

(** ** Positions *)

Lemma execute_signal_positions_wf e price_data i st item st' :
  positions_wf price_data st ->
  execute_signal e price_data i st item = Ok st' ->
  positions_wf price_data st'.
Proof.
  intros [Hnd Hall] H. destruct item as [symbol signal].
  apply execute_signal_cases in H
    as (prices & p & Hfind & _ &
        [-> | [(_ & Hnone & H) | (_ & pos & _ & ->)]]).
  - split; assumption.
  - apply execute_buy_cases in H as [_ [-> | (Hq & _ & ->)]];
      [split; assumption|].
    split; simpl.
    + apply NoDup_dict_set. exact Hnd.
    + apply Forall_forall. intros kv Hin.
      apply In_dict_set in Hin as [Hin | ->].
      * rewrite Forall_forall in Hall. auto.
      * simpl. repeat split; [exact Hq|].
        unfold dict_mem. rewrite Hfind. reflexivity.
  - split; simpl.
    + apply NoDup_dict_del. exact Hnd.
    + apply Forall_forall. intros kv Hin. apply In_dict_del in Hin.
      rewrite Forall_forall in Hall. auto.
Qed.

Lemma record_equity_positions market_data symbols price_data i s s' :
  record_equity market_data symbols price_data i s = Ok s' ->
  st_positions s' = st_positions s /\ st_trades s' = st_trades s /\
  st_cash s' = st_cash s /\ st_date s' = (st_date s + 1)%Z.
Proof.
  intro H. apply record_equity_Ok in H as (ts & ->). repeat split.
Qed.

(** X1: after any number of bars of any run there is at most one open
    position per symbol, each is filed under its own symbol, which is a
    symbol of the price data, and each holds a positive quantity. *)
Theorem X1_positions_well_formed :
  forall e provider symbols strategy_type start_date parameters n st,
    simulation e provider symbols strategy_type start_date parameters n
      = Ok st ->
    NoDup (dict_keys (st_positions st)) /\
    Forall (fun kv =>
              pos_symbol (snd kv) = fst kv /\
              0 < pos_quantity (snd kv) /\
              dict_mem (price_data_of (fetch_historical_data provider symbols))
                       (fst kv) = true)
           (st_positions st).
Proof.
  unfold simulation.
  intros e provider symbols strategy_type start_date parameters n st H.
  eapply (simulate_invariant
            (positions_wf (price_data_of
                             (fetch_historical_data provider symbols))))
    in H; [exact H| |].
  - intros i s s'. apply bar_invariant.
    + intros s0 x s1. apply execute_signal_positions_wf.
    + intros s0 s1 [Hnd Hall] Hrec.
      apply record_equity_positions in Hrec as (Hp & _).
      unfold positions_wf. rewrite Hp. split; assumption.
  - split; constructor.
Qed.

Lemma X1_witness :
  NoDup (dict_keys (st_positions open_position_state)) /\
  Forall (fun kv =>
            pos_symbol (snd kv) = fst kv /\
            0 < pos_quantity (snd kv) /\
            dict_mem (price_data_of
                        (fetch_historical_data
                           (constant_provider [1; 2; 3; 2]) ["AAPL"%string]))
                     (fst kv) = true)
         (st_positions open_position_state).
Proof.
  apply (X1_positions_well_formed (engine_with_capital 100)
           (constant_provider [1; 2; 3; 2]) ["AAPL"%string] TREND_FOLLOWING 0
           lookback_1 2%nat open_position_state).
  vm_compute. reflexivity.
Defined.

(** ** Trades *)

Lemma execute_sell_trade_accounts e symbol current_price position st :
  0 < pos_quantity position ->
  exists t,
    st_trades (execute_sell e symbol current_price position st)
      = st_trades st ++ [t] /\
    tr_symbol t = symbol /\
    tr_quantity t = pos_quantity position /\
    tr_entry_price t = pos_entry_price position /\
    tr_exit_price t = current_price * (1 - slippage e) /\
    tr_entry_date t = pos_entry_date position /\
    tr_exit_date t = st_date st /\
    trade_accounts e t.
Proof.
  intro Hq. eexists. split; [reflexivity|].
  repeat (split; [reflexivity|]).
  unfold trade_accounts.
  cbn [tr_quantity tr_pnl tr_pnl_percent tr_exit_price tr_entry_price].
  split; [exact Hq|]. split; [reflexivity|].
  set (cost_basis := pos_quantity position * pos_entry_price position).
  set (pnl := pos_quantity position * (current_price * (1 - slippage e))
              * (1 - commission e) - cost_basis).
  split.
  - intro Hpos. apply Qltb_lt in Hpos. rewrite Hpos. field.
    apply Qltb_lt in Hpos. lra.
  - intro Hneg. apply Qltb_ge in Hneg. rewrite Hneg. reflexivity.
Qed.

Lemma execute_signal_trade_accounts e price_data i st item st' :
  positions_wf price_data st /\ Forall (trade_accounts e) (st_trades st) ->
  execute_signal e price_data i st item = Ok st' ->
  positions_wf price_data st' /\ Forall (trade_accounts e) (st_trades st').
Proof.
  intros [Hwf Htr] H.
  split; [exact (execute_signal_positions_wf _ _ _ _ _ _ Hwf H)|].
  destruct item as [symbol signal].
  apply execute_signal_cases in H
    as (prices & p & _ & _ &
        [-> | [(_ & _ & H) | (_ & pos & Hpos & ->)]]).
  - exact Htr.
  - apply execute_buy_cases in H as [_ [-> | (_ & _ & ->)]]; exact Htr.
  - assert (Hq : 0 < pos_quantity pos).
    { destruct Hwf as [_ Hall]. rewrite Forall_forall in Hall.
      apply dict_find_In in Hpos. apply (Hall _ Hpos). }
    destruct (execute_sell_trade_accounts e symbol p pos st Hq)
      as (t & -> & _ & _ & _ & _ & _ & _ & Ht).
    apply Forall_app. split; [exact Htr|]. constructor; [exact Ht|constructor].
Qed.

(** X2: every trade of any run has a positive quantity, its pnl is
    [quantity * exit_price * (1 - commission) - quantity * entry_price] (the
    commission paid on the entry is not part of it), and its pnl_percent is
    that pnl over [quantity * entry_price] when this cost basis is positive
    and 0 otherwise. *)
Theorem X2_trade_accounting :
  forall e provider symbols strategy_type start_date parameters n st,
    simulation e provider symbols strategy_type start_date parameters n
      = Ok st ->
    Forall (fun t =>
              0 < tr_quantity t /\
              tr_pnl t =
                tr_quantity t * tr_exit_price t * (1 - commission e)
                - tr_quantity t * tr_entry_price t /\
              (0 < tr_quantity t * tr_entry_price t ->
               tr_pnl_percent t * (tr_quantity t * tr_entry_price t)
               == tr_pnl t) /\
              (tr_quantity t * tr_entry_price t <= 0 -> tr_pnl_percent t = 0))
           (st_trades st).
Proof.
  unfold simulation.
  intros e provider symbols strategy_type start_date parameters n st H.
  set (inv := fun s =>
         positions_wf (price_data_of
                         (fetch_historical_data provider symbols)) s /\
         Forall (trade_accounts e) (st_trades s)).
  apply (simulate_invariant inv) in H; [exact (proj2 H)| |].
  - intros i s s'. apply (bar_invariant inv).
    + intros s0 x s1. apply execute_signal_trade_accounts.
    + intros s0 s1 [[Hnd Hall] Htr] Hrec.
      apply record_equity_positions in Hrec as (Hp & Ht & _).
      unfold inv, positions_wf. rewrite Hp, Ht. repeat split; assumption.
  - repeat split; constructor.
Qed.

Lemma X2_witness :
  Forall (fun t =>
            0 < tr_quantity t /\
            tr_pnl t =
              tr_quantity t * tr_exit_price t
              * (1 - commission (engine_with_capital 100))
              - tr_quantity t * tr_entry_price t /\
            (0 < tr_quantity t * tr_entry_price t ->
             tr_pnl_percent t * (tr_quantity t * tr_entry_price t)
             == tr_pnl t) /\
            (tr_quantity t * tr_entry_price t <= 0 -> tr_pnl_percent t = 0))
         (st_trades negative_equity_state).
Proof.
  apply (X2_trade_accounting (engine_with_capital 100)
           (constant_provider [1; 2; -2000; 5]) ["AAPL"%string]
           TREND_FOLLOWING 0 lookback_1 4%nat negative_equity_state).
  vm_compute. reflexivity.
Defined.

(** ** Where the cash went *)

Lemma py_sum_app (l1 l2 : list Q) : py_sum (l1 ++ l2) == py_sum l1 + py_sum l2.
Proof.
  unfold py_sum at 1. rewrite fold_left_app, py_sum_from. reflexivity.
Qed.

Lemma py_sum_snoc (l : list Q) (x : Q) : py_sum (l ++ [x]) == py_sum l + x.
Proof.
  rewrite py_sum_app, py_sum_cons. unfold py_sum at 2. simpl. ring.
Qed.

Lemma py_sum_values_del {V : Type} (f : V -> Q) (d : dict V) (k : string)
    (v : V) :
  dict_find d k = Some v ->
  py_sum (map f (dict_values (dict_del d k)))
  == py_sum (map f (dict_values d)) - f v.
Proof.
  unfold dict_values.
  induction d as [|[k0 v0] d IH]; simpl; [discriminate|].
  destruct (String.eqb k k0).
  - intros [= ->]. rewrite py_sum_cons. ring.
  - intro H. simpl. rewrite !py_sum_cons, (IH H). ring.
Qed.

Lemma execute_signal_cash_balanced e price_data i st item st' :
  cash_balanced e st ->
  execute_signal e price_data i st item = Ok st' ->
  cash_balanced e st'.
Proof.
  unfold cash_balanced. intros Hst H. destruct item as [symbol signal].
  apply execute_signal_cases in H
    as (prices & p & _ & _ &
        [-> | [(_ & Hnone & H) | (_ & pos & Hpos & ->)]]).
  - exact Hst.
  - apply execute_buy_cases in H as [_ [-> | (_ & _ & ->)]]; [exact Hst|].
    cbn [filled_buy st_cash st_trades st_positions].
    rewrite (dict_set_absent _ _ _ Hnone).
    unfold dict_values. rewrite !map_app. cbn [map snd].
    rewrite py_sum_snoc, Hst. unfold dict_values, position_outlay, buy_cost.
    cbn [pos_quantity pos_entry_price]. ring.
  - cbn [execute_sell add_trade set_cash set_positions st_cash st_trades
         st_positions].
    rewrite (py_sum_values_del _ _ _ _ Hpos), map_app. cbn [map].
    rewrite py_sum_snoc, Hst.
    unfold trade_cash_effect, position_outlay.
    cbn [tr_pnl tr_quantity tr_entry_price]. ring.
Qed.

(** X3: after any number of bars of any run, the cash is the initial capital,
    plus for every closed trade its pnl less the commission on its entry
    ([quantity * entry_price * commission], which the pnl leaves out), less
    for every open position what was paid for it
    ([quantity * entry_price * (1 + commission)]). *)
Theorem X3_cash_accounting :
  forall e provider symbols strategy_type start_date parameters n st,
    simulation e provider symbols strategy_type start_date parameters n
      = Ok st ->
    st_cash st ==
    initial_capital e
    + py_sum (map (fun t =>
                     tr_pnl t - tr_quantity t * tr_entry_price t * commission e)
                  (st_trades st))
    - py_sum (map (fun pos =>
                     pos_quantity pos * pos_entry_price pos
                     * (1 + commission e))
                  (dict_values (st_positions st))).
Proof.
  unfold simulation.
  intros e provider symbols strategy_type start_date parameters n st H.
  apply (simulate_invariant (cash_balanced e)) in H; [exact H| |].
  - intros i s s'. apply (bar_invariant (cash_balanced e)).
    + intros s0 x s1. apply execute_signal_cash_balanced.
    + intros s0 s1 Hs Hrec.
      apply record_equity_positions in Hrec as (Hp & Ht & Hc & _).
      unfold cash_balanced. rewrite Hp, Ht, Hc. exact Hs.
  - unfold cash_balanced, py_sum. simpl. ring.
Qed.

Lemma X3_witness :
  st_cash negative_equity_state ==
  initial_capital (engine_with_capital 100)
  + py_sum (map (fun t =>
                   tr_pnl t
                   - tr_quantity t * tr_entry_price t
                     * commission (engine_with_capital 100))
                (st_trades negative_equity_state))
  - py_sum (map (fun pos =>
                   pos_quantity pos * pos_entry_price pos
                   * (1 + commission (engine_with_capital 100)))
                (dict_values (st_positions negative_equity_state))).
Proof.
  apply (X3_cash_accounting (engine_with_capital 100)
           (constant_provider [1; 2; -2000; 5]) ["AAPL"%string]
           TREND_FOLLOWING 0 lookback_1 4%nat negative_equity_state).
  vm_compute. reflexivity.
Defined.

(** ** Dates *)

Lemma generate_signals_NoDup strategy data current_idx signals :
  generate_signals strategy data current_idx = Ok signals ->
  NoDup (dict_keys signals).
Proof.
  unfold generate_signals.
  apply (foldM_invariant (fun sg : dict Signal => NoDup (dict_keys sg)));
    [|constructor].
  intros sg item sg' Hsg H.
  apply bind_Ok in H as (sig & _ & [= <-]).
  apply NoDup_dict_set. exact Hsg.
Qed.

Lemma execute_signal_dates_in_bar e price_data start_date i symbol signal
    rest st st' :
  ~ In symbol (dict_keys rest) ->
  dates_in_bar start_date i ((symbol, signal) :: rest) st ->
  execute_signal e price_data i st (symbol, signal) = Ok st' ->
  dates_in_bar start_date i rest st'.
Proof.
  intros Hfresh (Hdate & Hpos & Htr) H.
  assert (Hweak : Forall (fun kv =>
            (start_date <= pos_entry_date (snd kv)
             <= start_date + Z.of_nat i)%Z /\
            ((pos_entry_date (snd kv) < start_date + Z.of_nat i)%Z \/
             ~ In (fst kv) (dict_keys rest))) (st_positions st)).
  { eapply Forall_impl; [|exact Hpos]. simpl.
    intros kv [Hr [Hlt | Hnin]]; (split; [exact Hr|]); [now left | right].
    intro Hin. apply Hnin. now right. }
  apply execute_signal_cases in H
    as (prices & p & _ & _ &
        [-> | [(_ & _ & H) | (_ & pos & Hfind & ->)]]).
  - repeat split; assumption.
  - apply execute_buy_cases in H as [_ [-> | (_ & _ & ->)]];
      [repeat split; assumption|].
    split; [exact Hdate|]. split; [|exact Htr]. simpl.
    apply Forall_forall. intros kv Hin.
    apply In_dict_set in Hin as [Hin | ->].
    + rewrite Forall_forall in Hweak. auto.
    + simpl. split; [lia|]. now right.
  - split; [exact Hdate|]. split; simpl.
    + apply Forall_forall. intros kv Hin. apply In_dict_del in Hin.
      rewrite Forall_forall in Hweak. auto.
    + apply Forall_app. split; [exact Htr|].
      constructor; [|constructor]. simpl.
      apply dict_find_In in Hfind. rewrite Forall_forall in Hpos.
      destruct (Hpos _ Hfind) as [Hr [Hlt | Hnin]]; simpl in *.
      * lia.
      * exfalso. apply Hnin. now left.
Qed.

Lemma execute_signals_dates_in_bar e price_data start_date i :
  forall signals st st',
    NoDup (dict_keys signals) ->
    dates_in_bar start_date i signals st ->
    foldM (execute_signal e price_data i) signals st = Ok st' ->
    dates_in_bar start_date i [] st'.
Proof.
  induction signals as [|[symbol signal] rest IH]; simpl; intros st st' Hnd Hst H.
  - injection H as <-. exact Hst.
  - apply bind_Ok in H as (s1 & H1 & H2).
    inversion Hnd as [|x l Hfresh Hrest]; subst.
    apply (IH s1 st' Hrest); [|exact H2].
    eapply execute_signal_dates_in_bar; eassumption.
Qed.

Lemma bar_dates_ok e strategy market_data symbols price_data start_date i
    st st' :
  dates_ok start_date i st ->
  bar e strategy market_data symbols price_data i st = Ok st' ->
  dates_ok start_date (S i) st'.
Proof.
  intros (Hdate & Hpos & Htr) H.
  apply bar_Ok in H as (signals & s1 & Hsig & Hexec & Hrec).
  apply generate_signals_NoDup in Hsig.
  apply (execute_signals_dates_in_bar _ _ start_date _ _ _ _ Hsig) in Hexec.
  - destruct Hexec as (Hdate1 & Hpos1 & Htr1).
    apply record_equity_Ok in Hrec as (ts & ->).
    unfold dates_ok. simpl. split; [lia|]. split.
    + eapply Forall_impl; [|exact Hpos1]. simpl. intros kv [Hr _]. lia.
    + eapply Forall_impl; [|exact Htr1]. simpl. intros t (H1 & H2 & H3). lia.
  - split; [exact Hdate|]. split.
    + eapply Forall_impl; [|exact Hpos]. simpl. intros kv Hr.
      split; [lia | left; lia].
    + eapply Forall_impl; [|exact Htr]. simpl. intros t (H1 & H2 & H3). lia.
Qed.

(** X4: after [n] bars of a run started on [start_date] the state's date is
    [start_date + n]; every open position was entered on one of the [n]
    days simulated; and every trade was entered on or after [start_date] and
    exited on a later simulated day: no position is closed on the bar that
    opened it. *)
Theorem X4_trade_dates :
  forall e provider symbols strategy_type start_date parameters n st,
    simulation e provider symbols strategy_type start_date parameters n
      = Ok st ->
    st_date st = (start_date + Z.of_nat n)%Z /\
    Forall (fun kv =>
              (start_date <= pos_entry_date (snd kv)
               < start_date + Z.of_nat n)%Z)
           (st_positions st) /\
    Forall (fun t =>
              (start_date <= tr_entry_date t)%Z /\
              (tr_entry_date t < tr_exit_date t)%Z /\
              (tr_exit_date t < start_date + Z.of_nat n)%Z)
           (st_trades st).
Proof.
  unfold simulation.
  intros e provider symbols strategy_type start_date parameters n st H.
  apply (simulate_invariant_indexed (dates_ok start_date)) in H; [exact H| |].
  - intros i s s'. apply bar_dates_ok.
  - unfold dates_ok. simpl. split; [lia|]. split; constructor.
Qed.

Lemma X4_witness :
  st_date flat_round_trip_state = (0 + Z.of_nat 4)%Z /\
  Forall (fun kv =>
            (0 <= pos_entry_date (snd kv) < 0 + Z.of_nat 4)%Z)
         (st_positions flat_round_trip_state) /\
  Forall (fun t =>
            (0 <= tr_entry_date t)%Z /\
            (tr_entry_date t < tr_exit_date t)%Z /\
            (tr_exit_date t < 0 + Z.of_nat 4)%Z)
         (st_trades flat_round_trip_state).
Proof.
  apply (X4_trade_dates (mkEngine 100 0 0) (constant_provider [1; 2; 3; 2])
           ["AAPL"%string] TREND_FOLLOWING 0%Z lookback_1 4%nat
           flat_round_trip_state).
  vm_compute. reflexivity.
Defined.

(** ** The history only grows *)

Lemma execute_signal_trades_extend e price_data i st item st' :
  execute_signal e price_data i st item = Ok st' ->
  exists l, st_trades st' = st_trades st ++ l.
Proof.
  intro H. destruct item as [symbol signal].
  apply execute_signal_cases in H
    as (prices & p & _ & _ & [-> | [(_ & _ & H) | (_ & pos & _ & ->)]]).
  - exists []. symmetry. apply app_nil_r.
  - apply execute_buy_cases in H as [_ [-> | (_ & _ & ->)]];
      exists []; symmetry; apply app_nil_r.
  - eexists. reflexivity.
Qed.

Lemma bar_extends e strategy market_data symbols price_data i st st' :
  bar e strategy market_data symbols price_data i st = Ok st' ->
  exists l p,
    st_trades st' = st_trades st ++ l /\
    st_equity_curve st' = st_equity_curve st ++ [p].
Proof.
  intro H. apply bar_Ok in H as (signals & s1 & _ & Hexec & Hrec).
  pose proof (execute_signals_curve _ _ _ _ _ _ Hexec) as Hcurve.
  apply (foldM_invariant
           (fun s => exists l, st_trades s = st_trades st ++ l)) in Hexec.
  - destruct Hexec as [l Hl].
    apply record_equity_Ok in Hrec as (ts & ->). simpl.
    exists l. eexists. rewrite Hcurve. split; [exact Hl | reflexivity].
  - intros s x s' [l Hl] Hx.
    apply execute_signal_trades_extend in Hx as [l' Hl'].
    exists (l ++ l'). rewrite Hl', Hl. symmetry. apply app_assoc.
  - exists []. symmetry. apply app_nil_r.
Qed.

(** X5: the trade list and the equity curve are only ever appended to: what
    a run has recorded after [n] bars is a prefix of what it has recorded
    after [n + k] bars, and the later equity curve has [k] more points. *)
Theorem X5_history_append_only :
  forall e provider symbols strategy_type start_date parameters n k st1 st2,
    simulation e provider symbols strategy_type start_date parameters n
      = Ok st1 ->
    simulation e provider symbols strategy_type start_date parameters (n + k)
      = Ok st2 ->
    exists later_trades later_points,
      st_trades st2 = st_trades st1 ++ later_trades /\
      st_equity_curve st2 = st_equity_curve st1 ++ later_points /\
      length later_points = k.
Proof.
  unfold simulation.
  intros e provider symbols strategy_type start_date parameters n k.
  induction k as [|k IH]; intros st1 st2 H1 H2.
  - rewrite Nat.add_0_r in H2. rewrite H1 in H2. injection H2 as <-.
    exists [], []. rewrite !app_nil_r. repeat split.
  - rewrite Nat.add_succ_r in H2. simpl in H2.
    apply bind_Ok in H2 as (s & Hs & Hbar).
    destruct (IH st1 s H1 Hs) as (lt & lc & Ht & Hc & Hlen).
    apply bar_extends in Hbar as (l & p & Hl & Hp).
    exists (lt ++ l), (lc ++ [p]).
    rewrite Hl, Hp, Ht, Hc, !app_assoc, length_app. simpl.
    repeat split. lia.
Qed.

Lemma X5_witness :
  exists later_trades later_points,
    st_trades flat_round_trip_state
      = st_trades (initial_state (mkEngine 100 0 0) 0) ++ later_trades /\
    st_equity_curve flat_round_trip_state
      = st_equity_curve (initial_state (mkEngine 100 0 0) 0) ++ later_points /\
    length later_points = 4%nat.
Proof.
  apply (X5_history_append_only (mkEngine 100 0 0)
           (constant_provider [1; 2; 3; 2]) ["AAPL"%string] TREND_FOLLOWING
           0%Z lookback_1 0%nat 4%nat).
  - vm_compute. reflexivity.
  - vm_compute. reflexivity.
Defined.

(** ** The equity curve of a run *)

Lemma fetch_historical_data_find provider symbols symbol series :
  dict_find (fetch_historical_data provider symbols) symbol = Some series ->
  series = provider symbol.
Proof.
  intro H. apply dict_find_In in H.
  apply fetch_historical_data_entries in H. exact H.
Qed.

Lemma firstn_S_nth_error {A : Type} (l : list A) (n : nat) (x : A) :
  nth_error l n = Some x -> firstn (S n) l = firstn n l ++ [x].
Proof.
  revert l. induction n as [|n IH]; intros [|y l]; simpl; try discriminate.
  - intros [= ->]. reflexivity.
  - intro H. rewrite <- (IH l H). reflexivity.
Qed.

Lemma bar_timestamp e strategy provider first symbols price_data i st st' :
  bar e strategy (fetch_historical_data provider (first :: symbols))
      (first :: symbols) price_data i st = Ok st' ->
  exists p,
    st_equity_curve st' = st_equity_curve st ++ [p] /\
    nth_error (timestamps (provider first)) i = Some (ep_timestamp p).
Proof.
  intro H. apply bar_Ok in H as (signals & s1 & _ & Hexec & Hrec).
  apply execute_signals_curve in Hexec.
  unfold record_equity in Hrec.
  apply bind_Ok in Hrec as (ts & Hts & Hrec).
  apply bind_Ok in Hrec as (date & _ & [= <-]).
  apply bind_Ok in Hts as (series & Hseries & Hts).
  unfold dict_get in Hseries.
  destruct (dict_find (fetch_historical_data provider (first :: symbols))
              first) as [sr|] eqn:Hfind; [|discriminate].
  injection Hseries as ->.
  apply fetch_historical_data_find in Hfind. subst series.
  rewrite py_index_nat in Hts.
  destruct (nth_error (timestamps (provider first)) i) as [t|] eqn:Hnth;
    [|discriminate].
  injection Hts as ->.
  eexists. simpl. rewrite Hexec. split; reflexivity.
Qed.

Lemma simulate_timestamps e strategy provider first symbols price_data n :
  forall st st',
    simulate e strategy (fetch_historical_data provider (first :: symbols))
      (first :: symbols) price_data n st = Ok st' ->
    st_equity_curve st = [] ->
    map ep_timestamp (st_equity_curve st')
    = firstn n (timestamps (provider first)).
Proof.
  induction n as [|n IH]; simpl; intros st st' H Hnil.
  - injection H as <-. rewrite Hnil. reflexivity.
  - apply bind_Ok in H as (s & Hs & Hbar).
    specialize (IH _ _ Hs Hnil).
    apply bar_timestamp in Hbar as (p & Hp & Hnth).
    rewrite Hp, map_app, IH. simpl.
    symmetry. apply firstn_S_nth_error. exact Hnth.
Qed.

(** X6: a run that returns either returns the empty result, with an empty
    equity curve (it is so whenever no trade was closed, however many bars
    were simulated), or reports one equity point per simulated bar, stamped
    in order with the first [min_length] timestamps of the first requested
    symbol, and the full count of its trades. *)
Theorem X6_reported_equity_curve :
  forall e provider first symbols strategy_type start_date parameters r,
    run_backtest e provider (first :: symbols) strategy_type start_date
      parameters = Ok r ->
    r = _empty_results \/
    (map fst (equity_curve r)
     = firstn (min_length_of
                 (price_data_of
                    (fetch_historical_data provider (first :: symbols))))
              (timestamps (provider first)) /\
     length (equity_curve r)
     = min_length_of
         (price_data_of (fetch_historical_data provider (first :: symbols))) /\
     (0 < total_trades r)%Z /\
     len (trades r) = total_trades r).
Proof.
  intros e provider first symbols strategy_type start_date parameters r.
  unfold run_backtest.
  destruct (min_length_of
              (price_data_of
                 (fetch_historical_data provider (first :: symbols))))
    as [|n] eqn:Hmin; [intros [= <-]; now left|].
  intro H. apply bind_Ok in H as (st & Hsim & Hmetrics).
  unfold simulation in Hsim.
  pose proof (simulate_timestamps _ _ _ _ _ _ _ _ _ Hsim eq_refl) as Hts.
  pose proof (simulate_curve_length _ _ _ _ _ _ _ _ Hsim) as Hlen.
  simpl in Hlen.
  unfold _calculate_metrics in Hmetrics.
  destruct (st_trades st) as [|t l] eqn:Htrades;
    [injection Hmetrics as <-; now left|].
  apply bind_Ok in Hmetrics as (tr & _ & [= <-]). right.
  cbn [equity_curve total_trades trades].
  rewrite map_map. cbn [fst]. rewrite length_map.
  split; [exact Hts|]. split; [exact Hlen|]. split.
  - unfold len. change (length (t :: l)) with (S (length l)). lia.
  - unfold len. simpl. rewrite length_map. reflexivity.
Qed.

Lemma flat_round_trip_metrics :
  _calculate_metrics (mkEngine 100 0 0) flat_round_trip_state
  = Ok flat_round_trip_report.
Proof.
  unfold flat_round_trip_report.
  destruct (calculate_metrics_fields (mkEngine 100 0 0) flat_round_trip_state)
    as (r & -> & _); [discriminate | simpl; lra | reflexivity].
Qed.

Lemma flat_round_trip_run :
  run_backtest (mkEngine 100 0 0) (constant_provider [1; 2; 3; 2])
    ["AAPL"%string] TREND_FOLLOWING 0 lookback_1 = Ok flat_round_trip_report.
Proof.
  rewrite (run_backtest_metrics _ _ _ _ _ _ 3 flat_round_trip_state);
    [exact flat_round_trip_metrics | reflexivity
    | exact flat_round_trip_simulation].
Qed.

Lemma X6_witness :
  flat_round_trip_report = _empty_results \/
  (map fst (equity_curve flat_round_trip_report)
   = firstn (min_length_of
               (price_data_of
                  (fetch_historical_data (constant_provider [1; 2; 3; 2])
                     ["AAPL"%string])))
            (timestamps (constant_provider [1; 2; 3; 2] "AAPL")) /\
   length (equity_curve flat_round_trip_report)
   = min_length_of
       (price_data_of
          (fetch_historical_data (constant_provider [1; 2; 3; 2])
             ["AAPL"%string])) /\
   (0 < total_trades flat_round_trip_report)%Z /\
   len (trades flat_round_trip_report)
   = total_trades flat_round_trip_report).
Proof.
  apply (X6_reported_equity_curve (mkEngine 100 0 0)
           (constant_provider [1; 2; 3; 2]) "AAPL"%string [] TREND_FOLLOWING
           0%Z lookback_1 flat_round_trip_report).
  exact flat_round_trip_run.
Defined.

(** ** When a buy is filled *)

Lemma buy_cost_factor e st p :
  ~ p == 0 ->
  buy_cost e st p == st_cash st * 0.1 * ((1 + slippage e) * (1 + commission e)).
Proof.
  intro Hp. unfold buy_cost, buy_quantity. field. exact Hp.
Qed.

Lemma buy_quantity_pos_iff st p :
  ~ p == 0 -> 0 <= st_cash st ->
  (0 < buy_quantity st p <-> 0 < st_cash st /\ 0 < p).
Proof.
  intros Hp Hcash. split.
  - intro Hq.
    assert (Hmul : buy_quantity st p * p == st_cash st * 0.1)
      by (unfold buy_quantity; field; exact Hp).
    destruct (Qlt_le_dec 0 p) as [Hpos | Hneg].
    + split; [|exact Hpos]. nra.
    + exfalso. assert (p < 0) by lra. nra.
  - intros [Hc Hpos]. apply buy_quantity_pos; assumption.
Qed.

(** A buy is filled when there is cash, the close is positive and the costs
    leave a tenth of the cash affordable. *)
Lemma affordable_buy_filled e price_data symbol prices p i st :
  (1 + slippage e) * (1 + commission e) <= 10 ->
  0 < p -> 0 < st_cash st ->
  dict_find price_data symbol = Some prices ->
  nth_error prices i = Some p ->
  dict_find (st_positions st) symbol = None ->
  execute_signal e price_data i st (symbol, buy) = Ok (filled_buy e symbol p st).
Proof.
  intros Hk Hp Hcash Hfind Hnth Hnone.
  assert (Hp0 : ~ p == 0) by lra.
  pose proof (buy_cost_factor e st p Hp0) as Hcost.
  unfold execute_signal, dict_get. rewrite Hfind. simpl.
  rewrite py_index_nat, Hnth. simpl. rewrite Hnone.
  unfold execute_buy. rewrite (py_div_nonzero _ _ Hp0). simpl.
  pose proof (buy_quantity_pos st p Hcash Hp) as Hq.
  unfold buy_quantity in Hq. apply Qltb_lt in Hq. rewrite Hq.
  assert (H1 : Qleb (st_cash st * 0.1) (st_cash st) = true)
    by (apply Qleb_le; lra).
  rewrite H1. simpl.
  assert (H2 : Qleb (st_cash st * 0.1 / p * (p * (1 + slippage e))
                     * (1 + commission e)) (st_cash st) = true).
  { apply Qleb_le. unfold buy_cost, buy_quantity in Hcost.
    rewrite Hcost. nra. }
  rewrite H2. reflexivity.
Qed.

(** X7: the three outcomes of a buy signal for a symbol with no open
    position, when slippage and commission keep
    [(1 + slippage) * (1 + commission) <= 10] (the defaults do).  On a close
    of 0 it raises [ZeroDivisionError].  With positive cash and a positive
    close it is filled: the position holds [0.1 * cash / close] units, worth
    a tenth of the cash at the close, and the cash falls by a tenth times
    [(1 + slippage) * (1 + commission)], whatever the close.  Otherwise
    nothing changes. *)
Theorem X7_buy_outcomes :
  forall e price_data i st symbol prices p,
    (1 + slippage e) * (1 + commission e) <= 10 ->
    dict_find price_data symbol = Some prices ->
    nth_error prices i = Some p ->
    dict_find (st_positions st) symbol = None ->
    (p == 0 ->
     execute_signal e price_data i st (symbol, buy) = Raise ZeroDivisionError) /\
    (0 < st_cash st -> 0 < p ->
     exists st',
       execute_signal e price_data i st (symbol, buy) = Ok st' /\
       dict_find (st_positions st') symbol
       = Some (mkPosition symbol (st_cash st * 0.1 / p)
                 (p * (1 + slippage e)) (st_date st) "long") /\
       st_cash st * 0.1 / p * p == 0.1 * st_cash st /\
       st_cash st' ==
       st_cash st
       - 0.1 * st_cash st * ((1 + slippage e) * (1 + commission e))) /\
    (~ p == 0 -> ~ (0 < st_cash st /\ 0 < p) ->
     execute_signal e price_data i st (symbol, buy) = Ok st).
Proof.
  intros e price_data i st symbol prices p Hk Hfind Hnth Hnone.
  split; [|split].
  - intro Hp. eapply zero_close_buy_raises; eassumption.
  - intros Hcash Hp. assert (Hp0 : ~ p == 0) by lra.
    exists (filled_buy e symbol p st).
    pose proof (buy_cost_factor e st p Hp0) as Hcost.
    split; [|split; [|split]].
    + eapply affordable_buy_filled; eassumption.
    + simpl. rewrite dict_find_set, String.eqb_refl. reflexivity.
    + field. exact Hp0.
    + simpl. rewrite Hcost. ring.
  - intros Hp0 Hnot.
    unfold execute_signal, dict_get. rewrite Hfind. simpl.
    rewrite py_index_nat, Hnth. simpl. rewrite Hnone.
    unfold execute_buy. rewrite (py_div_nonzero _ _ Hp0). simpl.
    destruct (Qleb (st_cash st * 0.1) (st_cash st)) eqn:E1;
      [|rewrite andb_false_r; reflexivity].
    apply Qleb_le in E1. assert (Hcash : 0 <= st_cash st) by lra.
    destruct (Qltb 0 (st_cash st * 0.1 / p)) eqn:E2; [|reflexivity].
    apply Qltb_lt in E2. exfalso. apply Hnot.
    apply (buy_quantity_pos_iff st p Hp0 Hcash). exact E2.
Qed.

Lemma X7_witness :
  (2 == 0 ->
   execute_signal backtest_engine [("AAPL"%string, [1; 2])] 1
     (initial_state backtest_engine 0) ("AAPL"%string, buy)
   = Raise ZeroDivisionError) /\
  (0 < st_cash (initial_state backtest_engine 0) -> 0 < 2 ->
   exists st',
     execute_signal backtest_engine [("AAPL"%string, [1; 2])] 1
       (initial_state backtest_engine 0) ("AAPL"%string, buy) = Ok st' /\
     dict_find (st_positions st') "AAPL"
     = Some (mkPosition "AAPL"
               (st_cash (initial_state backtest_engine 0) * 0.1 / 2)
               (2 * (1 + slippage backtest_engine))
               (st_date (initial_state backtest_engine 0)) "long") /\
     st_cash (initial_state backtest_engine 0) * 0.1 / 2 * 2
     == 0.1 * st_cash (initial_state backtest_engine 0) /\
     st_cash st' ==
     st_cash (initial_state backtest_engine 0)
     - 0.1 * st_cash (initial_state backtest_engine 0)
       * ((1 + slippage backtest_engine) * (1 + commission backtest_engine))) /\
  (~ 2 == 0 -> ~ (0 < st_cash (initial_state backtest_engine 0) /\ 0 < 2) ->
   execute_signal backtest_engine [("AAPL"%string, [1; 2])] 1
     (initial_state backtest_engine 0) ("AAPL"%string, buy)
   = Ok (initial_state backtest_engine 0)).
Proof.
  apply (X7_buy_outcomes backtest_engine [("AAPL"%string, [1; 2])] 1%nat
           (initial_state backtest_engine 0) "AAPL"%string [1; 2] 2).
  - simpl. lra.
  - reflexivity.
  - reflexivity.
  - reflexivity.
Defined.

(** X8: with costs (slippage and commission not negative, not both 0, the
    commission at most 1), a buy filled at a positive close [p] followed by
    a sell of the untouched position at the same close loses money: the
    pnl of the trade is
    [- 0.1 * cash * (2 * slippage + commission - slippage * commission)],
    where [cash] is the cash before the buy, and it is negative. *)
Theorem X8_round_trip_loses_the_costs :
  forall e price_data symbol prices p i j st,
    0 <= slippage e -> 0 <= commission e -> commission e <= 1 ->
    0 < slippage e + commission e ->
    (1 + slippage e) * (1 + commission e) <= 10 ->
    0 < p -> 0 < st_cash st ->
    dict_find price_data symbol = Some prices ->
    nth_error prices i = Some p ->
    nth_error prices j = Some p ->
    dict_find (st_positions st) symbol = None ->
    exists st1 position,
      execute_signal e price_data i st (symbol, buy) = Ok st1 /\
      dict_find (st_positions st1) symbol = Some position /\
      forall st2,
        dict_find (st_positions st2) symbol = Some position ->
        exists st3 t,
          execute_signal e price_data j st2 (symbol, sell) = Ok st3 /\
          st_trades st3 = st_trades st2 ++ [t] /\
          tr_pnl t ==
          - (0.1 * st_cash st
             * (2 * slippage e + commission e - slippage e * commission e)) /\
          tr_pnl t < 0.
Proof.
  intros e price_data symbol prices p i j st Hs Hc Hc1 Hsc Hk Hp Hcash
    Hfind Hi Hj Hnone.
  exists (filled_buy e symbol p st). eexists. split; [|split].
  - eapply affordable_buy_filled; eassumption.
  - simpl. rewrite dict_find_set, String.eqb_refl. reflexivity.
  - intros st2 Hpos.
    unfold execute_signal, dict_get. rewrite Hfind. simpl.
    rewrite py_index_nat, Hj. simpl. rewrite Hpos.
    eexists. eexists. split; [reflexivity|]. split; [reflexivity|].
    cbn [execute_sell add_trade set_cash set_positions st_trades tr_pnl
         pos_quantity pos_entry_price].
    assert (Hpnl : buy_quantity st p * (p * (1 - slippage e))
                   * (1 - commission e)
                   - buy_quantity st p * (p * (1 + slippage e))
                   == - (0.1 * st_cash st
                         * (2 * slippage e + commission e
                            - slippage e * commission e))).
    { unfold buy_quantity. field. lra. }
    split; [exact Hpnl|]. rewrite Hpnl.
    assert (0 < 2 * slippage e + commission e - slippage e * commission e)
      by nra.
    nra.
Qed.

Lemma X8_witness :
  exists st1 position,
    execute_signal backtest_engine [("AAPL"%string, [2; 3; 2])] 0
      (initial_state backtest_engine 0) ("AAPL"%string, buy) = Ok st1 /\
    dict_find (st_positions st1) "AAPL" = Some position /\
    forall st2,
      dict_find (st_positions st2) "AAPL" = Some position ->
      exists st3 t,
        execute_signal backtest_engine [("AAPL"%string, [2; 3; 2])] 2
          st2 ("AAPL"%string, sell) = Ok st3 /\
        st_trades st3 = st_trades st2 ++ [t] /\
        tr_pnl t ==
        - (0.1 * st_cash (initial_state backtest_engine 0)
           * (2 * slippage backtest_engine + commission backtest_engine
              - slippage backtest_engine * commission backtest_engine)) /\
        tr_pnl t < 0.
Proof.
  apply (X8_round_trip_loses_the_costs backtest_engine
           [("AAPL"%string, [2; 3; 2])] "AAPL" [2; 3; 2] 2 0%nat 2%nat
           (initial_state backtest_engine 0)).
  - simpl. lra.
  - simpl. lra.
  - simpl. lra.
  - simpl. lra.
  - simpl. lra.
  - reflexivity.
  - reflexivity.
  - reflexivity.
  - reflexivity.
  - reflexivity.
  - reflexivity.
Defined.

(** ** Rounding *)

Lemma round_half_even_cases (y : Q) :
  round_half_even y = Qfloor y \/
  (round_half_even y = (Qfloor y + 1)%Z /\ 0.5 <= y - inject_Z (Qfloor y)).
Proof.
  unfold round_half_even.
  destruct (Qltb (y - inject_Z (Qfloor y)) 0.5) eqn:E1; [now left|].
  apply Qltb_ge in E1.
  destruct (Qltb 0.5 (y - inject_Z (Qfloor y))); [now right|].
  destruct (Z.even (Qfloor y)); [now left | now right].
Qed.

Lemma round_half_even_ge (y : Q) (a : Z) :
  inject_Z a <= y -> (a <= round_half_even y)%Z.
Proof.
  intro H. apply Qfloor_resp_le in H. rewrite Qfloor_Z in H.
  destruct (round_half_even_cases y) as [-> | [-> _]]; lia.
Qed.

Lemma round_half_even_le (y : Q) (b : Z) :
  y <= inject_Z b -> (round_half_even y <= b)%Z.
Proof.
  intro H. pose proof (Qfloor_resp_le _ _ H) as Hf. rewrite Qfloor_Z in Hf.
  destruct (round_half_even_cases y) as [-> | [-> Hfrac]]; [exact Hf|].
  destruct (Z.eq_dec (Qfloor y) b) as [Heq | Hne]; [|lia].
  exfalso. rewrite Heq in Hfrac. lra.
Qed.

Lemma scale_pos (ndigits : nat) : 0 < inject_Z (10 ^ Z.of_nat ndigits).
Proof.
  rewrite <- (Zlt_Qlt 0). apply Z.pow_pos_nonneg; lia.
Qed.

Lemma py_round_ge (x : Q) (ndigits : nat) (a : Z) :
  inject_Z a <= x * inject_Z (10 ^ Z.of_nat ndigits) ->
  inject_Z a / inject_Z (10 ^ Z.of_nat ndigits) <= py_round x ndigits.
Proof.
  intro H. unfold py_round. pose proof (scale_pos ndigits) as Hs.
  apply round_half_even_ge in H. rewrite Zle_Qle in H.
  unfold Qdiv. apply Qmult_le_compat_r; [exact H|].
  apply Qlt_le_weak. apply Qinv_lt_0_compat. exact Hs.
Qed.

Lemma py_round_le (x : Q) (ndigits : nat) (b : Z) :
  x * inject_Z (10 ^ Z.of_nat ndigits) <= inject_Z b ->
  py_round x ndigits <= inject_Z b / inject_Z (10 ^ Z.of_nat ndigits).
Proof.
  intro H. unfold py_round. pose proof (scale_pos ndigits) as Hs.
  apply round_half_even_le in H. rewrite Zle_Qle in H.
  unfold Qdiv. apply Qmult_le_compat_r; [exact H|].
  apply Qlt_le_weak. apply Qinv_lt_0_compat. exact Hs.
Qed.

Lemma py_round_nonneg (x : Q) (ndigits : nat) :
  0 <= x -> 0 <= py_round x ndigits.
Proof.
  intro H. pose proof (scale_pos ndigits) as Hs.
  assert (H0 : inject_Z 0 <= x * inject_Z (10 ^ Z.of_nat ndigits))
    by (change (inject_Z 0) with 0; nra).
  apply py_round_ge in H0. unfold Qdiv in H0.
  change (inject_Z 0) with 0 in H0. lra.
Qed.

Lemma py_round_2_le_100 (x : Q) : x <= 100 -> py_round x 2 <= 100.
Proof.
  intro H.
  assert (H0 : x * inject_Z (10 ^ Z.of_nat 2) <= inject_Z 10000).
  { change (inject_Z (10 ^ Z.of_nat 2)) with 100.
    change (inject_Z 10000) with 10000. lra. }
  apply py_round_le in H0.
  change (inject_Z 10000 / inject_Z (10 ^ Z.of_nat 2)) with (10000 / 100) in H0.
  assert (Heq : 10000 / 100 == 100) by reflexivity.
  rewrite Heq in H0. exact H0.
Qed.

(** ** The maximum drawdown *)

Lemma py_max_ge_l (a b : Q) : a <= py_max a b.
Proof.
  unfold py_max. destruct (Qltb a b) eqn:E; [|lra].
  apply Qltb_lt in E. lra.
Qed.

Lemma py_max_ge_r (a b : Q) : b <= py_max a b.
Proof.
  unfold py_max. destruct (Qltb a b) eqn:E; [lra|].
  apply Qltb_ge in E. exact E.
Qed.

Lemma py_max_le (a b c : Q) : a <= c -> b <= c -> py_max a b <= c.
Proof.
  intros Ha Hb. unfold py_max. destruct (Qltb a b); assumption.
Qed.

(** The drawdown of the point [equity] under the peak [peak], as the loop
    computes it after updating the peak. *)
Lemma drawdown_bounds (peak equity : Q) :
  equity <= peak ->
  0 <= (if Qltb 0 peak then (peak - equity) / peak else 0) /\
  (0 <= equity -> (if Qltb 0 peak then (peak - equity) / peak else 0) <= 1).
Proof.
  intro Hle. destruct (Qltb 0 peak) eqn:E; [|split; intros; lra].
  apply Qltb_lt in E. split.
  - apply Qle_shift_div_l; [exact E | lra].
  - intro H. apply Qle_shift_div_r; [exact E | lra].
Qed.

Lemma drawdown_step_fst (acc : Q * Q) (equity : Q) :
  fst (drawdown_step acc equity)
  = if Qltb (fst acc) equity then equity else fst acc.
Proof. destruct acc as [peak m]. reflexivity. Qed.

Lemma drawdown_step_snd (acc : Q * Q) (equity : Q) :
  snd (drawdown_step acc equity)
  = py_max (snd acc)
      (if Qltb 0 (fst (drawdown_step acc equity))
       then (fst (drawdown_step acc equity) - equity)
            / fst (drawdown_step acc equity)
       else 0).
Proof. destruct acc as [peak m]. reflexivity. Qed.

Lemma drawdown_step_peak_ge (acc : Q * Q) (equity : Q) :
  equity <= fst (drawdown_step acc equity).
Proof.
  rewrite drawdown_step_fst. destruct (Qltb (fst acc) equity) eqn:E; [lra|].
  apply Qltb_ge in E. exact E.
Qed.

Lemma fold_drawdown_fst (equities : list Q) :
  forall acc,
    fst (fold_left drawdown_step equities acc) = peak_of (fst acc) equities.
Proof.
  unfold peak_of.
  induction equities as [|x l IH]; intro acc; simpl; [reflexivity|].
  rewrite IH, drawdown_step_fst. reflexivity.
Qed.

(** The maximum only grows along the loop. *)
Lemma fold_drawdown_snd_ge (equities : list Q) :
  forall acc, snd acc <= snd (fold_left drawdown_step equities acc).
Proof.
  induction equities as [|x l IH]; intro acc; simpl; [lra|].
  eapply Qle_trans; [|apply IH].
  rewrite drawdown_step_snd. apply py_max_ge_l.
Qed.

Lemma fold_drawdown_bounds (equities : list Q) :
  forall acc,
    0 <= snd acc ->
    0 <= snd (fold_left drawdown_step equities acc) /\
    (snd acc <= 1 -> Forall (fun x => 0 <= x) equities ->
     snd (fold_left drawdown_step equities acc) <= 1).
Proof.
  induction equities as [|x l IH]; intros acc Hacc; simpl.
  - split; [exact Hacc | intros; assumption].
  - pose proof (drawdown_bounds _ _ (drawdown_step_peak_ge acc x)) as [Hd0 Hd1].
    assert (Hstep : 0 <= snd (drawdown_step acc x)).
    { rewrite drawdown_step_snd. eapply Qle_trans; [exact Hacc|].
      apply py_max_ge_l. }
    destruct (IH _ Hstep) as [H0 H1]. split; [exact H0|].
    intros Hle Hall. inversion Hall as [|y l' Hx Hl]; subst.
    apply H1; [|exact Hl].
    rewrite drawdown_step_snd. apply py_max_le; [exact Hle | exact (Hd1 Hx)].
Qed.

Lemma fold_drawdown_last (equities : list Q) (x : Q) (acc : Q * Q) :
  0 < fst (fold_left drawdown_step (equities ++ [x]) acc) ->
  (fst (fold_left drawdown_step (equities ++ [x]) acc) - x)
  / fst (fold_left drawdown_step (equities ++ [x]) acc)
  <= snd (fold_left drawdown_step (equities ++ [x]) acc).
Proof.
  rewrite fold_left_app. simpl. intro H.
  rewrite drawdown_step_snd. apply Qltb_lt in H. rewrite H.
  apply py_max_ge_r.
Qed.

Lemma max_drawdown_of_range e equity_curve :
  0 <= max_drawdown_of e equity_curve /\
  (Forall (fun p => 0 <= ep_equity p) equity_curve ->
   max_drawdown_of e equity_curve <= 1).
Proof.
  unfold max_drawdown_of.
  assert (H0 : 0 <= snd (initial_capital e, 0)) by (simpl; lra).
  destruct (fold_drawdown_bounds (map ep_equity equity_curve) _ H0)
    as [Hnonneg Hle1].
  split; [exact Hnonneg|].
  intro Hall. apply Hle1; [simpl; lra|].
  apply Forall_map. exact Hall.
Qed.

(** X9: the maximum drawdown is never negative; it is at most 1 when no
    equity is negative; and it is at least the decline of every point of the
    curve relative to the running peak (the larger of the initial capital
    and the equities up to that point), whenever that peak is positive. *)
Theorem X9_max_drawdown_bounds :
  forall e equity_curve,
    0 <= max_drawdown_of e equity_curve /\
    (Forall (fun p => 0 <= ep_equity p) equity_curve ->
     max_drawdown_of e equity_curve <= 1) /\
    (forall before p after,
       equity_curve = before ++ p :: after ->
       0 < peak_of (initial_capital e) (map ep_equity (before ++ [p])) ->
       (peak_of (initial_capital e) (map ep_equity (before ++ [p]))
        - ep_equity p)
       / peak_of (initial_capital e) (map ep_equity (before ++ [p]))
       <= max_drawdown_of e equity_curve).
Proof.
  intros e equity_curve.
  destruct (max_drawdown_of_range e equity_curve) as [Hnonneg Hle1].
  split; [exact Hnonneg|]. split; [exact Hle1|].
  unfold max_drawdown_of.
  intros before p after -> Hpeak.
  replace (before ++ p :: after) with ((before ++ [p]) ++ after)
    by (rewrite <- app_assoc; reflexivity).
  rewrite (map_app ep_equity (before ++ [p]) after), fold_left_app.
  eapply Qle_trans; [|apply fold_drawdown_snd_ge].
  rewrite map_app in *. simpl map in *.
  pose proof (fold_drawdown_fst (map ep_equity before ++ [ep_equity p])
                (initial_capital e, 0)) as Hfst.
  simpl fst in Hfst. rewrite <- Hfst in *.
  apply fold_drawdown_last. exact Hpeak.
Qed.

Lemma X9_witness :
  0 <= max_drawdown_of (engine_with_capital 100) peak_and_trough_curve /\
  max_drawdown_of (engine_with_capital 100) peak_and_trough_curve <= 1 /\
  (120 - 90) / 120
  <= max_drawdown_of (engine_with_capital 100) peak_and_trough_curve.
Proof.
  destruct (X9_max_drawdown_bounds (engine_with_capital 100)
              peak_and_trough_curve) as (H0 & H1 & H2).
  split; [exact H0|]. split.
  - apply H1. unfold peak_and_trough_curve. repeat constructor; simpl; lra.
  - apply (H2 [mkEquityPoint 0 100 100 0; mkEquityPoint 1 120 100 20]
              (mkEquityPoint 2 90 100 (-10)) [mkEquityPoint 3 110 100 10]).
    + reflexivity.
    + reflexivity.
Defined.

(** ** The range of the report *)

Lemma py_sum_nonneg (l : list Q) : Forall (fun x => 0 <= x) l -> 0 <= py_sum l.
Proof.
  induction l as [|x l IH]; intro H.
  - unfold py_sum. simpl. lra.
  - inversion H; subst. rewrite py_sum_cons. specialize (IH H3). lra.
Qed.

Lemma mean_nonneg (l : list Q) : Forall (fun x => 0 <= x) l -> 0 <= mean l.
Proof.
  intro H. unfold mean. apply py_sum_nonneg in H.
  destruct l as [|x l].
  - unfold py_sum, Qdiv. simpl. lra.
  - apply Qle_shift_div_l; [|lra].
    rewrite <- (Zlt_Qlt 0). simpl length. lia.
Qed.

Lemma wins_of_pos (trades : list Trade) :
  Forall (fun x => 0 <= x) (wins_of trades).
Proof.
  unfold wins_of. apply Forall_forall. intros x Hin.
  apply in_map_iff in Hin as (t & <- & Hin).
  apply filter_In in Hin as [_ Hpos]. apply Qltb_lt in Hpos. lra.
Qed.

Lemma losses_of_nonneg (trades : list Trade) :
  Forall (fun x => 0 <= x) (losses_of trades).
Proof.
  eapply Forall_impl; [|apply losses_of_pos]. simpl. intros x H. lra.
Qed.

Lemma report_profit_factor_nonneg (trades : list Trade) :
  0 <= report_profit_factor (profit_factor_of trades).
Proof.
  unfold profit_factor_of.
  destruct (losses_of trades) as [|x l] eqn:E; [simpl; lra|].
  destruct (Qltb 0 (py_sum (x :: l))) eqn:Hs; [|simpl; lra].
  apply Qltb_lt in Hs. simpl. apply py_round_nonneg.
  apply Qle_shift_div_l; [exact Hs|].
  pose proof (py_sum_nonneg _ (wins_of_pos trades)). lra.
Qed.

Lemma win_rate_range (winning total : Z) :
  (0 <= winning <= total)%Z ->
  0 <= (if (0 <? total)%Z then inject_Z winning / inject_Z total else 0) * 100
  <= 100.
Proof.
  intros [H0 H1]. destruct (0 <? total)%Z eqn:E; [|lra].
  apply Z.ltb_lt in E.
  assert (Ht : 0 < inject_Z total) by (rewrite <- (Zlt_Qlt 0); exact E).
  assert (Hw0 : 0 <= inject_Z winning) by (rewrite <- (Zle_Qle 0); exact H0).
  assert (Hw1 : inject_Z winning <= inject_Z total)
    by (rewrite <- Zle_Qle; exact H1).
  assert (Hq0 : 0 <= inject_Z winning / inject_Z total)
    by (apply Qle_shift_div_l; [exact Ht | lra]).
  assert (Hq1 : inject_Z winning / inject_Z total <= 1)
    by (apply Qle_shift_div_r; [exact Ht | lra]).
  lra.
Qed.

(** X10: in every report of [_calculate_metrics], the empty one included,
    the win rate lies between 0 and 100, the maximum drawdown is not
    negative, and at most 100 when no equity is negative, the average win,
    the average loss and the profit factor are not negative, and the
    winning and losing counts lie between 0 and the total. *)
Theorem X10_report_ranges :
  forall e state r,
    _calculate_metrics e state = Ok r ->
    0 <= win_rate r /\ win_rate r <= 100 /\
    0 <= max_drawdown r /\
    (Forall (fun p => 0 <= ep_equity p) (st_equity_curve state) ->
     max_drawdown r <= 100) /\
    0 <= avg_win r /\ 0 <= avg_loss r /\ 0 <= profit_factor r /\
    (0 <= winning_trades r <= total_trades r)%Z /\
    (0 <= losing_trades r <= total_trades r)%Z.
Proof.
  intros e state r. unfold _calculate_metrics.
  destruct (st_trades state) as [|t l] eqn:Htrades.
  - intros [= <-]. simpl. repeat split; try lra; try lia.
  - remember (t :: l) as trades eqn:Heq. clear Heq.
    intro H. apply bind_Ok in H as (tr & _ & [= <-]).
    cbn [win_rate max_drawdown avg_win avg_loss profit_factor winning_trades
         total_trades losing_trades].
    assert (Hcount : (0 <= len (filter (fun t0 => Qltb 0 (tr_pnl t0)) trades)
                      <= len trades)%Z).
    { unfold len. pose proof (filter_length_le
                                (fun t0 => Qltb 0 (tr_pnl t0)) trades). lia. }
    destruct (win_rate_range _ _ Hcount) as [Hw0 Hw1].
    destruct (max_drawdown_of_range e (st_equity_curve state))
      as (Hd0 & Hd1).
    split; [apply py_round_nonneg; exact Hw0|].
    split; [apply py_round_2_le_100; exact Hw1|].
    split; [apply py_round_nonneg; lra|].
    split; [intro Hall; apply py_round_2_le_100; specialize (Hd1 Hall); lra|].
    split.
    { apply py_round_nonneg. destruct (wins_of trades) eqn:E; [lra|].
      rewrite <- E. apply mean_nonneg, wins_of_pos. }
    split.
    { apply py_round_nonneg. destruct (losses_of trades) eqn:E; [lra|].
      rewrite <- E. apply mean_nonneg, losses_of_nonneg. }
    split; [apply report_profit_factor_nonneg|].
    split; lia.
Qed.

Lemma X10_witness :
  0 <= win_rate flat_round_trip_report /\
  win_rate flat_round_trip_report <= 100 /\
  0 <= max_drawdown flat_round_trip_report /\
  max_drawdown flat_round_trip_report <= 100 /\
  0 <= avg_win flat_round_trip_report /\
  0 <= avg_loss flat_round_trip_report /\
  0 <= profit_factor flat_round_trip_report /\
  (0 <= winning_trades flat_round_trip_report
   <= total_trades flat_round_trip_report)%Z /\
  (0 <= losing_trades flat_round_trip_report
   <= total_trades flat_round_trip_report)%Z.
Proof.
  destruct (X10_report_ranges (mkEngine 100 0 0) flat_round_trip_state
              flat_round_trip_report flat_round_trip_metrics)
    as (H1 & H2 & H3 & H4 & H5).
  split; [exact H1|]. split; [exact H2|]. split; [exact H3|].
  split; [|exact H5].
  apply H4. unfold flat_round_trip_state. repeat constructor; simpl; lra.
Defined.

(** ** The data of a run *)

Lemma fetch_historical_data_from provider symbols symbol :
  forall acc : dict MarketSeries,
    dict_find (fold_left (fun data s => dict_set data s (provider s))
                         symbols acc) symbol
    = if existsb (String.eqb symbol) symbols
      then Some (provider symbol) else dict_find acc symbol.
Proof.
  induction symbols as [|s symbols IH]; intro acc; simpl; [reflexivity|].
  rewrite IH, dict_find_set.
  destruct (String.eqb symbol s) eqn:E; simpl.
  - apply String.eqb_eq in E. subst s.
    destruct (existsb (String.eqb symbol) symbols); reflexivity.
  - reflexivity.
Qed.

Lemma fetch_historical_data_NoDup provider symbols :
  NoDup (dict_keys (fetch_historical_data provider symbols)).
Proof.
  unfold fetch_historical_data.
  assert (G : forall acc : dict MarketSeries,
             NoDup (dict_keys acc) ->
             NoDup (dict_keys
                      (fold_left (fun data s => dict_set data s (provider s))
                                 symbols acc))).
  { induction symbols as [|s symbols IH]; simpl; intros acc H; [exact H|].
    apply IH. apply NoDup_dict_set. exact H. }
  apply G. constructor.
Qed.

(** X11: [fetch_historical_data] holds exactly one entry per distinct
    requested symbol, however often the symbol is requested: looking a
    symbol up gives the provider's series for it when it was requested and
    nothing otherwise, and no key occurs twice. *)
Theorem X11_fetch_one_entry_per_symbol :
  forall provider symbols,
    NoDup (dict_keys (fetch_historical_data provider symbols)) /\
    forall symbol,
      dict_find (fetch_historical_data provider symbols) symbol
      = if existsb (String.eqb symbol) symbols
        then Some (provider symbol) else None.
Proof.
  intros provider symbols. split.
  - apply fetch_historical_data_NoDup.
  - intro symbol. apply fetch_historical_data_from.
Qed.

Lemma dict_find_price_data_of market_data symbol :
  dict_find (price_data_of market_data) symbol
  = match dict_find market_data symbol with
    | Some series => Some (close series)
    | None => None
    end.
Proof.
  unfold price_data_of.
  induction market_data as [|[k v] d IH]; simpl; [reflexivity|].
  destruct (String.eqb symbol k); [reflexivity | exact IH].
Qed.

Lemma existsb_eqb_In (symbol : string) (symbols : list string) :
  In symbol symbols -> existsb (String.eqb symbol) symbols = true.
Proof.
  intro H. apply existsb_exists. exists symbol. split; [exact H|].
  apply String.eqb_refl.
Qed.

Lemma price_data_find provider symbols symbol :
  In symbol symbols ->
  dict_find (price_data_of (fetch_historical_data provider symbols)) symbol
  = Some (close (provider symbol)).
Proof.
  intro H. rewrite dict_find_price_data_of.
  unfold fetch_historical_data.
  rewrite fetch_historical_data_from, (existsb_eqb_In _ _ H). reflexivity.
Qed.

Lemma fold_min_attained (l : list nat) :
  forall a, fold_left Nat.min l a = a \/ In (fold_left Nat.min l a) l.
Proof.
  induction l as [|x l IH]; simpl; intro a; [now left|].
  destruct (IH (Nat.min a x)) as [H | H]; [|right; now right].
  rewrite H. destruct (Nat.le_ge_cases a x) as [Hle | Hge].
  - left. apply Nat.min_l. exact Hle.
  - right. left. symmetry. apply Nat.min_r. exact Hge.
Qed.

Lemma price_data_of_values provider symbols prices :
  In prices (dict_values (price_data_of (fetch_historical_data provider symbols))) ->
  exists symbol, In symbol symbols /\ prices = close (provider symbol).
Proof.
  unfold dict_values, price_data_of. rewrite map_map. simpl.
  intro H. apply in_map_iff in H as ([k series] & <- & Hin). simpl.
  pose proof (fetch_historical_data_entries _ _ _ Hin) as Hs. simpl in Hs.
  exists k. split; [|rewrite Hs; reflexivity].
  assert (Hfind : dict_mem (fetch_historical_data provider symbols) k = true).
  { unfold dict_mem.
    destruct (dict_find (fetch_historical_data provider symbols) k) eqn:E;
      [reflexivity|].
    exfalso. apply dict_find_None_keys in E. apply E.
    unfold dict_keys. apply (in_map fst) in Hin. exact Hin. }
  unfold dict_mem, fetch_historical_data in Hfind.
  rewrite fetch_historical_data_from in Hfind. simpl in Hfind.
  destruct (existsb (String.eqb k) symbols) eqn:E; [|discriminate].
  apply existsb_exists in E as (s & Hin' & Heq).
  apply String.eqb_eq in Heq. subst s. exact Hin'.
Qed.

(** X12: the simulated length is the length of the shortest close series
    among the requested symbols: it exceeds the length of none, it is the
    length of one of them when a symbol is requested, and so a requested
    symbol without a single close makes the run return the empty result
    without simulating a bar. *)
Theorem X12_simulated_length_is_shortest_series :
  forall e provider symbols strategy_type start_date parameters,
    (forall symbol,
       In symbol symbols ->
       (min_length_of (price_data_of (fetch_historical_data provider symbols))
        <= length (close (provider symbol)))%nat) /\
    (symbols <> [] ->
     exists symbol,
       In symbol symbols /\
       min_length_of (price_data_of (fetch_historical_data provider symbols))
       = length (close (provider symbol))) /\
    (forall symbol,
       In symbol symbols -> close (provider symbol) = [] ->
       run_backtest e provider symbols strategy_type start_date parameters
       = Ok _empty_results).
Proof.
  intros e provider symbols strategy_type start_date parameters.
  assert (Hle : forall symbol,
             In symbol symbols ->
             (min_length_of
                (price_data_of (fetch_historical_data provider symbols))
              <= length (close (provider symbol)))%nat).
  { intros symbol Hin. apply (min_length_of_le _ symbol).
    apply price_data_find. exact Hin. }
  split; [exact Hle|]. split.
  - intro Hne. unfold min_length_of.
    destruct (dict_values
                (price_data_of (fetch_historical_data provider symbols)))
      as [|p0 rest] eqn:Hvals.
    + exfalso. destruct symbols as [|s symbols]; [contradiction|].
      pose proof (price_data_find provider (s :: symbols) s (or_introl eq_refl))
        as Hfind.
      apply dict_find_In in Hfind. apply (in_map snd) in Hfind.
      fold (dict_values
              (price_data_of (fetch_historical_data provider (s :: symbols))))
        in Hfind.
      rewrite Hvals in Hfind. destruct Hfind.
    + assert (Hin : In (fold_left Nat.min (map (@length Q) rest) (length p0))
                       (map (@length Q) (p0 :: rest))).
      { destruct (fold_min_attained (map (@length Q) rest) (length p0))
          as [-> | H]; [now left | now right]. }
      apply in_map_iff in Hin as (prices & Hlen & Hin).
      rewrite <- Hvals in Hin.
      apply price_data_of_values in Hin as (symbol & Hs & ->).
      exists symbol. split; [exact Hs|]. symmetry. exact Hlen.
  - intros symbol Hin Hnil. specialize (Hle symbol Hin).
    rewrite Hnil in Hle. simpl in Hle. unfold run_backtest.
    destruct (min_length_of
                (price_data_of (fetch_historical_data provider symbols)));
      [reflexivity | lia].
Qed.

(** ** Slices *)

Lemma py_slice_length {A : Type} (l : list A) (a b : Z) :
  (0 <= a)%Z -> (a <= b)%Z -> (b <= Z.of_nat (length l))%Z ->
  length (py_slice l a b) = Z.to_nat (b - a).
Proof.
  intros Ha Hab Hb. unfold py_slice, slice_bound.
  destruct (a <? 0)%Z eqn:Ea; [apply Z.ltb_lt in Ea; lia|].
  destruct (b <? 0)%Z eqn:Eb; [apply Z.ltb_lt in Eb; lia|].
  rewrite length_firstn, length_skipn. lia.
Qed.

Lemma py_slice_empty {A : Type} (l : list A) (a b : Z) :
  (0 <= b <= a)%Z -> py_slice l a b = [].
Proof.
  intros [Hb Hab]. unfold py_slice, slice_bound.
  destruct (a <? 0)%Z eqn:Ea; [apply Z.ltb_lt in Ea; lia|].
  destruct (b <? 0)%Z eqn:Eb; [apply Z.ltb_lt in Eb; lia|].
  replace (Z.to_nat (Z.min b (Z.of_nat (length l))
                     - Z.min a (Z.of_nat (length l)))) with O by lia.
  reflexivity.
Qed.

(** ** Strategies that do not raise *)

Lemma momentum_signal_total parameters prices current_idx :
  exists sig, momentum_signal parameters prices current_idx = Ok sig.
Proof.
  unfold momentum_signal. cbv zeta.
  destruct (current_idx <? get (p_long_period parameters) 30)%Z; [eauto|].
  repeat match goal with
         | |- context [if ?c then _ else _] => destruct c
         end; eauto.
Qed.

Lemma mean_reversion_signal_total parameters prices i :
  (i < length prices)%nat ->
  exists sig, mean_reversion_signal parameters prices (Z.of_nat i) = Ok sig.
Proof.
  intro Hi. unfold mean_reversion_signal. cbv zeta.
  destruct (Z.of_nat i <? get (p_period parameters) 20)%Z; [eauto|].
  rewrite py_index_nat.
  destruct (nth_error prices i) as [p|] eqn:E;
    [|apply nth_error_None in E; lia].
  simpl.
  repeat match goal with
         | |- context [if ?c then _ else _] => destruct c
         end; eauto.
Qed.

Lemma trend_following_signal_total parameters prices i :
  (0 < get (p_lookback parameters) 20%Z)%Z ->
  (i < length prices)%nat ->
  exists sig, trend_following_signal parameters prices (Z.of_nat i) = Ok sig.
Proof.
  intros Hlook Hi. unfold trend_following_signal. cbv zeta.
  destruct (Z.of_nat i <? get (p_lookback parameters) 20%Z)%Z eqn:E; [eauto|].
  apply Z.ltb_ge in E.
  assert (Hlen : length (py_slice prices
                           (Z.of_nat i - get (p_lookback parameters) 20%Z)
                           (Z.of_nat i))
                 = Z.to_nat (get (p_lookback parameters) 20%Z)).
  { rewrite py_slice_length by lia. f_equal. lia. }
  destruct (py_slice prices (Z.of_nat i - get (p_lookback parameters) 20%Z)
              (Z.of_nat i)) as [|x w]; [simpl in Hlen; lia|].
  simpl. rewrite py_index_nat.
  destruct (nth_error prices i) as [p|] eqn:En;
    [|apply nth_error_None in En; lia].
  simpl.
  repeat match goal with
         | |- context [if ?c then _ else _] => destruct c
         end; eauto.
Qed.

Lemma signal_of_total strategy prices i :
  strategy_total strategy ->
  (i < length prices)%nat ->
  exists sig, signal_of strategy prices (Z.of_nat i) = Ok sig.
Proof.
  unfold strategy_total, signal_of. intros Htot Hi.
  destruct (strategy_class strategy).
  - apply momentum_signal_total.
  - apply mean_reversion_signal_total. exact Hi.
  - apply trend_following_signal_total; [apply Htot; reflexivity | exact Hi].
Qed.

Lemma generate_signals_total strategy data i :
  strategy_total strategy ->
  Forall (fun kv => (i < length (snd kv))%nat) data ->
  exists signals, generate_signals strategy data (Z.of_nat i) = Ok signals.
Proof.
  intros Htot Hall. unfold generate_signals.
  generalize (@nil (string * Signal)).
  induction data as [|[k prices] data IH]; intro acc; simpl; [eauto|].
  inversion Hall as [|x l Hk Hl]; subst. simpl in Hk.
  destruct (signal_of_total strategy prices i Htot Hk) as [sig ->]. simpl.
  apply IH. exact Hl.
Qed.

(** The signals are for the symbols of the data. *)
Lemma generate_signals_keys strategy data current_idx signals :
  generate_signals strategy data current_idx = Ok signals ->
  forall symbol, dict_mem signals symbol = dict_mem data symbol.
Proof.
  unfold generate_signals.
  assert (G : forall (acc : dict Signal),
             foldM (fun signals item =>
                      sig <- signal_of strategy (snd item) current_idx ;;
                      Ok (dict_set signals (fst item) sig)) data acc
             = Ok signals ->
             forall symbol,
               dict_mem signals symbol
               = dict_mem data symbol || dict_mem acc symbol).
  { induction data as [|[k prices] data IH]; simpl; intros acc H symbol.
    - injection H as <-. reflexivity.
    - apply bind_Ok in H as (acc' & Hacc & H).
      apply bind_Ok in Hacc as (sig & _ & [= <-]).
      rewrite (IH _ H symbol). unfold dict_mem.
      rewrite dict_find_set. simpl.
      destruct (String.eqb symbol k); simpl.
      + destruct (dict_find data symbol); reflexivity.
      + reflexivity. }
  intros H symbol. rewrite (G [] H symbol). apply orb_false_r.
Qed.

(** ** Runs that return *)

Lemma simulate_raises_on e strategy market_data symbols price_data x st :
  forall n,
    simulate e strategy market_data symbols price_data n st = Raise x ->
    forall m,
      (n <= m)%nat ->
      simulate e strategy market_data symbols price_data m st = Raise x.
Proof.
  intros n Hn m Hle. induction Hle as [|m Hle IH]; [exact Hn|].
  simpl. rewrite IH. reflexivity.
Qed.

Lemma min_length_of_le_In price_data kv :
  In kv price_data -> (min_length_of price_data <= length (snd kv))%nat.
Proof.
  intro H. apply (in_map snd) in H. fold (dict_values price_data) in H.
  unfold min_length_of.
  destruct (dict_values price_data) as [|p0 rest]; [destruct H|].
  destruct (fold_min_le (map (@length Q) rest) (length p0)) as [H1 H2].
  destruct H as [<- | H]; [exact H1|].
  rewrite Forall_forall in H2. apply H2. apply in_map. exact H.
Qed.

Lemma In_dict_mem {V : Type} (d : dict V) (kv : string * V) :
  In kv d -> dict_mem d (fst kv) = true.
Proof.
  intro H. unfold dict_mem.
  destruct (dict_find d (fst kv)) eqn:E; [reflexivity|].
  exfalso. apply dict_find_None_keys in E. apply E.
  unfold dict_keys. apply in_map. exact H.
Qed.

Lemma execute_buy_total e symbol current_price st :
  ~ current_price == 0 ->
  exists st', execute_buy e symbol current_price st = Ok st'.
Proof.
  intro Hp. unfold execute_buy. rewrite (py_div_nonzero _ _ Hp). simpl.
  repeat match goal with
         | |- context [if ?c then _ else _] => destruct c
         end; eauto.
Qed.

Lemma execute_signal_total e price_data i st item :
  dict_mem price_data (fst item) = true ->
  (i < min_length_of price_data)%nat ->
  nonzero_closes price_data ->
  exists st', execute_signal e price_data i st item = Ok st'.
Proof.
  destruct item as [symbol signal]. simpl. intros Hmem Hi Hnz.
  unfold dict_mem in Hmem. unfold execute_signal, dict_get.
  destruct (dict_find price_data symbol) as [prices|] eqn:Hfind;
    [|discriminate].
  simpl. rewrite py_index_nat.
  apply dict_find_In in Hfind.
  pose proof (min_length_of_le_In _ _ Hfind) as Hlen. simpl in Hlen.
  destruct (nth_error prices i) as [p|] eqn:Hnth;
    [|apply nth_error_None in Hnth; lia].
  simpl.
  destruct signal, (dict_find (st_positions st) symbol); eauto.
  apply execute_buy_total.
  unfold nonzero_closes in Hnz. rewrite Forall_forall in Hnz.
  specialize (Hnz _ Hfind). simpl in Hnz. rewrite Forall_forall in Hnz.
  apply Hnz. eapply nth_error_In. exact Hnth.
Qed.

Lemma execute_signals_total e price_data i :
  (i < min_length_of price_data)%nat ->
  nonzero_closes price_data ->
  forall signals,
    Forall (fun item => dict_mem price_data (fst item) = true) signals ->
    forall st,
    exists st', foldM (execute_signal e price_data i) signals st = Ok st'.
Proof.
  intros Hi Hnz signals.
  induction signals as [|item signals IH]; intros Hall st; simpl; [eauto|].
  inversion Hall as [|x l Hx Hl]; subst.
  destruct (execute_signal_total e price_data i st item Hx Hi Hnz)
    as [s1 ->].
  simpl. apply IH. exact Hl.
Qed.

Lemma add_day_in_range (d : Z) :
  (d + 1 <= date_max_ordinal)%Z -> add_day d = Ok (d + 1)%Z.
Proof.
  intro H. unfold add_day.
  destruct (d + 1 <=? date_max_ordinal)%Z eqn:E; [reflexivity|].
  apply Z.leb_gt in E. lia.
Qed.

Lemma add_day_out_of_range (d : Z) :
  (date_max_ordinal < d + 1)%Z -> add_day d = Raise OverflowError.
Proof.
  intro H. unfold add_day.
  destruct (d + 1 <=? date_max_ordinal)%Z eqn:E; [|reflexivity].
  apply Z.leb_le in E. lia.
Qed.

Lemma execute_signal_date e price_data i st item st' :
  execute_signal e price_data i st item = Ok st' -> st_date st' = st_date st.
Proof.
  destruct item as [symbol signal]. intro H.
  apply execute_signal_cases in H
    as (prices & p & _ & _ &
        [-> | [(_ & _ & H) | (_ & pos & _ & ->)]]);
    [reflexivity | | reflexivity].
  apply execute_buy_cases in H as [_ [-> | (_ & _ & ->)]]; reflexivity.
Qed.

Lemma execute_signals_date e price_data i signals st st' :
  foldM (execute_signal e price_data i) signals st = Ok st' ->
  st_date st' = st_date st.
Proof.
  apply (foldM_invariant (fun s => st_date s = st_date st));
    [|reflexivity].
  intros s item s' Hs H. rewrite <- Hs.
  eapply execute_signal_date. exact H.
Qed.

Lemma record_equity_total provider first symbols price_data i st :
  (i < length (timestamps (provider first)))%nat ->
  (st_date st + 1 <= date_max_ordinal)%Z ->
  exists st',
    record_equity (fetch_historical_data provider (first :: symbols))
      (first :: symbols) price_data i st = Ok st' /\
    st_date st' = (st_date st + 1)%Z.
Proof.
  intros Hi Hdate. unfold record_equity, dict_get, fetch_historical_data.
  rewrite fetch_historical_data_from. simpl existsb.
  rewrite String.eqb_refl. simpl.
  rewrite py_index_nat.
  destruct (nth_error (timestamps (provider first)) i) eqn:E;
    [|apply nth_error_None in E; lia].
  simpl. rewrite (add_day_in_range _ Hdate). simpl. eauto.
Qed.

Lemma bar_total e strategy provider first symbols i st :
  strategy_total strategy ->
  nonzero_closes
    (price_data_of (fetch_historical_data provider (first :: symbols))) ->
  (i < min_length_of
         (price_data_of
            (fetch_historical_data provider (first :: symbols))))%nat ->
  (i < length (timestamps (provider first)))%nat ->
  (st_date st + 1 <= date_max_ordinal)%Z ->
  exists st',
    bar e strategy (fetch_historical_data provider (first :: symbols))
      (first :: symbols)
      (price_data_of (fetch_historical_data provider (first :: symbols)))
      i st = Ok st' /\
    st_date st' = (st_date st + 1)%Z.
Proof.
  intros Htot Hnz Hi Hts Hdate. unfold bar.
  set (price_data := price_data_of
                       (fetch_historical_data provider (first :: symbols)))
    in *.
  destruct (generate_signals_total strategy price_data i Htot)
    as [signals Hsig].
  { apply Forall_forall. intros kv Hin.
    pose proof (min_length_of_le_In _ _ Hin). lia. }
  rewrite Hsig. simpl.
  destruct (execute_signals_total e price_data i Hi Hnz signals) with (st := st)
    as [s1 Hexec].
  { apply Forall_forall. intros item Hin.
    rewrite <- (generate_signals_keys _ _ _ _ Hsig).
    apply In_dict_mem. exact Hin. }
  rewrite Hexec. simpl. apply execute_signals_date in Hexec.
  rewrite <- Hexec. apply record_equity_total; [exact Hts|].
  rewrite Hexec. exact Hdate.
Qed.

Lemma bar_overflow e strategy provider first symbols i st :
  strategy_total strategy ->
  nonzero_closes
    (price_data_of (fetch_historical_data provider (first :: symbols))) ->
  (i < min_length_of
         (price_data_of
            (fetch_historical_data provider (first :: symbols))))%nat ->
  (i < length (timestamps (provider first)))%nat ->
  (date_max_ordinal < st_date st + 1)%Z ->
  bar e strategy (fetch_historical_data provider (first :: symbols))
    (first :: symbols)
    (price_data_of (fetch_historical_data provider (first :: symbols)))
    i st = Raise OverflowError.
Proof.
  intros Htot Hnz Hi Hts Hdate. unfold bar.
  set (price_data := price_data_of
                       (fetch_historical_data provider (first :: symbols)))
    in *.
  destruct (generate_signals_total strategy price_data i Htot)
    as [signals Hsig].
  { apply Forall_forall. intros kv Hin.
    pose proof (min_length_of_le_In _ _ Hin). lia. }
  rewrite Hsig. simpl.
  destruct (execute_signals_total e price_data i Hi Hnz signals) with (st := st)
    as [s1 Hexec].
  { apply Forall_forall. intros item Hin.
    rewrite <- (generate_signals_keys _ _ _ _ Hsig).
    apply In_dict_mem. exact Hin. }
  rewrite Hexec. simpl. apply execute_signals_date in Hexec.
  unfold record_equity, dict_get, fetch_historical_data.
  rewrite fetch_historical_data_from. simpl existsb.
  rewrite String.eqb_refl. simpl.
  rewrite py_index_nat.
  destruct (nth_error (timestamps (provider first)) i) eqn:E;
    [|apply nth_error_None in E; lia].
  simpl. rewrite add_day_out_of_range by (rewrite Hexec; exact Hdate).
  reflexivity.
Qed.

Lemma simulate_total e strategy provider first symbols n :
  strategy_total strategy ->
  nonzero_closes
    (price_data_of (fetch_historical_data provider (first :: symbols))) ->
  (n <= min_length_of
          (price_data_of
             (fetch_historical_data provider (first :: symbols))))%nat ->
  (n <= length (timestamps (provider first)))%nat ->
  forall st,
  (st_date st + Z.of_nat n <= date_max_ordinal)%Z ->
  exists st',
    simulate e strategy (fetch_historical_data provider (first :: symbols))
      (first :: symbols)
      (price_data_of (fetch_historical_data provider (first :: symbols)))
      n st = Ok st' /\
    st_date st' = (st_date st + Z.of_nat n)%Z.
Proof.
  intros Htot Hnz. induction n as [|n IH]; intros Hn Hts st Hdate.
  - simpl. exists st. split; [reflexivity | lia].
  - destruct (IH (Nat.lt_le_incl _ _ Hn) (Nat.lt_le_incl _ _ Hts) st)
      as (s1 & Hs1 & Hd1); [lia|].
    simpl. rewrite Hs1. simpl.
    destruct (bar_total e strategy provider first symbols n s1 Htot Hnz)
      as (s2 & Hs2 & Hd2); [exact Hn | exact Hts | lia|].
    exists s2. split; [exact Hs2 | lia].
Qed.

Lemma provider_nonzero_closes provider symbols :
  (forall symbol,
     In symbol symbols -> Forall (fun p => ~ p == 0) (close (provider symbol))) ->
  nonzero_closes (price_data_of (fetch_historical_data provider symbols)).
Proof.
  intro H. unfold nonzero_closes. apply Forall_forall. intros [k prices] Hin.
  simpl. apply (in_map snd) in Hin. simpl in Hin.
  apply price_data_of_values in Hin as (symbol & Hs & ->). auto.
Qed.

(** The conditions under which a run raises nothing. *)
Lemma run_backtest_total :
  forall e provider first symbols strategy_type start_date parameters,
    (strategy_type = TREND_FOLLOWING ->
     (0 < get (p_lookback parameters) 20)%Z) ->
    (forall symbol,
       In symbol (first :: symbols) ->
       Forall (fun p => ~ p == 0) (close (provider symbol))) ->
    (min_length_of
       (price_data_of (fetch_historical_data provider (first :: symbols)))
     <= length (timestamps (provider first)))%nat ->
    ~ initial_capital e == 0 ->
    (start_date + Z.of_nat (min_length_of
                              (price_data_of
                                 (fetch_historical_data provider
                                    (first :: symbols))))
     <= date_max_ordinal)%Z ->
    exists r,
      run_backtest e provider (first :: symbols) strategy_type start_date
        parameters = Ok r.
Proof.
  intros e provider first symbols strategy_type start_date parameters
    Hlook Hnz Hts Hcap Hdate.
  unfold run_backtest.
  destruct (min_length_of
              (price_data_of
                 (fetch_historical_data provider (first :: symbols))))
    as [|n] eqn:Hmin; [eauto|].
  unfold simulation.
  destruct (simulate_total e (get_strategy strategy_type parameters) provider
              first symbols (S n)) with (st := initial_state e start_date)
    as (st & Hst & _).
  - unfold strategy_total. destruct strategy_type; simpl; try discriminate.
    intros _. apply Hlook. reflexivity.
  - apply provider_nonzero_closes. exact Hnz.
  - rewrite Hmin. apply Nat.le_refl.
  - exact Hts.
  - exact Hdate.
  - rewrite Hst. simpl. unfold _calculate_metrics.
    destruct (st_trades st); [eauto|].
    rewrite (py_div_nonzero _ _ Hcap). simpl. eauto.
Qed.

(** The run of a date range that passes 9999-12-31 raises, the other
    conditions being met. *)
Lemma run_backtest_overflow :
  forall e provider first symbols strategy_type start_date parameters,
    (strategy_type = TREND_FOLLOWING ->
     (0 < get (p_lookback parameters) 20)%Z) ->
    (forall symbol,
       In symbol (first :: symbols) ->
       Forall (fun p => ~ p == 0) (close (provider symbol))) ->
    (min_length_of
       (price_data_of (fetch_historical_data provider (first :: symbols)))
     <= length (timestamps (provider first)))%nat ->
    (start_date <= date_max_ordinal
     < start_date + Z.of_nat (min_length_of
                                (price_data_of
                                   (fetch_historical_data provider
                                      (first :: symbols)))))%Z ->
    run_backtest e provider (first :: symbols) strategy_type start_date
      parameters = Raise OverflowError.
Proof.
  intros e provider first symbols strategy_type start_date parameters
    Hlook Hnz Hts Hdate.
  unfold run_backtest.
  assert (Htot : strategy_total (get_strategy strategy_type parameters)).
  { unfold strategy_total. destruct strategy_type; simpl; try discriminate.
    intros _. apply Hlook. reflexivity. }
  pose proof (provider_nonzero_closes provider (first :: symbols) Hnz) as Hnz'.
  destruct (min_length_of
              (price_data_of
                 (fetch_historical_data provider (first :: symbols))))
    as [|n] eqn:Hmin; [simpl in Hdate; lia|].
  unfold simulation.
  set (m := Z.to_nat (date_max_ordinal - start_date)).
  assert (Hm : (m <= n)%nat) by (unfold m; lia).
  rewrite (simulate_raises_on _ _ _ _ _ OverflowError _ (S m));
    [reflexivity| |lia].
  simpl.
  destruct (simulate_total e (get_strategy strategy_type parameters) provider
              first symbols m Htot Hnz') with (st := initial_state e start_date)
    as (s1 & Hs1 & Hd1).
  - rewrite Hmin. lia.
  - lia.
  - simpl. unfold m. lia.
  - rewrite Hs1. simpl. apply bar_overflow; try assumption.
    + rewrite Hmin. lia.
    + lia.
    + rewrite Hd1. simpl. unfold m. lia.
Qed.

(** X13: when a symbol is requested, no close of a requested symbol is 0,
    the first requested symbol has a timestamp for every simulated bar, the
    initial capital is not 0, and the strategy is not a trend follower with
    a lookback of 0 or less, a run returns a result, raising nothing, if the
    day after its last bar is 9999-12-31 at the latest; and it raises
    [OverflowError] if that day is later, the date being advanced at the
    end of every bar. *)
Theorem X13_run_returns_a_result :
  forall e provider first symbols strategy_type start_date parameters,
    (strategy_type = TREND_FOLLOWING ->
     (0 < get (p_lookback parameters) 20)%Z) ->
    (forall symbol,
       In symbol (first :: symbols) ->
       Forall (fun p => ~ p == 0) (close (provider symbol))) ->
    (min_length_of
       (price_data_of (fetch_historical_data provider (first :: symbols)))
     <= length (timestamps (provider first)))%nat ->
    ~ initial_capital e == 0 ->
    ((start_date + Z.of_nat (min_length_of
                               (price_data_of
                                  (fetch_historical_data provider
                                     (first :: symbols))))
      <= date_max_ordinal)%Z ->
     exists r,
       run_backtest e provider (first :: symbols) strategy_type start_date
         parameters = Ok r) /\
    ((start_date <= date_max_ordinal
      < start_date + Z.of_nat (min_length_of
                                 (price_data_of
                                    (fetch_historical_data provider
                                       (first :: symbols)))))%Z ->
     run_backtest e provider (first :: symbols) strategy_type start_date
       parameters = Raise OverflowError).
Proof.
  intros e provider first symbols strategy_type start_date parameters
    Hlook Hnz Hts Hcap.
  split; intro Hdate.
  - apply run_backtest_total; assumption.
  - apply run_backtest_overflow; assumption.
Qed.

Lemma X13_witness :
  (exists r,
     run_backtest backtest_engine (constant_provider [1; 2; 3; 2])
       ["AAPL"%string] TREND_FOLLOWING 0 lookback_1 = Ok r) /\
  run_backtest backtest_engine (constant_provider [1; 2; 3; 2])
    ["AAPL"%string] TREND_FOLLOWING 3652059 lookback_1
  = Raise OverflowError.
Proof.
  split.
  - apply (X13_run_returns_a_result backtest_engine
             (constant_provider [1; 2; 3; 2]) "AAPL"%string []
             TREND_FOLLOWING 0%Z lookback_1).
    + intros _. reflexivity.
    + intros symbol _. simpl. repeat constructor; lra.
    + vm_compute. lia.
    + simpl. lra.
    + vm_compute. discriminate.
  - apply (X13_run_returns_a_result backtest_engine
             (constant_provider [1; 2; 3; 2]) "AAPL"%string []
             TREND_FOLLOWING 3652059%Z lookback_1).
    + intros _. reflexivity.
    + intros symbol _. simpl. repeat constructor; lra.
    + vm_compute. lia.
    + simpl. lra.
    + vm_compute. split; [discriminate | reflexivity].
Defined.

(** ** A trend follower without a lookback *)

Lemma trend_following_no_window parameters prices current_idx :
  (get (p_lookback parameters) 20 <= 0)%Z -> (0 <= current_idx)%Z ->
  trend_following_signal parameters prices current_idx = Raise ValueError.
Proof.
  intros Hlook Hidx. unfold trend_following_signal. cbv zeta.
  destruct (current_idx <? get (p_lookback parameters) 20)%Z eqn:E;
    [apply Z.ltb_lt in E; lia|].
  rewrite py_slice_empty by lia. reflexivity.
Qed.

(** X14: a trend-following run whose lookback is 0 or negative fails with
    [ValueError] as soon as there is a bar to simulate: on the first bar the
    window is empty and its maximum is undefined. *)
Theorem X14_trend_following_needs_a_lookback :
  forall e provider symbols start_date parameters,
    (get (p_lookback parameters) 20 <= 0)%Z ->
    (0 < min_length_of
           (price_data_of (fetch_historical_data provider symbols)))%nat ->
    run_backtest e provider symbols TREND_FOLLOWING start_date parameters
    = Raise ValueError.
Proof.
  intros e provider symbols start_date parameters Hlook Hmin.
  unfold run_backtest.
  destruct (min_length_of
              (price_data_of (fetch_historical_data provider symbols)))
    as [|n] eqn:Hn; [lia|].
  unfold simulation.
  rewrite (simulate_raises_on _ _ _ _ _ ValueError _ 1%nat); [reflexivity| |lia].
  simpl. unfold bar, generate_signals.
  destruct (price_data_of (fetch_historical_data provider symbols))
    as [|[k prices] data] eqn:Hdata; [discriminate Hn|].
  simpl. unfold signal_of. simpl.
  rewrite (trend_following_no_window parameters prices 0 Hlook (Z.le_refl 0)).
  reflexivity.
Qed.

Lemma X14_witness :
  run_backtest backtest_engine (constant_provider [1; 2; 3; 2])
    ["AAPL"%string] TREND_FOLLOWING 0 lookback_0 = Raise ValueError.
Proof.
  apply (X14_trend_following_needs_a_lookback backtest_engine
           (constant_provider [1; 2; 3; 2]) ["AAPL"%string] 0%Z lookback_0).
  - vm_compute. discriminate.
  - vm_compute. lia.
Defined.

(** ** Runs shorter than the window *)

Lemma In_NoDup_dict_find {V : Type} (d : dict V) (k : string) (v : V) :
  NoDup (dict_keys d) -> In (k, v) d -> dict_find d k = Some v.
Proof.
  induction d as [|[k0 v0] d IH]; simpl; intros Hnd Hin; [destruct Hin|].
  inversion Hnd as [|x l Hx Hl]; subst.
  destruct Hin as [[= -> ->] | Hin].
  - rewrite String.eqb_refl. reflexivity.
  - destruct (String.eqb k k0) eqn:E; [|exact (IH Hl Hin)].
    apply String.eqb_eq in E. subst k0. exfalso. apply Hx.
    unfold dict_keys. apply (in_map fst) in Hin. exact Hin.
Qed.

Lemma execute_hold_signals e price_data i :
  (i < min_length_of price_data)%nat ->
  forall signals st,
    Forall (fun item =>
              snd item = hold /\ dict_mem price_data (fst item) = true)
           signals ->
    foldM (execute_signal e price_data i) signals st = Ok st.
Proof.
  intros Hi signals st.
  induction signals as [|[symbol signal] signals IH]; intro Hall; simpl;
    [reflexivity|].
  inversion Hall as [|x l [Hhold Hmem] Hl]; subst. simpl in Hhold, Hmem.
  subst signal. unfold dict_mem in Hmem. unfold dict_get.
  destruct (dict_find price_data symbol) as [prices|] eqn:Hfind;
    [|discriminate].
  simpl. rewrite py_index_nat.
  pose proof (min_length_of_le _ _ _ Hfind) as Hlen.
  destruct (nth_error prices i) eqn:Hnth;
    [|apply nth_error_None in Hnth; lia].
  simpl. destruct (dict_find (st_positions st) symbol); simpl; exact (IH Hl).
Qed.

Lemma bar_before_window e strategy provider first symbols i st :
  (Z.of_nat i < required_window strategy)%Z ->
  (i < min_length_of
         (price_data_of
            (fetch_historical_data provider (first :: symbols))))%nat ->
  (i < length (timestamps (provider first)))%nat ->
  (st_date st + 1 <= date_max_ordinal)%Z ->
  exists st',
    bar e strategy (fetch_historical_data provider (first :: symbols))
      (first :: symbols)
      (price_data_of (fetch_historical_data provider (first :: symbols)))
      i st = Ok st' /\
    st_trades st' = st_trades st /\ st_positions st' = st_positions st /\
    st_date st' = (st_date st + 1)%Z.
Proof.
  intros Hwin Hi Hts Hdate. unfold bar.
  set (price_data := price_data_of
                       (fetch_historical_data provider (first :: symbols)))
    in *.
  destruct (generate_signals_hold_from strategy _ Hwin price_data [])
    as (signals & Hsig & Hfind).
  fold (generate_signals strategy price_data (Z.of_nat i)) in Hsig.
  rewrite Hsig. simpl.
  rewrite (execute_hold_signals e price_data i Hi signals st).
  - simpl.
    destruct (record_equity_total provider first symbols price_data i st Hts
                Hdate) as (st' & Hrec & Hd).
    exists st'. split; [exact Hrec|].
    apply record_equity_positions in Hrec as (Hp & Ht & _).
    repeat split; assumption.
  - apply Forall_forall. intros [symbol signal] Hin. simpl.
    pose proof (In_NoDup_dict_find _ _ _
                  (generate_signals_NoDup _ _ _ _ Hsig) Hin) as Hs.
    rewrite Hfind in Hs.
    destruct (dict_mem price_data symbol); [|discriminate].
    injection Hs as <-. split; reflexivity.
Qed.

(** X15: a run with no more bars than the strategy's window (30, 20 or 20
    bars by default) returns the empty result, provided the first requested
    symbol has a timestamp for every bar and the day after the last bar is
    9999-12-31 at the latest: every signal is [hold], and no close, not even
    a close of 0, is ever divided by. *)
Theorem X15_short_history_gives_the_empty_result :
  forall e provider first symbols strategy_type start_date parameters,
    (Z.of_nat (min_length_of
                 (price_data_of
                    (fetch_historical_data provider (first :: symbols))))
     <= required_window (get_strategy strategy_type parameters))%Z ->
    (min_length_of
       (price_data_of (fetch_historical_data provider (first :: symbols)))
     <= length (timestamps (provider first)))%nat ->
    (start_date + Z.of_nat (min_length_of
                              (price_data_of
                                 (fetch_historical_data provider
                                    (first :: symbols))))
     <= date_max_ordinal)%Z ->
    run_backtest e provider (first :: symbols) strategy_type start_date
      parameters = Ok _empty_results.
Proof.
  intros e provider first symbols strategy_type start_date parameters
    Hwin Hts Hdate.
  unfold run_backtest.
  destruct (min_length_of
              (price_data_of
                 (fetch_historical_data provider (first :: symbols))))
    as [|n] eqn:Hmin; [reflexivity|].
  unfold simulation.
  assert (G : forall m,
             (m <= S n)%nat ->
             exists st,
               simulate e (get_strategy strategy_type parameters)
                 (fetch_historical_data provider (first :: symbols))
                 (first :: symbols)
                 (price_data_of
                    (fetch_historical_data provider (first :: symbols)))
                 m (initial_state e start_date) = Ok st /\
               st_trades st = [] /\
               st_date st = (start_date + Z.of_nat m)%Z).
  { induction m as [|m IH]; intro Hm; simpl.
    - eexists. split; [reflexivity|]. split; [reflexivity | simpl; lia].
    - destruct (IH (Nat.lt_le_incl _ _ Hm)) as (s & -> & Hs & Hd). simpl.
      destruct (bar_before_window e (get_strategy strategy_type parameters)
                  provider first symbols m s) as (s' & Hbar & Ht & _ & Hd').
      + lia.
      + rewrite Hmin. exact Hm.
      + lia.
      + lia.
      + exists s'. split; [exact Hbar|]. split; [congruence | lia]. }
  destruct (G (S n) (Nat.le_refl _)) as (st & -> & Htrades & _).
  simpl. unfold _calculate_metrics. rewrite Htrades. reflexivity.
Qed.

Lemma X15_witness :
  run_backtest backtest_engine (constant_provider [1; 0; 3; 2])
    ["AAPL"%string] MEAN_REVERSION 0 no_params = Ok _empty_results.
Proof.
  apply (X15_short_history_gives_the_empty_result backtest_engine
           (constant_provider [1; 0; 3; 2]) "AAPL"%string [] MEAN_REVERSION
           0%Z no_params).
  - vm_compute. discriminate.
  - vm_compute. lia.
  - vm_compute. discriminate.
Defined.

(** * Synthetic data *)






Section SyntheticDataFacts.

Variable timestamp_of : Z -> Z -> Z.
Variable normal : nat -> Q -> Q -> Q.
Variable uniform : nat -> Q -> Q -> Q.
Variable microseconds : Z.







End SyntheticDataFacts.



(** From Monday noon to Wednesday 06:00 there is one whole day, and one
    bar: that of Monday. *)
Example synthetic_data_of_a_day_and_a_half :
  timedelta_days wednesday_morning monday_noon = 1%Z /\
  exists d,
    _generate_synthetic_data utc_timestamp still_normal still_uniform 0
      monday_noon wednesday_morning 100 = Ok d /\
    sd_timestamps d = [1704110400%Z] /\ length (sd_close d) = 1%nat.
Proof.
  split; [reflexivity|]. eexists. split; [vm_compute; reflexivity|].
  split; reflexivity.
Qed.













(** * Subscription tiers and account creation *)

(** The tier behind a name: one of the four of the table, the free one for
    any other name. *)
Lemma tier_cases (tier : string) :
  (tier = "free"%string /\ get_tier_features tier = tier_features free_tier) \/
  (tier = "starter"%string /\
   get_tier_features tier = tier_features starter_tier) \/
  (tier = "pro"%string /\ get_tier_features tier = tier_features pro_tier) \/
  (tier = "elite"%string /\ get_tier_features tier = tier_features elite_tier) \/
  (dict_find SUBSCRIPTION_TIERS tier = None /\
   get_tier_features tier = tier_features free_tier).
Proof.
  unfold get_tier_features, SUBSCRIPTION_TIERS. simpl dict_find.
  destruct (String.eqb tier "free") eqn:E1;
    [apply String.eqb_eq in E1; left; split; [exact E1 | reflexivity]|].
  destruct (String.eqb tier "starter") eqn:E2;
    [apply String.eqb_eq in E2; right; left; split; [exact E2 | reflexivity]|].
  destruct (String.eqb tier "pro") eqn:E3;
    [apply String.eqb_eq in E3; right; right; left;
     split; [exact E3 | reflexivity]|].
  destruct (String.eqb tier "elite") eqn:E4;
    [apply String.eqb_eq in E4; right; right; right; left;
     split; [exact E4 | reflexivity]|].
  right; right; right; right. split; reflexivity.
Qed.

(** X20: [is_within_limit] is monotone in the count (a count within the
    limit stays within it when it decreases); a tier that is not in the
    table is limited as the free tier; a feature that the tier does not
    define admits no count at all, not even 0; and the elite tier, whose
    limits are -1, admits any number of bots and accounts. *)
Theorem X20_is_within_limit :
  (forall tier feature c c',
     (c' <= c)%Z ->
     is_within_limit tier feature c = true ->
     is_within_limit tier feature c' = true) /\
  (forall tier feature c,
     dict_find SUBSCRIPTION_TIERS tier = None ->
     is_within_limit tier feature c = is_within_limit "free" feature c) /\
  (forall tier feature c,
     dict_find (get_tier_features tier) feature = None ->
     (0 <= c)%Z ->
     is_within_limit tier feature c = false) /\
  (forall c,
     is_within_limit "elite" "max_bots" c = true /\
     is_within_limit "elite" "max_accounts" c = true).
Proof.
  split; [|split; [|split]].
  - intros tier feature c c' Hle. unfold is_within_limit. cbv zeta.
    destruct (int_of (get (dict_find (get_tier_features tier) feature)
                          (VInt 0)) =? -1)%Z; [reflexivity|].
    rewrite !Z.ltb_lt. lia.
  - intros tier feature c Hnone. unfold is_within_limit, get_tier_features.
    rewrite Hnone. reflexivity.
  - intros tier feature c Hnone Hc. unfold is_within_limit. cbv zeta.
    rewrite Hnone. simpl. apply Z.ltb_ge. exact Hc.
  - intro c. split; reflexivity.
Qed.

Lemma X20_witness :
  is_within_limit "starter" "max_bots" 1 = true /\
  is_within_limit "gold" "max_bots" 0
  = is_within_limit "free" "max_bots" 0 /\
  is_within_limit "pro" "max_widgets" 0 = false.
Proof.
  destruct X20_is_within_limit as (Hmono & Hfree & Hunknown & _).
  split; [|split].
  - apply (Hmono "starter"%string "max_bots"%string 2%Z 1%Z); [lia|reflexivity].
  - apply Hfree. reflexivity.
  - apply Hunknown; [reflexivity | lia].
Defined.

(** X21: [create_account] lets a live account through for the starter, pro
    and elite tiers only (a user of the free tier, of an unknown tier or
    without a tier never gets one); it refuses nothing to the elite tier,
    whatever the count and the type; and on the free tier a paper account
    passes exactly when the user has none yet. *)
Theorem X21_create_account_checks :
  (forall subscription_tier counted,
     create_account_checks subscription_tier counted LIVE = None ->
     subscription_tier = Some "starter"%string \/
     subscription_tier = Some "pro"%string \/
     subscription_tier = Some "elite"%string) /\
  (forall counted account_type,
     create_account_checks (Some "elite"%string) counted account_type = None) /\
  (forall c,
     create_account_checks (Some "free"%string) (Some c) PAPER = None
     <-> (c < 1)%Z).
Proof.
  split; [|split].
  - intros subscription_tier counted.
    unfold create_account_checks. cbv zeta.
    set (tier := get subscription_tier "free"%string).
    destruct (negb (is_within_limit tier "max_accounts" _)); [discriminate|].
    assert (Hfree : get_tier_features tier = tier_features free_tier ->
                    (if negb (truthy (dict_find (get_tier_features tier)
                                        "live_trading_enabled"))
                     then Some LiveTradingUnavailable else None) = None ->
                    False).
    { intros -> H. discriminate H. }
    intro H.
    destruct (tier_cases tier) as [[_ Hf] | [[Ht _] | [[Ht _] | [[Ht _] | [_ Hf]]]]];
      try (exfalso; exact (Hfree Hf H)).
    + left. unfold tier in Ht. destruct subscription_tier as [s|];
        simpl in Ht; [subst s; reflexivity | discriminate Ht].
    + right; left. unfold tier in Ht. destruct subscription_tier as [s|];
        simpl in Ht; [subst s; reflexivity | discriminate Ht].
    + right; right. unfold tier in Ht. destruct subscription_tier as [s|];
        simpl in Ht; [subst s; reflexivity | discriminate Ht].
  - intros counted account_type. unfold create_account_checks. cbv zeta.
    change (is_within_limit (get (Some "elite"%string) "free"%string)
              "max_accounts"
              match counted with
              | Some c => if (c =? 0)%Z then 0%Z else c
              | None => 0%Z
              end) with true.
    destruct account_type; reflexivity.
  - intro c. unfold create_account_checks. cbv zeta.
    change (is_within_limit (get (Some "free"%string) "free"%string)
              "max_accounts" (if (c =? 0)%Z then 0%Z else c))
      with ((if (c =? 0)%Z then 0%Z else c) <? 1)%Z.
    destruct (c =? 0)%Z eqn:E0.
    + apply Z.eqb_eq in E0. subst c. simpl. split; [lia | reflexivity].
    + destruct (c <? 1)%Z eqn:E1; simpl.
      * apply Z.ltb_lt in E1. split; [lia | reflexivity].
      * apply Z.ltb_ge in E1. split; [discriminate | lia].
Qed.

Lemma X21_witness :
  (Some "starter"%string = Some "starter"%string \/
   Some "starter"%string = Some "pro"%string \/
   Some "starter"%string = Some "elite"%string) /\
  create_account_checks (Some "free"%string) (Some 0%Z) PAPER = None.
Proof.
  destruct X21_create_account_checks as (Hlive & _ & Hfree).
  split.
  - apply (Hlive (Some "starter"%string) (Some 1%Z)). reflexivity.
  - apply Hfree. lia.
Defined.

(** * A trend follower in a market that never falls *)

Lemma py_slice_In {A : Type} (l : list A) (a b : Z) (x : A) :
  (0 <= a)%Z -> (0 <= b)%Z -> In x (py_slice l a b) ->
  exists j, (Z.of_nat j < b)%Z /\ nth_error l j = Some x.
Proof.
  intros Ha Hb Hin. unfold py_slice, slice_bound in Hin.
  destruct (a <? 0)%Z eqn:Ea; [apply Z.ltb_lt in Ea; lia|].
  destruct (b <? 0)%Z eqn:Eb; [apply Z.ltb_lt in Eb; lia|].
  apply In_nth_error in Hin as [m Hm].
  rewrite nth_error_firstn in Hm.
  destruct (m <? _)%nat eqn:Em; [|discriminate].
  apply Nat.ltb_lt in Em. rewrite nth_error_skipn in Hm.
  exists (Z.to_nat (Z.min a (Z.of_nat (length l))) + m)%nat.
  split; [lia | exact Hm].
Qed.

Lemma fold_py_min_In (l : list Q) :
  forall a, In (fold_left py_min l a) (a :: l).
Proof.
  induction l as [|x l IH]; intro a; simpl; [now left|].
  destruct (IH (py_min a x)) as [H | H]; [|right; now right].
  rewrite <- H. unfold py_min. destruct (Qltb x a); [right | ]; now left.
Qed.

Lemma min_list_In (l : list Q) (low : Q) : min_list l = Ok low -> In low l.
Proof.
  destruct l as [|x l]; simpl; [discriminate|].
  intros [= <-]. apply fold_py_min_In.
Qed.

(** On prices that never fall, the trend follower does not signal [sell]:
    the close is under none of the closes before it. *)
Lemma trend_following_never_sells parameters prices i sig :
  never_falls prices ->
  trend_following_signal parameters prices (Z.of_nat i) = Ok sig ->
  sig <> sell.
Proof.
  intros Hmono. unfold trend_following_signal. cbv zeta.
  destruct (Z.of_nat i <? get (p_lookback parameters) 20%Z)%Z eqn:E;
    [intros [= <-]; discriminate|].
  apply Z.ltb_ge in E. intro H.
  apply bind_Ok in H as (high & _ & H).
  apply bind_Ok in H as (low & Hlow & H).
  apply bind_Ok in H as (current_price & Hcur & H).
  apply min_list_In in Hlow.
  apply py_slice_In in Hlow as (j & Hj & Hnth); [|lia|lia].
  rewrite py_index_nat in Hcur.
  destruct (nth_error prices i) as [p|] eqn:Hi; [|discriminate].
  injection Hcur as ->.
  assert (Hle : low <= current_price)
    by (apply (Hmono j i); [lia | exact Hnth | exact Hi]).
  destruct (Qltb high current_price); [congruence|].
  destruct (Qltb current_price low) eqn:Es; [|congruence].
  apply Qltb_lt in Es. lra.
Qed.

(** Each signal is the strategy's verdict on the prices of its symbol. *)
Lemma generate_signals_In strategy data current_idx signals symbol sig :
  generate_signals strategy data current_idx = Ok signals ->
  In (symbol, sig) signals ->
  exists prices,
    In (symbol, prices) data /\ signal_of strategy prices current_idx = Ok sig.
Proof.
  unfold generate_signals.
  assert (G : forall acc : dict Signal,
             foldM (fun signals item =>
                      sg <- signal_of strategy (snd item) current_idx ;;
                      Ok (dict_set signals (fst item) sg)) data acc
             = Ok signals ->
             In (symbol, sig) signals ->
             In (symbol, sig) acc \/
             exists prices,
               In (symbol, prices) data /\
               signal_of strategy prices current_idx = Ok sig).
  { induction data as [|[k prices] data IH]; simpl; intros acc H Hin.
    - injection H as <-. now left.
    - apply bind_Ok in H as (acc' & Hacc & H).
      apply bind_Ok in Hacc as (sg & Hsg & [= <-]).
      destruct (IH _ H Hin) as [Hacc | (prices' & Hin' & Hs)].
      + apply In_dict_set in Hacc as [Hacc | [= -> ->]]; [now left|].
        right. exists prices. split; [now left | exact Hsg].
      + right. exists prices'. split; [now right | exact Hs]. }
  intros H Hin. destruct (G [] H Hin) as [[] | Hex]. exact Hex.
Qed.

Lemma execute_signal_no_sell e price_data i st symbol signal st' :
  signal <> sell ->
  execute_signal e price_data i st (symbol, signal) = Ok st' ->
  st_trades st' = st_trades st.
Proof.
  intros Hns H.
  apply execute_signal_cases in H
    as (prices & p & _ & _ & [-> | [(_ & _ & H) | (Hs & _)]]).
  - reflexivity.
  - apply execute_buy_cases in H as [_ [-> | (_ & _ & ->)]]; reflexivity.
  - contradiction.
Qed.

(** X24: a trend-following run over closes that never fall closes no trade,
    however many positions it opens, and so a run that completes reports
    the empty result: a total return of 0 and no equity curve, whatever the
    open positions have gained. *)
Theorem X24_trend_following_in_a_rising_market :
  forall e provider symbols start_date parameters,
    (forall symbol,
       In symbol symbols -> never_falls (close (provider symbol))) ->
    (forall n st,
       simulation e provider symbols TREND_FOLLOWING start_date parameters n
       = Ok st ->
       st_trades st = []) /\
    (forall r,
       run_backtest e provider symbols TREND_FOLLOWING start_date parameters
       = Ok r ->
       r = _empty_results).
Proof.
  intros e provider symbols start_date parameters Hmono.
  assert (Hsim : forall n st,
             simulation e provider symbols TREND_FOLLOWING start_date
               parameters n = Ok st ->
             st_trades st = []).
  { unfold simulation. intros n st H.
    apply (simulate_invariant (fun s => st_trades s = [])) in H;
      [exact H| |reflexivity].
    intros i s s' Hs Hbar.
    apply bar_Ok in Hbar as (signals & s1 & Hsig & Hexec & Hrec).
    apply record_equity_positions in Hrec as (_ & Ht & _). rewrite Ht.
    clear Ht s'. revert s s1 Hs Hexec.
    assert (Hall : forall item, In item signals -> snd item <> sell).
    { intros [symbol sig] Hin. simpl.
      destruct (generate_signals_In _ _ _ _ _ _ Hsig Hin)
        as (prices & Hp & Hs).
      apply (in_map snd) in Hp. simpl in Hp.
      apply price_data_of_values in Hp as (sym & Hsym & ->).
      unfold signal_of in Hs. simpl in Hs.
      eapply trend_following_never_sells; [apply Hmono; exact Hsym | exact Hs]. }
    clear Hsig. induction signals as [|[symbol sig] signals IH];
      simpl; intros s s1 Hs Hexec.
    - injection Hexec as <-. exact Hs.
    - apply bind_Ok in Hexec as (s0 & H0 & H1).
      apply (IH (fun item Hin => Hall item (or_intror Hin)) s0 s1);
        [|exact H1].
      rewrite (execute_signal_no_sell _ _ _ _ _ _ _
                 (Hall (symbol, sig) (or_introl eq_refl)) H0).
      exact Hs. }
  split; [exact Hsim|].
  intro r. unfold run_backtest.
  destruct (min_length_of
              (price_data_of (fetch_historical_data provider symbols)))
    as [|n]; [congruence|].
  intro H. apply bind_Ok in H as (st & Hst & Hmetrics).
  apply Hsim in Hst. unfold _calculate_metrics in Hmetrics.
  rewrite Hst in Hmetrics. congruence.
Qed.

Lemma rising_closes_never_fall : never_falls [1; 2; 3; 4].
Proof.
  assert (H : forall k v,
             nth_error [1; 2; 3; 4] k = Some v ->
             v == inject_Z (Z.of_nat k) + 1).
  { intros k v Hk.
    do 4 (destruct k as [|k]; [injection Hk as <-; reflexivity|]).
    destruct k; discriminate Hk. }
  intros i j x y Hij Hi Hj.
  rewrite (H i x Hi), (H j y Hj).
  apply Nat2Z.inj_le in Hij. rewrite Zle_Qle in Hij. lra.
Qed.

Lemma X24_witness :
  (forall n st,
     simulation backtest_engine (constant_provider [1; 2; 3; 4])
       ["AAPL"%string] TREND_FOLLOWING 0 lookback_1 n = Ok st ->
     st_trades st = []) /\
  (forall r,
     run_backtest backtest_engine (constant_provider [1; 2; 3; 4])
       ["AAPL"%string] TREND_FOLLOWING 0 lookback_1 = Ok r ->
     r = _empty_results).
Proof.
  apply (X24_trend_following_in_a_rising_market backtest_engine
           (constant_provider [1; 2; 3; 4]) ["AAPL"%string] 0%Z lookback_1).
  intros symbol _. exact rising_closes_never_fall.
Defined.

Lemma X12_witness :
  (min_length_of
     (price_data_of
        (fetch_historical_data provider_without_msft
           ["AAPL"%string; "MSFT"%string]))
   <= length (close (provider_without_msft "AAPL")))%nat /\
  (exists symbol,
     In symbol ["AAPL"%string; "MSFT"%string] /\
     min_length_of
       (price_data_of
          (fetch_historical_data provider_without_msft
             ["AAPL"%string; "MSFT"%string]))
     = length (close (provider_without_msft symbol))) /\
  run_backtest backtest_engine provider_without_msft
    ["AAPL"%string; "MSFT"%string] MOMENTUM 0 no_params = Ok _empty_results.
Proof.
  destruct (X12_simulated_length_is_shortest_series backtest_engine
              provider_without_msft ["AAPL"%string; "MSFT"%string] MOMENTUM
              0%Z no_params) as (Hle & Hex & Hempty).
  split; [|split].
  - apply Hle. simpl. auto.
  - apply Hex. discriminate.
  - apply (Hempty "MSFT"%string); [simpl; auto | reflexivity].
Defined.

(** * The signals of a bar *)

(** X25: the signals that [generate_signals] returns hold each symbol of the
    data once and no other symbol; and the momentum strategy (which is also
    the strategy of every type outside the table) returns signals on any
    data at any index, inside the data or not: it never raises. *)
Theorem X25_one_signal_per_symbol :
  (forall strategy data current_idx signals,
     generate_signals strategy data current_idx = Ok signals ->
     NoDup (dict_keys signals) /\
     forall symbol, dict_mem signals symbol = dict_mem data symbol) /\
  (forall strategy_type parameters data current_idx,
     strategy_type <> MEAN_REVERSION -> strategy_type <> TREND_FOLLOWING ->
     exists signals,
       generate_signals (get_strategy strategy_type parameters) data
         current_idx = Ok signals).
Proof.
  split.
  - intros strategy data current_idx signals H. split.
    + eapply generate_signals_NoDup. exact H.
    + eapply generate_signals_keys. exact H.
  - intros strategy_type parameters data current_idx Hmr Htf.
    unfold generate_signals.
    assert (Hsig : forall prices,
               exists sig,
                 signal_of (get_strategy strategy_type parameters) prices
                   current_idx = Ok sig).
    { intro prices. unfold signal_of.
      destruct strategy_type; simpl; try contradiction;
        apply momentum_signal_total. }
    generalize (@nil (string * Signal)).
    induction data as [|[k prices] data IH]; intro acc; simpl; [eauto|].
    destruct (Hsig prices) as [sig ->]. simpl. apply IH.
Qed.

Lemma X25_witness :
  (NoDup (dict_keys [("AAPL"%string, hold); ("MSFT"%string, hold)]) /\
   forall symbol,
     dict_mem [("AAPL"%string, hold); ("MSFT"%string, hold)] symbol
     = dict_mem [("AAPL"%string, [1; 2]); ("MSFT"%string, [3])] symbol) /\
  exists signals,
    generate_signals (get_strategy OTHER no_params)
      [("AAPL"%string, [1; 2]); ("MSFT"%string, [3])] (-5) = Ok signals.
Proof.
  destruct X25_one_signal_per_symbol as [Hkeys Htotal].
  split.
  - apply (Hkeys (get_strategy MOMENTUM no_params)
             [("AAPL"%string, [1; 2]); ("MSFT"%string, [3])] 1%Z).
    reflexivity.
  - apply Htotal; discriminate.
Defined.

(** X26: a momentum strategy whose short or long period is 0 or negative
    signals [hold] on every bar: the moving average over the empty window is
    not a number, and every comparison with it is false. *)
Theorem X26_momentum_without_a_period_holds :
  forall parameters prices i,
    (get (p_short_period parameters) 10 <= 0)%Z \/
    (get (p_long_period parameters) 30 <= 0)%Z ->
    momentum_signal parameters prices (Z.of_nat i) = Ok hold.
Proof.
  intros parameters prices i Hperiod.
  unfold momentum_signal. cbv zeta.
  destruct (Z.of_nat i <? get (p_long_period parameters) 30%Z)%Z;
    [reflexivity|].
  destruct Hperiod as [Hshort | Hlong].
  - rewrite (py_slice_empty prices
               (Z.of_nat i - get (p_short_period parameters) 10%Z)
               (Z.of_nat i)) by lia.
    simpl.
    destruct (np_mean (py_slice prices
                         (Z.of_nat i - get (p_long_period parameters) 30%Z)
                         (Z.of_nat i))); reflexivity.
  - rewrite (py_slice_empty prices
               (Z.of_nat i - get (p_long_period parameters) 30%Z)
               (Z.of_nat i)) by lia.
    simpl.
    destruct (np_mean (py_slice prices
                         (Z.of_nat i - get (p_short_period parameters) 10%Z)
                         (Z.of_nat i))); reflexivity.
Qed.

Lemma X26_witness :
  momentum_signal short_period_0 [1; 2; 3; 50] (Z.of_nat 3) = Ok hold.
Proof.
  apply (X26_momentum_without_a_period_holds short_period_0 [1; 2; 3; 50]
           3%nat).
  left. simpl. lia.
Defined.
